(** * Embedded IoT controller: render engine, UI line manager, sensor poll,
      telemetry client and scheduler loop.

    Shallow embedding of [Src/tft.c], [Src/app_helpers.c], [Src/i2c.c],
    [Src/app_net.c] and [Src/main.c].  Fixed-width C integers are carried
    as [Z] with their wrap-around written out; file-scope C variables
    become fields of explicit state records; results of the HAL, SPI and
    lwIP calls the code branches on are inputs of the embedded functions. *)

From Stdlib Require Import ZArith List String Ascii Bool Lia.
Import ListNotations.
Open Scope Z_scope.

(** ** Fixed-width integers *)

Definition u8  (x : Z) : Z := x mod 2^8.
Definition u16 (x : Z) : Z := x mod 2^16.
Definition u32 (x : Z) : Z := x mod 2^32.

(** [(int32_t)x] for an [x] already reduced to 32 bits. *)
Definition s32 (x : Z) : Z :=
  let y := u32 x in if y <? 2^31 then y else y - 2^32.

(** [(int16_t)x]. *)
Definition s16 (x : Z) : Z :=
  let y := u16 x in if y <? 2^15 then y else y - 2^16.

(** ** C strings

    A [char] buffer is carried as the [string] it holds up to its first
    NUL; [c_str] gives that view of an arbitrary character sequence. *)

Fixpoint c_str (s : string) : string :=
  match s with
  | EmptyString => EmptyString
  | String c r => if Ascii.eqb c zero then EmptyString else String c (c_str r)
  end.

Fixpoint str_take (n : nat) (s : string) : string :=
  match n, s with
  | O, _ => EmptyString
  | _, EmptyString => EmptyString
  | S m, String c r => String c (str_take m r)
  end.

Definition strlen (s : string) : Z := Z.of_nat (String.length (c_str s)).

(** [strncmp(a, b, n) != 0]. *)
Definition strncmp_ne (a b : string) (n : nat) : bool :=
  negb (String.eqb (str_take n (c_str a)) (str_take n (c_str b))).

(** [strcmp(a, b) != 0]. *)
Definition strcmp_ne (a b : string) : bool :=
  negb (String.eqb (c_str a) (c_str b)).

(** [strncpy(dst, src, n); dst[n] = 0] as the C string then held by [dst]. *)
Definition strncpy_z (src : string) (n : nat) : string :=
  str_take n (c_str src).

(** A [const char *] argument: [None] is the NULL pointer. *)
Definition or_empty (text : option string) : string :=
  match text with Some s => s | None => EmptyString end.

(** [a[i] = v]; an index outside the array leaves it as it is (the callers
    below bound-check before they write). *)
Fixpoint upd {A : Type} (l : list A) (i : nat) (v : A) : list A :=
  match l, i with
  | [], _ => []
  | _ :: r, O => v :: r
  | x :: r, S j => x :: upd r j v
  end.

(** * Render engine ([Src/tft.c]) *)

Module Tft.

Definition TFT_W : Z := 160.
Definition TFT_H : Z := 128.
Definition TFT_PIXELS : Z := TFT_W * TFT_H.

Definition FONT_W : Z := 5.
Definition FONT_H : Z := 7.
Definition CHAR_SP : Z := 1.
Definition CELL_W : Z := FONT_W + CHAR_SP.
Definition LINE_H : Z := 8.
Definition MAX_CHARS : Z := TFT_W / CELL_W.

Definition TFT_CHUNK_BYTES : Z := 512.

Inductive tft_op_t := TFT_OP_NONE | TFT_OP_FILL | TFT_OP_BLIT.

(** What [g_blit_ptr] points to: nothing, or the (shared) line buffer. *)
Inductive blit_src := SRC_NULL | SRC_LINEBUF.

(** Traffic on the display bus.  [BusCmd]/[BusData8] are the single-byte
    writes of [tft_cmd]/[tft_data8]; [BusStream] is one successful pixel
    transfer of [TFT_Task]. *)
Inductive bus_event :=
| BusCmd (c : Z)
| BusData8 (d : Z)
| BusStream (bytes : list Z).

Record tft_state := {
  g_op : tft_op_t;
  g_fill_color : Z;
  g_fill_sent_pixels : Z;
  g_blit_ptr : blit_src;
  g_blit_len : Z;
  g_blit_sent : Z;
  g_linebuf : list Z;
  cs_low : bool
}.

Definition set_op (st : tft_state) (op : tft_op_t) (cs : bool) : tft_state :=
  {| g_op := op; g_fill_color := g_fill_color st;
     g_fill_sent_pixels := g_fill_sent_pixels st;
     g_blit_ptr := g_blit_ptr st; g_blit_len := g_blit_len st;
     g_blit_sent := g_blit_sent st; g_linebuf := g_linebuf st;
     cs_low := cs |}.

Definition font5x7 : list (list Z) :=
  [
    [0x00; 0x00; 0x00; 0x00; 0x00]; [0x00; 0x00; 0x5F; 0x00; 0x00]; [0x00; 0x07; 0x00; 0x07; 0x00]; [0x14; 0x7F; 0x14; 0x7F; 0x14]; [0x24; 0x2A; 0x7F; 0x2A; 0x12];
    [0x23; 0x13; 0x08; 0x64; 0x62]; [0x36; 0x49; 0x55; 0x22; 0x50]; [0x00; 0x05; 0x03; 0x00; 0x00]; [0x00; 0x1C; 0x22; 0x41; 0x00]; [0x00; 0x41; 0x22; 0x1C; 0x00];
    [0x14; 0x08; 0x3E; 0x08; 0x14]; [0x08; 0x08; 0x3E; 0x08; 0x08]; [0x00; 0x50; 0x30; 0x00; 0x00]; [0x08; 0x08; 0x08; 0x08; 0x08]; [0x00; 0x60; 0x60; 0x00; 0x00];
    [0x20; 0x10; 0x08; 0x04; 0x02]; [0x3E; 0x51; 0x49; 0x45; 0x3E]; [0x00; 0x42; 0x7F; 0x40; 0x00]; [0x42; 0x61; 0x51; 0x49; 0x46]; [0x21; 0x41; 0x45; 0x4B; 0x31];
    [0x18; 0x14; 0x12; 0x7F; 0x10]; [0x27; 0x45; 0x45; 0x45; 0x39]; [0x3C; 0x4A; 0x49; 0x49; 0x30]; [0x01; 0x71; 0x09; 0x05; 0x03]; [0x36; 0x49; 0x49; 0x49; 0x36];
    [0x06; 0x49; 0x49; 0x29; 0x1E]; [0x00; 0x36; 0x36; 0x00; 0x00]; [0x00; 0x56; 0x36; 0x00; 0x00]; [0x08; 0x14; 0x22; 0x41; 0x00]; [0x14; 0x14; 0x14; 0x14; 0x14];
    [0x00; 0x41; 0x22; 0x14; 0x08]; [0x02; 0x01; 0x51; 0x09; 0x06]; [0x32; 0x49; 0x79; 0x41; 0x3E]; [0x7E; 0x11; 0x11; 0x11; 0x7E]; [0x7F; 0x49; 0x49; 0x49; 0x36];
    [0x3E; 0x41; 0x41; 0x41; 0x22]; [0x7F; 0x41; 0x41; 0x22; 0x1C]; [0x7F; 0x49; 0x49; 0x49; 0x41]; [0x7F; 0x09; 0x09; 0x09; 0x01]; [0x3E; 0x41; 0x49; 0x49; 0x7A];
    [0x7F; 0x08; 0x08; 0x08; 0x7F]; [0x00; 0x41; 0x7F; 0x41; 0x00]; [0x20; 0x40; 0x41; 0x3F; 0x01]; [0x7F; 0x08; 0x14; 0x22; 0x41]; [0x7F; 0x40; 0x40; 0x40; 0x40];
    [0x7F; 0x02; 0x0C; 0x02; 0x7F]; [0x7F; 0x04; 0x08; 0x10; 0x7F]; [0x3E; 0x41; 0x41; 0x41; 0x3E]; [0x7F; 0x09; 0x09; 0x09; 0x06]; [0x3E; 0x41; 0x51; 0x21; 0x5E];
    [0x7F; 0x09; 0x19; 0x29; 0x46]; [0x46; 0x49; 0x49; 0x49; 0x31]; [0x01; 0x01; 0x7F; 0x01; 0x01]; [0x3F; 0x40; 0x40; 0x40; 0x3F]; [0x1F; 0x20; 0x40; 0x20; 0x1F];
    [0x3F; 0x40; 0x38; 0x40; 0x3F]; [0x63; 0x14; 0x08; 0x14; 0x63]; [0x07; 0x08; 0x70; 0x08; 0x07]; [0x61; 0x51; 0x49; 0x45; 0x43]; [0x00; 0x7F; 0x41; 0x41; 0x00];
    [0x02; 0x04; 0x08; 0x10; 0x20]; [0x00; 0x41; 0x41; 0x7F; 0x00]; [0x04; 0x02; 0x01; 0x02; 0x04]; [0x40; 0x40; 0x40; 0x40; 0x40]; [0x00; 0x01; 0x02; 0x04; 0x00];
    [0x20; 0x54; 0x54; 0x54; 0x78]; [0x7F; 0x48; 0x44; 0x44; 0x38]; [0x38; 0x44; 0x44; 0x44; 0x20]; [0x38; 0x44; 0x44; 0x48; 0x7F]; [0x38; 0x54; 0x54; 0x54; 0x18];
    [0x08; 0x7E; 0x09; 0x01; 0x02]; [0x0C; 0x52; 0x52; 0x52; 0x3E]; [0x7F; 0x08; 0x04; 0x04; 0x78]; [0x00; 0x44; 0x7D; 0x40; 0x00]; [0x20; 0x40; 0x44; 0x3D; 0x00];
    [0x7F; 0x10; 0x28; 0x44; 0x00]; [0x00; 0x41; 0x7F; 0x40; 0x00]; [0x7C; 0x04; 0x18; 0x04; 0x78]; [0x7C; 0x08; 0x04; 0x04; 0x78]; [0x38; 0x44; 0x44; 0x44; 0x38];
    [0x7C; 0x14; 0x14; 0x14; 0x08]; [0x08; 0x14; 0x14; 0x18; 0x7C]; [0x7C; 0x08; 0x04; 0x04; 0x08]; [0x48; 0x54; 0x54; 0x54; 0x20]; [0x04; 0x3F; 0x44; 0x40; 0x20];
    [0x3C; 0x40; 0x40; 0x20; 0x7C]; [0x1C; 0x20; 0x40; 0x20; 0x1C]; [0x3C; 0x40; 0x30; 0x40; 0x3C]; [0x44; 0x28; 0x10; 0x28; 0x44]; [0x0C; 0x50; 0x50; 0x50; 0x3C];
    [0x44; 0x64; 0x54; 0x4C; 0x44]; [0x00; 0x08; 0x36; 0x41; 0x00]; [0x00; 0x00; 0x7F; 0x00; 0x00]; [0x00; 0x41; 0x36; 0x08; 0x00]; [0x08; 0x04; 0x08; 0x10; 0x08]
  ].

Definition glyph_for (c : ascii) : list Z :=
  let n := Z.of_nat (nat_of_ascii c) in
  let n := if (n <? 32) || (126 <? n) then 32 else n in
  nth (Z.to_nat (n - 32)) font5x7 [].

Definition linebuf_set (buf : list Z) (x y c : Z) : list Z :=
  if (TFT_W <=? x) || (LINE_H <=? y) then buf
  else upd buf (Z.to_nat (y * TFT_W + x)) c.

Definition linebuf_clear (bg : Z) : list Z :=
  repeat bg (Z.to_nat (TFT_W * LINE_H)).

(** The inner [for row] loop over one glyph column. *)
Fixpoint draw_rows (buf : list Z) (x y bits fg bg : Z) (row : Z) (n : nat)
  : list Z :=
  match n with
  | O => buf
  | S m =>
      let color := if Z.eqb (Z.land bits (Z.shiftl 1 row)) 0 then bg else fg in
      draw_rows (linebuf_set buf x (u16 (y + row)) color) x y bits fg bg
                (row + 1) m
  end.

(** The outer [for col] loop. *)
Fixpoint draw_cols (buf : list Z) (g : list Z) (x y fg bg : Z) (col : Z)
  (n : nat) : list Z :=
  match n with
  | O => buf
  | S m =>
      let bits := nth (Z.to_nat col) g 0 in
      draw_cols (draw_rows buf (u16 (x + col)) y bits fg bg 0
                           (Z.to_nat FONT_H))
                g x y fg bg (col + 1) m
  end.

Definition linebuf_draw_char (buf : list Z) (x y : Z) (ch : ascii) (fg bg : Z)
  : list Z :=
  let g := glyph_for ch in
  let buf := draw_cols buf g x y fg bg 0 (Z.to_nat FONT_W) in
  (* spacing column: every "bit" clear, so the colour is [bg] *)
  draw_rows buf (u16 (x + FONT_W)) y 0 bg bg 0 (Z.to_nat FONT_H).

Definition tft_cmd (c : Z) : list bus_event := [BusCmd c].
Definition tft_data8 (d : Z) : list bus_event := [BusData8 d].

Definition TFT_SetAddrWindow (x0 y0 x1 y1 : Z) : list bus_event :=
  tft_cmd 0x2A
  ++ tft_data8 (u8 (Z.shiftr x0 8)) ++ tft_data8 (u8 (Z.land x0 0xFF))
  ++ tft_data8 (u8 (Z.shiftr x1 8)) ++ tft_data8 (u8 (Z.land x1 0xFF))
  ++ tft_cmd 0x2B
  ++ tft_data8 (u8 (Z.shiftr y0 8)) ++ tft_data8 (u8 (Z.land y0 0xFF))
  ++ tft_data8 (u8 (Z.shiftr y1 8)) ++ tft_data8 (u8 (Z.land y1 0xFF))
  ++ tft_cmd 0x2C.

(** [TFT_FillColor_Async].  The source carries no busy check here ("if you
    call this while another operation is running, it will overwrite the
    state") and returns [void]; the argument is a [uint16_t]. *)
Definition TFT_FillColor_Async (color565 : Z) (st : tft_state)
  : tft_state * list bus_event :=
  ({| g_op := TFT_OP_FILL;
      g_fill_color := u16 color565;
      g_fill_sent_pixels := 0;
      g_blit_ptr := g_blit_ptr st; g_blit_len := g_blit_len st;
      g_blit_sent := g_blit_sent st; g_linebuf := g_linebuf st;
      cs_low := true |},
   TFT_SetAddrWindow 0 0 (u16 (TFT_W - 1)) (u16 (TFT_H - 1))).

(** [tmp] after the [strncpy] and the optional ellipsis. *)
Definition clip_text (text : string) : string :=
  let tmp := strncpy_z text (Z.to_nat MAX_CHARS) in
  if (MAX_CHARS <? strlen text) && (3 <=? MAX_CHARS)
  then (str_take (Z.to_nat (MAX_CHARS - 3)) tmp ++ "...")%string
  else tmp.

(** The character loop: [n] counts the iterations left of [i < MAX_CHARS]. *)
Fixpoint draw_text (buf : list Z) (tmp : string) (x fg bg : Z) (n : nat)
  : list Z :=
  match n, tmp with
  | O, _ => buf
  | _, EmptyString => buf
  | S m, String ch r =>
      let buf := linebuf_draw_char buf x 0 ch fg bg in
      let x := u16 (x + CELL_W) in
      if TFT_W <=? x then buf else draw_text buf r x fg bg m
  end.

(** [TFT_DrawTextLine_Async]: returns [void]; a call while an operation is
    running, or with [y] below the screen, returns at once. *)
Definition TFT_DrawTextLine_Async (y : Z) (text : option string) (fg bg : Z)
  (st : tft_state) : tft_state * list bus_event :=
  let y := u16 y in
  let fg := u16 fg in
  let bg := u16 bg in
  if TFT_H <=? y then (st, [])
  else match g_op st with
  | TFT_OP_FILL | TFT_OP_BLIT => (st, [])
  | TFT_OP_NONE =>
      let y := if TFT_H - LINE_H <? y then u16 (TFT_H - LINE_H) else y in
      let buf := linebuf_clear bg in
      let tmp := clip_text (or_empty text) in
      let buf := draw_text buf tmp 0 fg bg (Z.to_nat MAX_CHARS) in
      ({| g_op := TFT_OP_BLIT;
          g_fill_color := g_fill_color st;
          g_fill_sent_pixels := g_fill_sent_pixels st;
          g_blit_ptr := SRC_LINEBUF;
          g_blit_len := u32 (TFT_W * LINE_H * 2);
          g_blit_sent := 0;
          g_linebuf := buf;
          cs_low := true |},
       TFT_SetAddrWindow 0 y (u16 (TFT_W - 1)) (u16 (y + LINE_H - 1)))
  end.

(** The fill loop that expands one RGB565 value into [g_txbuf]. *)
Fixpoint fill_txbuf (hi lo : Z) (pixels : nat) : list Z :=
  match pixels with
  | O => []
  | S m => hi :: lo :: fill_txbuf hi lo m
  end.

(** [src[i]] for [src = (const uint16_t * )g_blit_ptr + first], read from
    the line buffer as it is at the time of the call. *)
Definition src_pixel (p : blit_src) (buf : list Z) (first : Z) (i : nat) : Z :=
  match p with
  | SRC_LINEBUF => nth (Z.to_nat first + i) buf 0
  | SRC_NULL => 0
  end.

(** The blit loop that writes the pixels big-endian into [g_txbuf]. *)
Definition blit_txbuf (p : blit_src) (buf : list Z) (first : Z) (pixels : nat)
  : list Z :=
  flat_map (fun i => let c := src_pixel p buf first i in
                     [u8 (Z.shiftr c 8); u8 (Z.land c 0xFF)])
           (seq 0 pixels).

(** [TFT_Task]; [spi_ok] is whether [HAL_SPI_Transmit] returns [HAL_OK]
    should this call reach it. *)
Definition TFT_Task (spi_ok : bool) (st : tft_state)
  : tft_state * list bus_event :=
  match g_op st with
  | TFT_OP_NONE => (st, [])
  | TFT_OP_FILL =>
      let remaining := u32 (TFT_PIXELS - g_fill_sent_pixels st) in
      if remaining =? 0 then (set_op st TFT_OP_NONE false, [])
      else
        let bytes := TFT_CHUNK_BYTES in
        let bytes := if Z.eqb (Z.land bytes 1) 0 then bytes else bytes - 1 in
        let max_pixels := bytes / 2 in
        let this_pixels :=
          if max_pixels <? remaining then max_pixels else remaining in
        let hi := u8 (Z.shiftr (g_fill_color st) 8) in
        let lo := u8 (Z.land (g_fill_color st) 0xFF) in
        let txbuf := fill_txbuf hi lo (Z.to_nat this_pixels) in
        if negb spi_ok then (st, [])
        else
          let sent := u32 (g_fill_sent_pixels st + this_pixels) in
          ({| g_op := if TFT_PIXELS <=? sent then TFT_OP_NONE else TFT_OP_FILL;
              g_fill_color := g_fill_color st;
              g_fill_sent_pixels := sent;
              g_blit_ptr := g_blit_ptr st; g_blit_len := g_blit_len st;
              g_blit_sent := g_blit_sent st; g_linebuf := g_linebuf st;
              cs_low := if TFT_PIXELS <=? sent then false else cs_low st |},
           [BusStream txbuf])
  | TFT_OP_BLIT =>
      let remaining := u32 (g_blit_len st - g_blit_sent st) in
      if remaining =? 0 then (set_op st TFT_OP_NONE false, [])
      else
        let max_pixels := TFT_CHUNK_BYTES / 2 in
        let this_pixels := remaining / 2 in
        let this_pixels :=
          if max_pixels <? this_pixels then max_pixels else this_pixels in
        let txbuf :=
          blit_txbuf (g_blit_ptr st) (g_linebuf st) (g_blit_sent st / 2)
                     (Z.to_nat this_pixels) in
        let this_bytes := u32 (this_pixels * 2) in
        if negb spi_ok then (st, [])
        else
          let sent := u32 (g_blit_sent st + this_bytes) in
          ({| g_op := if g_blit_len st <=? sent then TFT_OP_NONE
                      else TFT_OP_BLIT;
              g_fill_color := g_fill_color st;
              g_fill_sent_pixels := g_fill_sent_pixels st;
              g_blit_ptr := g_blit_ptr st; g_blit_len := g_blit_len st;
              g_blit_sent := sent; g_linebuf := g_linebuf st;
              cs_low := if g_blit_len st <=? sent then false else cs_low st |},
           [BusStream txbuf])
  end.

Definition TFT_IsBusy (st : tft_state) : bool :=
  match g_op st with TFT_OP_NONE => false | _ => true end.

(** Repeated [TFT_Task], one SPI outcome per call, with the bus traffic of
    all calls in order. *)
Fixpoint pump (oks : list bool) (st : tft_state) : tft_state * list bus_event :=
  match oks with
  | [] => (st, [])
  | ok :: r =>
      let '(st1, ev1) := TFT_Task ok st in
      let '(st2, ev2) := pump r st1 in
      (st2, ev1 ++ ev2)
  end.

(** How many of the calls found the bus write succeeding. *)
Fixpoint successes (oks : list bool) : Z :=
  match oks with
  | [] => 0
  | ok :: r => (if ok then 1 else 0) + successes r
  end.

(** The pixel bytes carried by a piece of bus traffic. *)
Fixpoint streamed (evs : list bus_event) : list Z :=
  match evs with
  | [] => []
  | BusStream bs :: r => bs ++ streamed r
  | _ :: r => streamed r
  end.


(** The engine [chunks] successful transfers into a fill started over
    [base]: what [TFT_FillColor_Async] and [TFT_Task] leave in the state. *)
Definition fill_st (base : tft_state) (color chunks : Z) : tft_state :=
  let sent := (TFT_CHUNK_BYTES / 2) * chunks in
  {| g_op := if sent <? TFT_PIXELS then TFT_OP_FILL else TFT_OP_NONE;
     g_fill_color := u16 color;
     g_fill_sent_pixels := sent;
     g_blit_ptr := g_blit_ptr base; g_blit_len := g_blit_len base;
     g_blit_sent := g_blit_sent base; g_linebuf := g_linebuf base;
     cs_low := sent <? TFT_PIXELS |}.

(** The engine with [sent] bytes out of a blit of [len] bytes from the
    line buffer [buf]. *)
Definition blit_st (base : tft_state) (buf : list Z) (len sent : Z)
  : tft_state :=
  {| g_op := if sent <? len then TFT_OP_BLIT else TFT_OP_NONE;
     g_fill_color := g_fill_color base;
     g_fill_sent_pixels := g_fill_sent_pixels base;
     g_blit_ptr := SRC_LINEBUF; g_blit_len := len;
     g_blit_sent := sent; g_linebuf := buf;
     cs_low := sent <? len |}.


(** State right after [TFT_Init]. *)
Definition tft_init : tft_state :=
  {| g_op := TFT_OP_NONE; g_fill_color := 0; g_fill_sent_pixels := 0;
     g_blit_ptr := SRC_NULL; g_blit_len := 0; g_blit_sent := 0;
     g_linebuf := repeat 0 (Z.to_nat (TFT_W * LINE_H)); cs_low := false |}.

(** ** Blocking wrapper, initialisation and the colour-cycle demo *)

(** [TFT_Init]: the reset and the four controller commands, after which
    the engine is idle with chip select released. *)
Definition TFT_Init (st : tft_state) : tft_state * list bus_event :=
  (set_op st TFT_OP_NONE false,
   tft_cmd 0x11 ++ tft_cmd 0x3A ++ tft_data8 0x05
   ++ tft_cmd 0x36 ++ tft_data8 0x60 ++ tft_cmd 0x29).

(** The loop [while (TFT_IsBusy()) TFT_Task();] of [TFT_FillColor], one
    SPI outcome per iteration; [None] when the outcomes run out with the
    engine still busy (the loop has not returned yet). *)
Fixpoint busy_loop (oks : list bool) (st : tft_state)
  : option (tft_state * list bus_event) :=
  if TFT_IsBusy st then
    match oks with
    | [] => None
    | ok :: r =>
        let '(st1, ev1) := TFT_Task ok st in
        match busy_loop r st1 with
        | None => None
        | Some (st2, ev2) => Some (st2, ev1 ++ ev2)
        end
    end
  else Some (st, []).

Definition TFT_FillColor (color565 : Z) (oks : list bool) (st : tft_state)
  : option (tft_state * list bus_event) :=
  let '(st0, ev0) := TFT_FillColor_Async color565 st in
  match busy_loop oks st0 with
  | None => None
  | Some (st1, ev1) => Some (st1, ev0 ++ ev1)
  end.

Record tft_cycle_t := {
  phase : Z;
  phase_start : Z;
  running : Z;
  hold_ms : Z
}.

(** The engine together with [g_cycle]. *)
Record cycle_state := {
  eng : tft_state;
  g_cycle : tft_cycle_t
}.

(** [now] is the value [HAL_GetTick()] returns inside the call. *)
Definition TFT_RGB_Cycle_Start (hold : Z) (now : Z) (st : cycle_state)
  : cycle_state :=
  {| eng := fst (TFT_FillColor_Async 0xF800 (eng st));
     g_cycle := {| phase := 0; phase_start := u32 now; running := 1;
                   hold_ms := if u32 hold =? 0 then 700 else u32 hold |} |}.

Definition TFT_RGB_Cycle_Stop (st : cycle_state) : cycle_state :=
  {| eng := eng st;
     g_cycle := {| phase := phase (g_cycle st);
                   phase_start := phase_start (g_cycle st);
                   running := 0; hold_ms := hold_ms (g_cycle st) |} |}.

Definition TFT_RGB_Cycle_Task (spi_ok : bool) (now : Z) (st : cycle_state)
  : cycle_state :=
  let e := fst (TFT_Task spi_ok (eng st)) in
  let c := g_cycle st in
  if running c =? 0 then {| eng := e; g_cycle := c |}
  else if TFT_IsBusy e then {| eng := e; g_cycle := c |}
  else if u32 (u32 now - phase_start c) <? hold_ms c
  then {| eng := e; g_cycle := c |}
  else
    let p := u8 ((phase c + 1) mod 3) in
    let color := if p =? 0 then 0xF800 else if p =? 1 then 0x07E0 else 0x001F in
    {| eng := fst (TFT_FillColor_Async color e);
       g_cycle := {| phase := p; phase_start := u32 now;
                     running := running c; hold_ms := hold_ms c |} |}.

(** The colour the demo shows in a phase. *)
Definition phase_color (p : Z) : Z :=
  if p =? 0 then 0xF800 else if p =? 1 then 0x07E0 else 0x001F.

(** Calls of the demo, as the main loop can make them. *)
Inductive cycle_op :=
| CycleTask (spi_ok : bool) (now : Z)
| CycleStop
| CycleStart (hold now : Z).

Definition cycle_step (op : cycle_op) (st : cycle_state) : cycle_state :=
  match op with
  | CycleTask ok now => TFT_RGB_Cycle_Task ok now st
  | CycleStop => TFT_RGB_Cycle_Stop st
  | CycleStart hold now => TFT_RGB_Cycle_Start hold now st
  end.

(** Bytes and pixels still to go in the running operation. *)
Definition op_well_formed (st : tft_state) : Prop :=
  match g_op st with
  | TFT_OP_NONE => True
  | TFT_OP_FILL => 0 <= g_fill_sent_pixels st < TFT_PIXELS
  | TFT_OP_BLIT => 0 <= g_blit_sent st < g_blit_len st /\ g_blit_len st < 2^32
  end.

(** Pixels a drawing step can leave: the two colours of the call. *)
Definition two_tone (fg bg : Z) (buf : list Z) : Prop :=
  Forall (fun c => c = fg \/ c = bg) buf.

(** Entries of the last pixel row (row 7) and beyond. *)
Definition below_glyphs (bg : Z) (buf : list Z) : Prop :=
  forall i : nat, (1120 <= i)%nat -> (i < List.length buf)%nat ->
                  nth i buf 0 = bg.


End Tft.

(** * UI line manager ([Src/app_helpers.c]) *)

Module Ui.
Import Tft.

Definition UI_LINE_H : Z := 8.
Definition UI_MAX_LINES : Z := 16.
Definition UI_TEXT_MAX : Z := 128.

Record ui_line_t := {
  used : bool;
  dirty : bool;
  fg : Z;
  bg : Z;
  text : string;
  last : string
}.

(** An entry after [memset(..., 0, ...)]. *)
Definition zero_line : ui_line_t :=
  {| used := false; dirty := false; fg := 0; bg := 0;
     text := EmptyString; last := EmptyString |}.

(** The line cache, its round-robin cursor, and the render engine the pump
    hands lines to. *)
Record ui_state := {
  s_ui : list ui_line_t;
  s_ui_rr : Z;
  tft : tft_state
}.

Definition line (st : ui_state) (idx : Z) : ui_line_t :=
  nth (Z.to_nat idx) (s_ui st) zero_line.

Definition App_UI_ClearAll (st : ui_state) : ui_state :=
  {| s_ui := repeat zero_line (Z.to_nat UI_MAX_LINES);
     s_ui_rr := 0;
     tft := tft st |}.

Definition App_UI_ClearLine (idx : Z) (st : ui_state) : ui_state :=
  let idx := u8 idx in
  if UI_MAX_LINES <=? idx then st
  else {| s_ui := upd (s_ui st) (Z.to_nat idx) zero_line;
          s_ui_rr := s_ui_rr st;
          tft := tft st |}.

Definition App_UI_SetLine (idx fg' bg' : Z) (txt : option string)
  (st : ui_state) : ui_state :=
  let idx := u8 idx in
  if UI_MAX_LINES <=? idx then st
  else
    let L := line st idx in
    let txt := or_empty txt in
    let changed := strncmp_ne (text L) txt (Z.to_nat UI_TEXT_MAX) in
    let L' :=
      {| used := true;
         dirty := if changed then true else dirty L;
         fg := u16 fg';
         bg := u16 bg';
         text := if changed then strncpy_z txt (Z.to_nat (UI_TEXT_MAX - 1))
                 else text L;
         last := last L |} in
    {| s_ui := upd (s_ui st) (Z.to_nat idx) L';
       s_ui_rr := s_ui_rr st;
       tft := tft st |}.

(** The [for] loop of [ui_active_count]: [last] is the running result, [i]
    the loop index, [n] the iterations left. *)
Fixpoint last_used (ui : list ui_line_t) (last_i : Z) (i : Z) (n : nat) : Z :=
  match n with
  | O => last_i
  | S m =>
      last_used ui (if used (nth (Z.to_nat i) ui zero_line) then i else last_i)
                (i + 1) m
  end.

Definition ui_active_count (st : ui_state) : Z :=
  let l := last_used (s_ui st) (-1) 0 (Z.to_nat UI_MAX_LINES) in
  if l <? 0 then 0 else u8 (l + 1).

(** One call of [TFT_DrawTextLine_Async] made by the pump. *)
Record render := {
  r_idx : Z;
  r_y : Z;
  r_text : string;
  r_fg : Z;
  r_bg : Z
}.

(** The scan loop of [ui_pump_once] from iteration [k], with [fuel]
    iterations left; falling out of the loop resets the cursor. *)
Fixpoint ui_scan (st : ui_state) (n k : Z) (fuel : nat)
  : ui_state * list render :=
  match fuel with
  | O => ({| s_ui := s_ui st; s_ui_rr := 0; tft := tft st |}, [])
  | S m =>
      let idx := u8 ((s_ui_rr st + k) mod n) in
      let L := line st idx in
      if negb (used L) then ui_scan st n (k + 1) m
      else if dirty L || strcmp_ne (text L) (last L) then
        let y := u16 (idx * UI_LINE_H) in
        let tft' :=
          fst (TFT_DrawTextLine_Async y (Some (text L)) (fg L) (bg L)
                                      (tft st)) in
        let L' :=
          {| used := used L; dirty := false; fg := fg L; bg := bg L;
             text := text L;
             last := strncpy_z (text L) (Z.to_nat (UI_TEXT_MAX - 1)) |} in
        ({| s_ui := upd (s_ui st) (Z.to_nat idx) L';
            s_ui_rr := u8 ((idx + 1) mod n);
            tft := tft' |},
         [{| r_idx := idx; r_y := y; r_text := text L;
             r_fg := fg L; r_bg := bg L |}])
      else ui_scan st n (k + 1) m
  end.

Definition ui_pump_once (st : ui_state) : ui_state * list render :=
  if TFT_IsBusy (tft st) then (st, [])
  else
    let n := ui_active_count st in
    if n =? 0 then (st, [])
    else ui_scan st n 0 (Z.to_nat n).

(** The render engine's own tick, on the shared state. *)
Definition TFT_Task (spi_ok : bool) (st : ui_state) : ui_state :=
  {| s_ui := s_ui st; s_ui_rr := s_ui_rr st;
     tft := fst (Tft.TFT_Task spi_ok (tft st)) |}.

(** Operations of the line manager, as the main loop can interleave them. *)
Inductive ui_op :=
| OpSetLine (idx fg bg : Z) (txt : option string)
| OpPump
| OpClearLine (idx : Z)
| OpClearAll
| OpTftTask (spi_ok : bool).

Definition ui_step (op : ui_op) (st : ui_state) : ui_state * list render :=
  match op with
  | OpSetLine idx f b t => (App_UI_SetLine idx f b t st, [])
  | OpPump => ui_pump_once st
  | OpClearLine idx => (App_UI_ClearLine idx st, [])
  | OpClearAll => (App_UI_ClearAll st, [])
  | OpTftTask ok => (TFT_Task ok st, [])
  end.

Fixpoint ui_run (ops : list ui_op) (st : ui_state) : ui_state * list render :=
  match ops with
  | [] => (st, [])
  | op :: r =>
      let '(st1, r1) := ui_step op st in
      let '(st2, r2) := ui_run r st1 in
      (st2, r1 ++ r2)
  end.

(** A stored entry is in order when its desired text is a C string that
    fits the 128-byte field and the dirty flag covers every difference
    between desired and last-rendered text. *)
Definition line_ok (L : ui_line_t) : Prop :=
  strncpy_z (text L) (Z.to_nat (UI_TEXT_MAX - 1)) = text L /\
  (text L <> last L -> dirty L = true).

Definition ui_inv (st : ui_state) : Prop := Forall line_ok (s_ui st).

(** Nothing is waiting to be drawn. *)
Definition line_clean (L : ui_line_t) : Prop :=
  dirty L = false /\ text L = last L.

Definition ui_clean (st : ui_state) : Prop := Forall line_clean (s_ui st).

(** Operations that leave every desired text of [st0] as it is: setting a
    line to the text it already holds, pumping, and engine ticks. *)
Definition keeps_text (st0 : ui_state) (op : ui_op) : Prop :=
  match op with
  | OpSetLine idx _ _ txt => or_empty txt = text (line st0 (u8 idx))
  | OpPump => True
  | OpTftTask _ => True
  | OpClearLine _ => False
  | OpClearAll => False
  end.

(** Operations that leave the desired text of line [idx] of [st0] as it
    is, whatever they do to other lines. *)
Definition keeps_line (st0 : ui_state) (idx : Z) (op : ui_op) : Prop :=
  match op with
  | OpSetLine i _ _ txt =>
      u8 i <> idx \/ or_empty txt = text (line st0 idx)
  | OpPump => True
  | OpTftTask _ => True
  | OpClearLine i => u8 i <> idx
  | OpClearAll => False
  end.

(** The cleared line manager over an engine in state [t]. *)
Definition ui_cleared (t : tft_state) : ui_state :=
  App_UI_ClearAll {| s_ui := []; s_ui_rr := 0; tft := t |}.

(** ** Scan order and bounds *)

(** A line the pump would submit: used, and dirty or not yet drawn as it
    now reads. *)
Definition pending_line (L : ui_line_t) : bool :=
  used L && (dirty L || strcmp_ne (text L) (last L)).

(** The index the scan loop looks at in iteration [k] over [n] active
    lines. *)
Definition scan_index (st : ui_state) (n k : Z) : Z :=
  u8 ((s_ui_rr st + k) mod n).

(** Every entry fits its two 128-byte text fields. *)
Definition line_fits (L : ui_line_t) : Prop :=
  (String.length (text L) <= 127)%nat /\ (String.length (last L) <= 127)%nat.

(** The line cache is the 16-entry array with fitting texts and the cursor
    inside it. *)
Definition ui_bounded (st : ui_state) : Prop :=
  List.length (s_ui st) = 16%nat /\
  Forall line_fits (s_ui st) /\
  0 <= s_ui_rr st < UI_MAX_LINES.

(** What the scan does on a pending line. *)
Definition after_render (st : ui_state) (n idx : Z) : ui_state * list render :=
  let L := line st idx in
  let y := u16 (idx * UI_LINE_H) in
  ({| s_ui := upd (s_ui st) (Z.to_nat idx)
               {| used := used L; dirty := false; fg := fg L; bg := bg L;
                  text := text L;
                  last := strncpy_z (text L) (Z.to_nat (UI_TEXT_MAX - 1)) |};
      s_ui_rr := u8 ((idx + 1) mod n);
      tft := fst (TFT_DrawTextLine_Async y (Some (text L)) (fg L) (bg L)
                                         (tft st)) |},
   [{| r_idx := idx; r_y := y; r_text := text L;
       r_fg := fg L; r_bg := bg L |}]).


End Ui.

(** * Sensor poll service ([Src/i2c.c]) *)

Module I2c.

Inductive HAL_StatusTypeDef := HAL_OK | HAL_ERROR | HAL_BUSY | HAL_TIMEOUT.

Definition is_ok (s : HAL_StatusTypeDef) : bool :=
  match s with HAL_OK => true | _ => false end.

(** The [HAL_I2C_ERROR_*] flag values.  They come from the vendor HAL
    header, which is not among the sources, so the code is embedded over
    any assignment of them. *)
Record hal_i2c_errors := {
  HAL_I2C_ERROR_NONE : Z;
  HAL_I2C_ERROR_AF : Z;
  HAL_I2C_ERROR_TIMEOUT : Z;
  HAL_I2C_ERROR_BERR : Z;
  HAL_I2C_ERROR_ARLO : Z;
  HAL_I2C_ERROR_OVR : Z;
  HAL_I2C_ERROR_DMA : Z
}.

(** The assignment of the STM32F7 HAL, for running the model. *)
Definition stm32f7_errors : hal_i2c_errors :=
  {| HAL_I2C_ERROR_NONE := 0x00; HAL_I2C_ERROR_BERR := 0x01;
     HAL_I2C_ERROR_ARLO := 0x02; HAL_I2C_ERROR_AF := 0x04;
     HAL_I2C_ERROR_OVR := 0x08; HAL_I2C_ERROR_DMA := 0x10;
     HAL_I2C_ERROR_TIMEOUT := 0x20 |}.

(** What one [HAL_I2C_Master_Receive] does: its return status, the two
    bytes it leaves in [buf], and the value [HAL_I2C_GetError] reports
    afterwards. *)
Record read_outcome := {
  ret : HAL_StatusTypeDef;
  buf0 : Z;
  buf1 : Z;
  error_code : Z
}.

(** Module state.  [g_i2c_temp] is a [float] in the source; it only ever
    holds a converted [int16_t], which [float] represents exactly, so it is
    carried as that integer.  [recoveries] lists the executed
    [I2C1_BusRecover] calls, each with the number of clock pulses it drove. *)
Record i2c_state := {
  g_i2c_ok : Z;
  g_i2c_temp : Z;
  g_i2c_last_err : string;
  nextPollMs : Z;
  recoveries : list nat
}.

Definition i2c_init : i2c_state :=
  {| g_i2c_ok := 0; g_i2c_temp := 0; g_i2c_last_err := "NONE";
     nextPollMs := 0; recoveries := [] |}.

Section WithErrors.
Variable E : hal_i2c_errors.

Definition flag (e f : Z) : bool := negb (Z.eqb (Z.land e f) 0).

Definition I2C_ErrStr (e : Z) : string :=
  if e =? HAL_I2C_ERROR_NONE E then "NONE"
  else if flag e (HAL_I2C_ERROR_AF E) then "NACK"
  else if flag e (HAL_I2C_ERROR_TIMEOUT E) then "TIMEOUT"
  else if flag e (HAL_I2C_ERROR_BERR E) then "BUS"
  else if flag e (HAL_I2C_ERROR_ARLO E) then "ARLO"
  else if flag e (HAL_I2C_ERROR_OVR E) then "OVR"
  else if flag e (HAL_I2C_ERROR_DMA E) then "DMA"
  else "UNKNOWN".

(** The pulse loop of [I2C1_BusRecover]: [sda i] is the level read on the
    data line at iteration [i]; the result is the number of pulses driven
    (at most 9). *)
Fixpoint recover_pulses (sda : nat -> bool) (i : nat) (n : nat) : nat :=
  match n with
  | O => O
  | S m => if sda i then O else S (recover_pulses sda (S i) m)
  end.

Definition I2C1_BusRecover (sda : nat -> bool) (st : i2c_state) : i2c_state :=
  {| g_i2c_ok := g_i2c_ok st; g_i2c_temp := g_i2c_temp st;
     g_i2c_last_err := g_i2c_last_err st; nextPollMs := nextPollMs st;
     recoveries := recoveries st ++ [recover_pulses sda 0 9] |}.

(** [I2C_ReadTempFromESP32]: status, and the value stored through the
    pointer ([None] when it is left untouched). *)
Definition I2C_ReadTempFromESP32 (o : read_outcome)
  : HAL_StatusTypeDef * option Z :=
  if is_ok (ret o)
  then (HAL_OK, Some (s16 (Z.lor (u8 (buf0 o)) (u16 (Z.shiftl (u8 (buf1 o)) 8)))))
  else (ret o, None).

Definition set_last_err (st : i2c_state) (e : string) : i2c_state :=
  {| g_i2c_ok := g_i2c_ok st; g_i2c_temp := g_i2c_temp st;
     g_i2c_last_err := e; nextPollMs := nextPollMs st;
     recoveries := recoveries st |}.

(** [I2C_ReadTemp_Fixed] with [*out_c] initially [t0]: [first] and [second]
    are the outcomes of the first read and of the retry, [sda] the data-line
    levels seen by the recovery.  Returns the status, [*out_c] and the state. *)
Definition I2C_ReadTemp_Fixed (first second : read_outcome)
  (sda : nat -> bool) (t0 : Z) (st : i2c_state)
  : HAL_StatusTypeDef * Z * i2c_state :=
  match I2C_ReadTempFromESP32 first with
  | (HAL_OK, v) =>
      (HAL_OK, match v with Some t => t | None => t0 end, set_last_err st "NONE")
  | (_, v1) =>
      let t1 := match v1 with Some t => t | None => t0 end in
      let st := set_last_err st (I2C_ErrStr (error_code first)) in
      let st := I2C1_BusRecover sda st in
      match I2C_ReadTempFromESP32 second with
      | (HAL_OK, v) =>
          (HAL_OK, match v with Some t => t | None => t1 end,
           set_last_err st "NONE")
      | (s, v) =>
          (s, match v with Some t => t | None => t1 end,
           set_last_err st (I2C_ErrStr (error_code second)))
      end
  end.

Definition POLL_MS : Z := 500.

(** Whether a call of [App_I2C_Service] at [now_ms] fires a poll. *)
Definition poll_due (now_ms : Z) (st : i2c_state) : bool :=
  negb (s32 (u32 now_ms - nextPollMs st) <? 0).

Definition App_I2C_Service (now_ms : Z) (first second : read_outcome)
  (sda : nat -> bool) (st : i2c_state) : i2c_state :=
  if negb (poll_due now_ms st) then st
  else
    let st := {| g_i2c_ok := g_i2c_ok st; g_i2c_temp := g_i2c_temp st;
                 g_i2c_last_err := g_i2c_last_err st;
                 nextPollMs := u32 (u32 now_ms + POLL_MS);
                 recoveries := recoveries st |} in
    match I2C_ReadTemp_Fixed first second sda 0 st with
    | (HAL_OK, t, st') =>
        {| g_i2c_ok := 1; g_i2c_temp := t;
           g_i2c_last_err := g_i2c_last_err st';
           nextPollMs := nextPollMs st'; recoveries := recoveries st' |}
    | (_, _, st') =>
        {| g_i2c_ok := 0; g_i2c_temp := g_i2c_temp st';
           g_i2c_last_err := g_i2c_last_err st';
           nextPollMs := nextPollMs st'; recoveries := recoveries st' |}
    end.

Definition App_I2C_IsOk (st : i2c_state) : Z := g_i2c_ok st.
Definition App_I2C_GetTempInt (st : i2c_state) : Z := g_i2c_temp st.
Definition App_I2C_GetLastErr (st : i2c_state) : string := g_i2c_last_err st.

End WithErrors.

(** One call of [App_I2C_Service] with what the bus does during it. *)
Record service_call := {
  call_now : Z;
  call_first : read_outcome;
  call_second : read_outcome;
  call_sda : nat -> bool
}.

Definition i2c_run (E : hal_i2c_errors) (calls : list service_call)
  (st : i2c_state) : i2c_state :=
  fold_left (fun s c => App_I2C_Service E (call_now c) (call_first c)
                                        (call_second c) (call_sda c) s)
            calls st.

(** The two bytes the sensor puts on the bus for a temperature [v]:
    16-bit two's complement, low byte first. *)
Definition temp_reply (v : Z) : read_outcome :=
  {| ret := HAL_OK; buf0 := u8 v; buf1 := u8 (Z.shiftr (u16 v) 8);
     error_code := 0 |}.

(** What a reader of the published state may rely on: the ok flag is 0 or
    1, ok comes with the error symbol "NONE", the temperature is an
    [int16_t] value, and no recovery drove more than 9 pulses. *)
Definition published_ok (st : i2c_state) : Prop :=
  (g_i2c_ok st = 0 \/ g_i2c_ok st = 1) /\
  (g_i2c_ok st = 1 -> g_i2c_last_err st = "NONE"%string) /\
  - 32768 <= g_i2c_temp st <= 32767 /\
  Forall (fun p => (p <= 9)%nat) (recoveries st).


End I2c.

(** * Telemetry record ([Src/app_net.h], the [snprintf] of [Src/app_net.c]) *)

Module Codec.

Record AppTelemetry := {
  now_ms : Z;
  i2c_temp_c : Z;
  can_0x101 : string;
  can_0x120 : string
}.

Definition digit_char (d : Z) : ascii := ascii_of_nat (48 + Z.to_nat d).

(** Decimal digits of a non-negative number, most significant first;
    [fuel] bounds the number of digits (10 cover every 32-bit value). *)
Fixpoint dec_digits (fuel : nat) (n : Z) : string :=
  match fuel with
  | O => EmptyString
  | S f =>
      if n <? 10 then String (digit_char n) EmptyString
      else (dec_digits f (n / 10)
            ++ String (digit_char (n mod 10)) EmptyString)%string
  end.

(** [%lu] of [(unsigned long)v]; [long] is 32 bits wide on the target. *)
Definition fmt_lu (v : Z) : string := dec_digits 10 (u32 v).

(** [%ld] of [(long)v]. *)
Definition fmt_ld (v : Z) : string :=
  let x := s32 v in
  if x <? 0 then String "-" (dec_digits 10 (- x)) else dec_digits 10 x.

Definition dq : string := String (ascii_of_nat 34) EmptyString.
Definition nl : string := String (ascii_of_nat 10) EmptyString.

(** The text the format string of [APP_NET_SendUDP] and [APP_NET_SendTCP]
    expands to. *)
Definition telemetry_text (t : AppTelemetry) : string :=
  ("{" ++ dq ++ "ts" ++ dq ++ ":" ++ fmt_lu (now_ms t)
   ++ "," ++ dq ++ "i2c" ++ dq ++ ":" ++ fmt_ld (i2c_temp_c t)
   ++ "," ++ dq ++ "can101" ++ dq ++ ":" ++ dq ++ c_str (can_0x101 t) ++ dq
   ++ "," ++ dq ++ "can120" ++ dq ++ ":" ++ dq ++ c_str (can_0x120 t) ++ dq
   ++ "}" ++ nl)%string.

(** [snprintf(buf, size, fmt, ...)]: the returned count (the length of the
    whole text) and the C string left in [buf]. *)
Definition snprintf_telemetry (size : Z) (t : AppTelemetry) : Z * string :=
  let full := telemetry_text t in
  (Z.of_nat (String.length full), str_take (Z.to_nat (size - 1)) full).

(** The count both senders go on with: [None] for [n <= 0], else [n]
    clamped to [size - 1]. *)
Definition clamp_count (size n : Z) : option Z :=
  if n <=? 0 then None
  else Some (if size <=? n then size - 1 else n).

(** The part of a record up to and including the comma after the sensor
    reading. *)
Definition record_head (ts v : Z) : string :=
  ("{" ++ dq ++ "ts" ++ dq ++ ":" ++ fmt_lu ts
   ++ "," ++ dq ++ "i2c" ++ dq ++ ":" ++ fmt_ld v ++ ",")%string.

Definition is_digit (c : ascii) : bool :=
  let n := nat_of_ascii c in (48 <=? n)%nat && (n <=? 57)%nat.

Fixpoint all_digits (s : string) : bool :=
  match s with
  | EmptyString => true
  | String c r => is_digit c && all_digits r
  end.

(** The longest prefix of decimal digits, and what follows it. *)
Fixpoint span_digits (s : string) : string * string :=
  match s with
  | EmptyString => (EmptyString, EmptyString)
  | String c r =>
      if is_digit c
      then let '(d, rest) := span_digits r in (String c d, rest)
      else (EmptyString, s)
  end.

Fixpoint parse_dec (acc : Z) (s : string) : Z :=
  match s with
  | EmptyString => acc
  | String c r => parse_dec (acc * 10 + (Z.of_nat (nat_of_ascii c) - 48)) r
  end.

Fixpoint strip_prefix (p s : string) : option string :=
  match p, s with
  | EmptyString, _ => Some s
  | String a p', String b s' =>
      if Ascii.eqb a b then strip_prefix p' s' else None
  | String _ _, EmptyString => None
  end.

(** An optionally signed decimal number at the start of [s]. *)
Definition read_number (s : string) : option (Z * string) :=
  match s with
  | EmptyString => None
  | String c r =>
      if Ascii.eqb c "-"
      then match span_digits r with
           | (EmptyString, _) => None
           | (d, rest) => Some (- parse_dec 0 d, rest)
           end
      else match span_digits s with
           | (EmptyString, _) => None
           | (d, rest) => Some (parse_dec 0 d, rest)
           end
  end.

(** Modelled from the spec: the decoder of the telemetry wire record.  The
    firmware only produces records; the receiving side is not among the
    sources.  Following the record layout of the spec (timestamp, then the
    signed sensor reading, then the two text snapshots, one record per
    line), the decoder reads the "ts" and "i2c" members at the head of the
    line and ignores what follows. *)
Definition decode_record (line : string) : option (Z * Z) :=
  match strip_prefix ("{" ++ dq ++ "ts" ++ dq ++ ":")%string line with
  | None => None
  | Some r =>
      match read_number r with
      | None => None
      | Some (ts, r1) =>
          match strip_prefix ("," ++ dq ++ "i2c" ++ dq ++ ":")%string r1 with
          | None => None
          | Some r2 =>
              match read_number r2 with
              | None => None
              | Some (v, _) => Some (ts, v)
              end
          end
      end
  end.

End Codec.

(** * Telemetry client ([Src/app_net.c]) *)

Module Net.
Import Codec.

Inductive tcp_state_t := TCP_DOWN | TCP_CONNECTING | TCP_UP.

(** Protocol control blocks are opaque handles of the network stack. *)
Definition pcb := nat.

Record net_state := {
  g_udp : option pcb;
  g_tcp : option pcb;
  g_tcp_state : tcp_state_t;
  g_next_tcp_reconnect_ms : Z;
  g_tcp_txbuf : string;
  g_tcp_txlen : Z
}.

Definition with_tcp (st : net_state) (p : option pcb) (s : tcp_state_t)
  (txlen : Z) : net_state :=
  {| g_udp := g_udp st; g_tcp := p; g_tcp_state := s;
     g_next_tcp_reconnect_ms := g_next_tcp_reconnect_ms st;
     g_tcp_txbuf := g_tcp_txbuf st; g_tcp_txlen := txlen |}.

Definition with_deadline (st : net_state) (d : Z) : net_state :=
  {| g_udp := g_udp st; g_tcp := g_tcp st; g_tcp_state := g_tcp_state st;
     g_next_tcp_reconnect_ms := d;
     g_tcp_txbuf := g_tcp_txbuf st; g_tcp_txlen := g_tcp_txlen st |}.

Definition with_tx (st : net_state) (buf : string) (txlen : Z) : net_state :=
  {| g_udp := g_udp st; g_tcp := g_tcp st; g_tcp_state := g_tcp_state st;
     g_next_tcp_reconnect_ms := g_next_tcp_reconnect_ms st;
     g_tcp_txbuf := buf; g_tcp_txlen := txlen |}.

Definition app_tcp_close (st : net_state) : net_state :=
  with_tcp st None TCP_DOWN 0.

Definition tcp_force_abort (st : net_state) : net_state :=
  with_tcp st None TCP_DOWN 0.

Definition on_tcp_sent (st : net_state) : net_state :=
  with_tcp st (g_tcp st) (g_tcp_state st) 0.

Definition on_tcp_err (st : net_state) : net_state :=
  with_tcp st None TCP_DOWN 0.

(** [p_null]: the stack passes [p == NULL] (remote close). *)
Definition on_tcp_recv (p_null : bool) (st : net_state) : net_state :=
  if p_null then app_tcp_close st else st.

(** [err_ok]: [err == ERR_OK]. *)
Definition on_tcp_connected (err_ok : bool) (st : net_state) : net_state :=
  if negb err_ok then tcp_force_abort st
  else with_tcp st (g_tcp st) TCP_UP (g_tcp_txlen st).

(** What the client puts on the network. *)
Inductive net_out :=
| ConnectAttempt (now_ms : Z)
| TcpWrite (payload : string)
| UdpSend (payload : string).

(** [tcp_start_connect]: [new_pcb] is the result of [tcp_new_ip_type],
    [connect_ok] whether [tcp_connect] returns [ERR_OK].  A call that gets
    past the state check is logged as a connection attempt. *)
Definition tcp_start_connect (now_ms : Z) (new_pcb : option pcb)
  (connect_ok : bool) (st : net_state) : net_state * list net_out :=
  match g_tcp_state st with
  | TCP_UP | TCP_CONNECTING => (st, [])
  | TCP_DOWN =>
      match new_pcb with
      | None =>
          (with_deadline (with_tcp st None TCP_DOWN (g_tcp_txlen st))
                         (u32 (now_ms + 2000)),
           [ConnectAttempt now_ms])
      | Some p =>
          let st := with_tcp st (Some p) TCP_CONNECTING (g_tcp_txlen st) in
          if connect_ok then (st, [ConnectAttempt now_ms])
          else (with_deadline (tcp_force_abort st) (u32 (now_ms + 2000)),
                [ConnectAttempt now_ms])
      end
  end.

Definition APP_NET_TcpIsConnected (st : net_state) : bool :=
  match g_tcp_state st, g_tcp st with
  | TCP_UP, Some _ => true
  | _, _ => false
  end.

(** [APP_NET_SendTCP]: [t = None] is the NULL pointer; [write_ok] and
    [output_ok] say whether [tcp_write] and [tcp_output] return [ERR_OK]. *)
Definition APP_NET_SendTCP (t : option AppTelemetry) (write_ok output_ok : bool)
  (st : net_state) : bool * net_state * list net_out :=
  match t with
  | None => (false, st, [])
  | Some t =>
      if negb (APP_NET_TcpIsConnected st) then (false, st, [])
      else if negb (g_tcp_txlen st =? 0) then (false, st, [])
      else
        let '(n, buf) := snprintf_telemetry 256 t in
        match clamp_count 256 n with
        | None => (false, with_tx st buf (g_tcp_txlen st), [])
        | Some n =>
            let st := with_tx st buf (u16 n) in
            let out := [TcpWrite (str_take (Z.to_nat (g_tcp_txlen st))
                                           (g_tcp_txbuf st))] in
            if negb write_ok then (false, with_tx st buf 0, out)
            else if negb output_ok then (false, with_tx st buf 0, out)
            else (true, st, out)
        end
  end.

(** [APP_NET_SendUDP]: [new_udp] is what [udp_new_ip_type] returns should
    the control block still be missing, [pbuf_ok] whether [pbuf_alloc]
    succeeds, [send_ok] whether [udp_sendto] returns [ERR_OK]. *)
Definition APP_NET_SendUDP (t : option AppTelemetry) (new_udp : option pcb)
  (pbuf_ok send_ok : bool) (st : net_state) : bool * net_state * list net_out :=
  match t with
  | None => (false, st, [])
  | Some t =>
      let st :=
        match g_udp st with
        | Some _ => st
        | None =>
            {| g_udp := new_udp; g_tcp := g_tcp st;
               g_tcp_state := g_tcp_state st;
               g_next_tcp_reconnect_ms := g_next_tcp_reconnect_ms st;
               g_tcp_txbuf := g_tcp_txbuf st; g_tcp_txlen := g_tcp_txlen st |}
        end in
      match g_udp st with
      | None => (false, st, [])
      | Some _ =>
          let '(n, msg) := snprintf_telemetry 256 t in
          match clamp_count 256 n with
          | None => (false, st, [])
          | Some n =>
              if negb pbuf_ok then (false, st, [])
              else (send_ok, st, [UdpSend (str_take (Z.to_nat (u16 n)) msg)])
          end
      end
  end.

Definition APP_NET_Init (new_udp : option pcb) : net_state :=
  {| g_udp := new_udp; g_tcp := None; g_tcp_state := TCP_DOWN;
     g_next_tcp_reconnect_ms := 0;
     g_tcp_txbuf := EmptyString; g_tcp_txlen := 0 |}.

(** [APP_NET_SetRemote]: [parse_ok] is the result of [parse_ip]. *)
Definition APP_NET_SetRemote (parse_ok : bool) (st : net_state)
  : bool * net_state :=
  if negb parse_ok then (false, st) else (true, app_tcp_close st).

(** Callbacks the stack may run while it is being pumped. *)
Inductive net_event :=
| CbConnected (err_ok : bool)
| CbSent
| CbErr
| CbRecv (p_null : bool).

Definition deliver (e : net_event) (st : net_state) : net_state :=
  match e with
  | CbConnected ok => on_tcp_connected ok st
  | CbSent => on_tcp_sent st
  | CbErr => on_tcp_err st
  | CbRecv p_null => on_tcp_recv p_null st
  end.

(** What the environment supplies to one [APP_NET_Poll]: the callbacks run
    by the three stack-pump calls, and the results of [tcp_new_ip_type] and
    [tcp_connect] should the poll start a connection. *)
Record poll_env := {
  callbacks : list net_event;
  new_pcb : option pcb;
  connect_ok : bool
}.

Definition reconnect_due (now_ms : Z) (st : net_state) : bool :=
  (g_next_tcp_reconnect_ms st =? 0)
  || negb (s32 (u32 now_ms - g_next_tcp_reconnect_ms st) <? 0).

Definition APP_NET_Poll (now_ms : Z) (env : poll_env) (st : net_state)
  : net_state * list net_out :=
  let st := fold_left (fun s e => deliver e s) (callbacks env) st in
  if negb (APP_NET_TcpIsConnected st) then
    if reconnect_due now_ms st then
      let '(st, out) :=
        tcp_start_connect (u32 now_ms) (new_pcb env) (connect_ok env) st in
      (with_deadline st (u32 (u32 now_ms + 2000)), out)
    else (st, [])
  else (st, []).

(** A run of polls, each at its clock value, with everything they emit. *)
Fixpoint poll_run (polls : list (Z * poll_env)) (st : net_state)
  : net_state * list net_out :=
  match polls with
  | [] => (st, [])
  | (now_ms, env) :: r =>
      let '(st1, o1) := APP_NET_Poll now_ms env st in
      let '(st2, o2) := poll_run r st1 in
      (st2, o1 ++ o2)
  end.

(** The calls the main loop and the console can make into the client. *)
Inductive net_op :=
| NPoll (now_ms : Z) (env : poll_env)
| NSendTCP (t : option AppTelemetry) (write_ok output_ok : bool)
| NSendUDP (t : option AppTelemetry) (new_udp : option pcb)
           (pbuf_ok send_ok : bool)
| NSetRemote (parse_ok : bool).

Definition net_step (op : net_op) (st : net_state) : net_state :=
  match op with
  | NPoll now_ms env => fst (APP_NET_Poll now_ms env st)
  | NSendTCP t w o => snd (fst (APP_NET_SendTCP t w o st))
  | NSendUDP t nu pb so => snd (fst (APP_NET_SendUDP t nu pb so st))
  | NSetRemote ok => snd (APP_NET_SetRemote ok st)
  end.

Definition net_run (ops : list net_op) (st : net_state) : net_state :=
  fold_left (fun s op => net_step op s) ops st.

(** A nonzero guard belongs to an established connection. *)
Definition guard_inv (st : net_state) : Prop :=
  g_tcp_txlen st <> 0 -> APP_NET_TcpIsConnected st = true.

(** The clock values at which connection attempts were made. *)
Fixpoint attempt_times (out : list net_out) : list Z :=
  match out with
  | [] => []
  | ConnectAttempt t :: r => t :: attempt_times r
  | _ :: r => attempt_times r
  end.

(** Consecutive entries are at least [w] apart. *)
Fixpoint gaps_ok (w : Z) (ts : list Z) : Prop :=
  match ts with
  | a :: (b :: _) as r => a + w <= b /\ gaps_ok w r
  | _ => True
  end.

(** The polls come at non-decreasing clock values, none before [lo]. *)
Fixpoint times_from (lo : Z) (polls : list (Z * poll_env)) : Prop :=
  match polls with
  | [] => True
  | (t, _) :: r => lo <= t /\ times_from t r
  end.

End Net.

(** * Scheduler loop ([Src/main.c]) *)

Module Main.

(** The console transmit ring of [Src/usbd_cdc_if.c], as far as
    [CDC_ConsoleTxIsEmpty] reads it. *)
Record cdc_state := {
  g_cons_r : Z;
  g_cons_w : Z;
  g_prompt_pending : Z
}.

Definition CDC_ConsoleTxIsEmpty (c : cdc_state) : Z :=
  if (g_cons_r c =? g_cons_w c) && (g_prompt_pending c =? 0) then 1 else 0.

(** Everything the loop acts on: the render engine, the console ring, and
    the state [R] of the remaining modules. *)
Record world (R : Type) := {
  w_tft : Tft.tft_state;
  w_cdc : cdc_state;
  w_rest : R
}.
Arguments w_tft {R}.
Arguments w_cdc {R}.
Arguments w_rest {R}.

Inductive loop_event :=
| RunNetService
| RunUsbService
| RunCanService
| RunI2cService
| RunTftTask
| RunTftService
| RunCliService
| RunAppTick
| Wfi.

Definition App_USBLog_IsEmpty {R} (w : world R) : Z :=
  CDC_ConsoleTxIsEmpty (w_cdc w).

Definition TFT_IsBusy {R} (w : world R) : bool := Tft.TFT_IsBusy (w_tft w).

Definition TFT_Task {R} (spi_ok : bool) (w : world R) : world R :=
  {| w_tft := fst (Tft.TFT_Task spi_ok (w_tft w));
     w_cdc := w_cdc w; w_rest := w_rest w |}.

Section Loop.
Variable R : Type.

(** The service functions whose bodies do not matter for the loop's shape. *)
Variables APP_NET_Service App_CAN_Service App_I2C_Service App_TFT_Service
          App_CLI_Service App_Tick : Z -> world R -> world R.
Variable App_USB_Service : world R -> world R.

(** Run one statement of the loop body and note it in the trace. *)
Definition run (ev : loop_event) (f : world R -> world R)
  (s : world R * list loop_event) : world R * list loop_event :=
  (f (fst s), snd s ++ [ev]).

(** The services of one iteration, in program order. *)
Definition services (now : Z) (spi_ok : bool) (w : world R)
  : world R * list loop_event :=
  run RunAppTick (App_Tick now)
   (run RunCliService (App_CLI_Service now)
    (run RunTftService (App_TFT_Service now)
     (run RunTftTask (TFT_Task spi_ok)
      (run RunI2cService (App_I2C_Service now)
       (run RunCanService (App_CAN_Service now)
        (run RunUsbService App_USB_Service
         (run RunNetService (APP_NET_Service now) (w, [])))))))).

(** One iteration of [while (1)] with [now = HAL_GetTick()]. *)
Definition main_loop_iteration (now : Z) (spi_ok : bool) (w : world R)
  : world R * list loop_event :=
  let s := services now spi_ok w in
  if negb (App_USBLog_IsEmpty (fst s) =? 0) && negb (TFT_IsBusy (fst s))
  then (fst s, snd s ++ [Wfi])
  else s.

End Loop.

End Main.

(** * CAN snapshot ([Src/can.c]) *)

Module Can.
Import Codec.

(** What the receive interrupt finds: whether the handle is CAN1, whether
    [HAL_CAN_GetRxMessage] returns [HAL_OK], the header fields the code
    looks at, the data bytes ([uint8_t d[8]]) and [HAL_GetTick()]. *)
Record rx_frame := {
  on_can1 : bool;
  get_ok : bool;
  ide_std : bool;
  rtr_data : bool;
  StdId : Z;
  DLC : Z;
  d : list Z;
  tick : Z
}.

Record can_state := {
  s_has101 : Z;
  s_has120 : Z;
  s_hb_seq : Z;
  s_lux_x100 : Z;
  s_full : Z;
  s_ir : Z;
  s_last_txt : string;
  s_101_txt : string;
  s_120_txt : string;
  s_last_tick : Z;
  s_101_tick : Z;
  s_120_tick : Z
}.

(** The initialisers of the file-scope variables. *)
Definition can_init : can_state :=
  {| s_has101 := 0; s_has120 := 0; s_hb_seq := 0; s_lux_x100 := 0;
     s_full := 0; s_ir := 0;
     s_last_txt := "no data"; s_101_txt := "none"; s_120_txt := "none";
     s_last_tick := 0; s_101_tick := 0; s_120_tick := 0 |}.

(** [p[i]] of a [const uint8_t *p]. *)
Definition byte (p : list Z) (i : nat) : Z := u8 (nth i p 0).

Definition u32_le (p : list Z) : Z :=
  u32 (Z.lor (Z.lor (Z.lor (byte p 0)
                           (u32 (Z.shiftl (byte p 1) 8)))
                    (u32 (Z.shiftl (byte p 2) 16)))
             (u32 (Z.shiftl (byte p 3) 24))).

Definition u16_le (p : list Z) : Z :=
  u16 (Z.lor (byte p 0) (Z.shiftl (u16 (byte p 1)) 8)).

(** [%u] of an [unsigned] argument (32 bits wide on the target). *)
Definition fmt_u (v : Z) : string := fmt_lu v.

(** [snprintf(buf, 128, ...)] of a text without NUL characters, as the C
    string left in [buf]. *)
Definition snprintf_128 (text : string) : string := str_take 127 text.

Definition hb_text (seq : Z) : string :=
  snprintf_128 ("HB seq=" ++ fmt_u seq)%string.

Definition light_text (lux_x100 full ir : Z) : string :=
  snprintf_128 ("LIGHT lux=" ++ fmt_lu (u32 (lux_x100 / 100))
                ++ " full=" ++ fmt_u full ++ " ir=" ++ fmt_u ir)%string.

Definition HAL_CAN_RxFifo0MsgPendingCallback (f : rx_frame) (st : can_state)
  : can_state :=
  if negb (on_can1 f) then st
  else if negb (get_ok f) then st
  else if negb (ide_std f) then st
  else if negb (rtr_data f) then st
  else
    let now := u32 (tick f) in
    if (StdId f =? 0x101) && (1 <=? DLC f) then
      let seq := byte (d f) 0 in
      let txt := hb_text seq in
      {| s_has101 := 1; s_has120 := s_has120 st; s_hb_seq := seq;
         s_lux_x100 := s_lux_x100 st; s_full := s_full st; s_ir := s_ir st;
         s_last_txt := txt; s_101_txt := strncpy_z txt 127;
         s_120_txt := s_120_txt st;
         s_last_tick := now; s_101_tick := now;
         s_120_tick := s_120_tick st |}
    else if (StdId f =? 0x120) && (DLC f =? 8) then
      let lux := u32_le (d f) in
      let full := u16_le (skipn 4 (d f)) in
      let ir := u16_le (skipn 6 (d f)) in
      let txt := light_text lux full ir in
      {| s_has101 := s_has101 st; s_has120 := 1; s_hb_seq := s_hb_seq st;
         s_lux_x100 := lux; s_full := full; s_ir := ir;
         s_last_txt := txt; s_101_txt := s_101_txt st;
         s_120_txt := strncpy_z txt 127;
         s_last_tick := now; s_101_tick := s_101_tick st;
         s_120_tick := now |}
    else
      {| s_has101 := s_has101 st; s_has120 := s_has120 st;
         s_hb_seq := s_hb_seq st;
         s_lux_x100 := s_lux_x100 st; s_full := s_full st; s_ir := s_ir st;
         s_last_txt := s_last_txt st; s_101_txt := s_101_txt st;
         s_120_txt := s_120_txt st;
         s_last_tick := now; s_101_tick := s_101_tick st;
         s_120_tick := s_120_tick st |}.

(** The getters read [HAL_GetTick()], here [now_ms]. *)
Definition CAN1_GetLastText (st : can_state) : string := s_last_txt st.

Definition CAN1_GetText_0x101 (now_ms : Z) (st : can_state) : string :=
  if 2000 <? u32 (u32 now_ms - s_101_tick st) then "none" else s_101_txt st.

Definition CAN1_GetText_0x120 (now_ms : Z) (st : can_state) : string :=
  if 2000 <? u32 (u32 now_ms - s_120_tick st) then "none" else s_120_txt st.

Definition CAN1_101_IsValid (now_ms : Z) (st : can_state) : Z :=
  if strcmp_ne (CAN1_GetText_0x101 now_ms st) "none" then 1 else 0.

Definition CAN1_120_IsValid (now_ms : Z) (st : can_state) : Z :=
  if u32 (u32 now_ms - s_120_tick st) <=? 2000 then 1 else 0.

Definition CAN1_120_GetLux (st : can_state) : Z := u32 (s_lux_x100 st / 100).
Definition CAN1_120_GetFull (st : can_state) : Z := s_full st.
Definition CAN1_120_GetIR (st : can_state) : Z := s_ir st.

(** The interrupts of a run, in order. *)
Definition can_run (frames : list rx_frame) (st : can_state) : can_state :=
  fold_left (fun s f => HAL_CAN_RxFifo0MsgPendingCallback f s) frames st.

(** The [n] low bytes of [v], least significant first. *)
Fixpoint le_bytes (n : nat) (v : Z) : list Z :=
  match n with
  | O => []
  | S m => v mod 256 :: le_bytes m (v / 256)
  end.

(** A standard data frame on CAN1 that the HAL hands over. *)
Definition data_frame (id dlc : Z) (payload : list Z) (now : Z) : rx_frame :=
  {| on_can1 := true; get_ok := true; ide_std := true; rtr_data := true;
     StdId := id; DLC := dlc; d := payload; tick := now |}.

(** The light-sensor frame for the three readings. *)
Definition light_frame (lux_x100 full ir now : Z) : rx_frame :=
  data_frame 0x120 8
    (le_bytes 4 lux_x100 ++ le_bytes 2 full ++ le_bytes 2 ir) now.

(** Nothing but the time of the last frame differs. *)
Definition same_snapshot (a b : can_state) : Prop :=
  s_has101 a = s_has101 b /\ s_has120 a = s_has120 b /\
  s_hb_seq a = s_hb_seq b /\ s_lux_x100 a = s_lux_x100 b /\
  s_full a = s_full b /\ s_ir a = s_ir b /\
  s_last_txt a = s_last_txt b /\ s_101_txt a = s_101_txt b /\
  s_120_txt a = s_120_txt b /\
  s_101_tick a = s_101_tick b /\ s_120_tick a = s_120_tick b.

(** What holds of every snapshot the interrupts can build: the flags are
    0 or 1, the 0x101 text is "none" exactly until the first heartbeat,
    and the three texts are short. *)
Definition can_inv (st : can_state) : Prop :=
  (s_has101 st = 0 \/ s_has101 st = 1) /\
  (s_has101 st = 0 -> s_101_txt st = "none"%string) /\
  (s_has101 st = 1 -> s_101_txt st = hb_text (s_hb_seq st)) /\
  0 <= s_hb_seq st < 256 /\
  0 <= s_lux_x100 st < 2^32 /\ 0 <= s_full st < 2^16 /\ 0 <= s_ir st < 2^16 /\
  (String.length (s_last_txt st) <= 38)%nat /\
  (String.length (s_101_txt st) <= 10)%nat /\
  (String.length (s_120_txt st) <= 38)%nat.

(** The text holds no NUL character. *)
Fixpoint no_nul (s : string) : bool :=
  match s with
  | EmptyString => true
  | String c r => negb (Ascii.eqb c zero) && no_nul r
  end.


End Can.


(** * USB console ([Src/usbd_cdc_if.c]) *)

Module Console.

Definition CDC_RX_LINE_MAX : Z := 128.
Definition CDC_CONS_TX_SZ : Z := 512.

Inductive USBD_StatusTypeDef := USBD_OK | USBD_BUSY | USBD_EMEM | USBD_FAIL.

(** The file-scope variables; the [char] and [uint8_t] arrays are carried
    as lists of byte values. *)
Record console := {
  g_cdc_line : list Z;
  g_cdc_line_len : Z;
  g_cdc_last_line : list Z;
  g_cdc_line_ready : Z;
  g_cons_tx : list Z;
  g_cons_w : Z;
  g_cons_r : Z;
  g_prompt_pending : Z
}.

Definition console_init : console :=
  {| g_cdc_line := repeat 0 128; g_cdc_line_len := 0;
     g_cdc_last_line := repeat 0 128; g_cdc_line_ready := 0;
     g_cons_tx := repeat 0 512; g_cons_w := 0; g_cons_r := 0;
     g_prompt_pending := 0 |}.

(** The bytes of a C string: what precedes the first NUL. *)
Fixpoint c_bytes (s : list Z) : list Z :=
  match s with
  | [] => []
  | b :: r => if b =? 0 then [] else b :: c_bytes r
  end.

Definition bytes (s : string) : list Z :=
  map (fun a => Z.of_nat (nat_of_ascii a)) (list_ascii_of_string s).

(** The string literals of the file. *)
Definition bs_erase : list Z := [8; 32; 8].
Definition crlf : list Z := [13; 10].
Definition prompt : list Z := bytes "> ".
Definition clear_line : list Z := [13; 27] ++ bytes "[2K".
Definition err_too_long : list Z := crlf ++ bytes "ERR: line too long" ++ crlf.
Definition greeting : list Z := bytes "Terminal ready" ++ crlf ++ prompt.

(** The index after and before [i] in the ring. *)
Definition ring_next (i : Z) : Z :=
  let next := u16 (i + 1) in
  if CDC_CONS_TX_SZ <=? next then 0 else next.

Definition ring_prev (i : Z) : Z :=
  if i =? 0 then CDC_CONS_TX_SZ - 1 else u16 (i - 1).

Definition with_ring (c : console) (tx : list Z) (w r : Z) : console :=
  {| g_cdc_line := g_cdc_line c; g_cdc_line_len := g_cdc_line_len c;
     g_cdc_last_line := g_cdc_last_line c;
     g_cdc_line_ready := g_cdc_line_ready c;
     g_cons_tx := tx; g_cons_w := w; g_cons_r := r;
     g_prompt_pending := g_prompt_pending c |}.

Definition with_prompt (c : console) (p : Z) : console :=
  {| g_cdc_line := g_cdc_line c; g_cdc_line_len := g_cdc_line_len c;
     g_cdc_last_line := g_cdc_last_line c;
     g_cdc_line_ready := g_cdc_line_ready c;
     g_cons_tx := g_cons_tx c; g_cons_w := g_cons_w c;
     g_cons_r := g_cons_r c; g_prompt_pending := p |}.

Definition with_line (c : console) (l : list Z) (len : Z) : console :=
  {| g_cdc_line := l; g_cdc_line_len := len;
     g_cdc_last_line := g_cdc_last_line c;
     g_cdc_line_ready := g_cdc_line_ready c;
     g_cons_tx := g_cons_tx c; g_cons_w := g_cons_w c;
     g_cons_r := g_cons_r c; g_prompt_pending := g_prompt_pending c |}.

Definition with_last (c : console) (last : list Z) (ready : Z) : console :=
  {| g_cdc_line := g_cdc_line c; g_cdc_line_len := g_cdc_line_len c;
     g_cdc_last_line := last; g_cdc_line_ready := ready;
     g_cons_tx := g_cons_tx c; g_cons_w := g_cons_w c;
     g_cons_r := g_cons_r c; g_prompt_pending := g_prompt_pending c |}.

(** [cons_push_bytes(data, len)] with [data] the [len] bytes: a full ring
    ends the loop and the remaining bytes are dropped. *)
Fixpoint cons_push_bytes (data : list Z) (c : console) : console :=
  match data with
  | [] => c
  | b :: rest =>
      let next := ring_next (g_cons_w c) in
      if next =? g_cons_r c then c
      else cons_push_bytes rest
             (with_ring c (upd (g_cons_tx c) (Z.to_nat (g_cons_w c)) (u8 b))
                        next (g_cons_r c))
  end.

(** [cons_push_str(s)]: the length is [(uint16_t)strlen(s)]. *)
Definition cons_push_str (s : list Z) (c : console) : console :=
  let len := u16 (Z.of_nat (List.length (c_bytes s))) in
  cons_push_bytes (firstn (Z.to_nat len) (c_bytes s)) c.

Definition CDC_ConsoleTxIsEmpty (c : console) : Z :=
  if (g_cons_r c =? g_cons_w c) && (g_prompt_pending c =? 0) then 1 else 0.

(** The chunk-building loop of [CDC_ConsoleTxService]; [room] is what is
    left of the 64-byte chunk. *)
Fixpoint take_chunk (room : nat) (c : console) : list Z * console :=
  match room with
  | O => ([], c)
  | S m =>
      if g_cons_r c =? g_cons_w c then ([], c)
      else
        let b := nth (Z.to_nat (g_cons_r c)) (g_cons_tx c) 0 in
        let '(chunk, c') :=
          take_chunk m (with_ring c (g_cons_tx c) (g_cons_w c)
                                  (ring_next (g_cons_r c))) in
        (b :: chunk, c')
  end.

(** The roll-back loop [while (n--)]. *)
Fixpoint roll_back (n : nat) (c : console) : console :=
  match n with
  | O => c
  | S m => roll_back m (with_ring c (g_cons_tx c) (g_cons_w c)
                                  (ring_prev (g_cons_r c)))
  end.

(** [CDC_ConsoleTxService]: [res] is what [CDC_Transmit_FS] returns should
    it be called; the second component is the chunk handed to it. *)
Definition CDC_ConsoleTxService (res : USBD_StatusTypeDef) (c : console)
  : console * option (list Z) :=
  let send (c : console) :=
    let '(chunk, c1) := take_chunk 64 c in
    match chunk with
    | [] => (c1, None)
    | _ :: _ =>
        match res with
        | USBD_BUSY => (roll_back (List.length chunk) c1, Some chunk)
        | _ => (c1, Some chunk)
        end
    end in
  if g_cons_r c =? g_cons_w c then
    if negb (g_prompt_pending c =? 0)
    then send (cons_push_str prompt (with_prompt c 0))
    else (c, None)
  else send c.

Definition CDC_Init_FS (c : console) : console := cons_push_str greeting c.

(** [memcpy(dst, src, n)]. *)
Definition memcpy (dst src : list Z) (n : nat) : list Z :=
  firstn n src ++ skipn n dst.

(** One iteration of the loop of [CDC_Receive_FS], for the byte [b]. *)
Definition rx_byte (b0 : Z) (c : console) : console :=
  let b := u8 b0 in
  let len := g_cdc_line_len c in
  if b =? 0x1B then with_line c (g_cdc_line c) 0
  else if (b =? 0x08) || (b =? 0x7F) then
    if 0 <? len
    then cons_push_str bs_erase (with_line c (g_cdc_line c) (u16 (len - 1)))
    else c
  else if (b =? 13) || (b =? 10) then
    let c := cons_push_str crlf c in
    let c :=
      if 0 <? len then
        let n := if CDC_RX_LINE_MAX <=? len then CDC_RX_LINE_MAX - 1 else len in
        let last := upd (memcpy (g_cdc_last_line c) (g_cdc_line c)
                                (Z.to_nat n))
                        (Z.to_nat n) 0 in
        with_last (with_line c (g_cdc_line c) 0) last 1
      else c in
    with_prompt c 1
  else if b <? 0x20 then c
  else if len <? CDC_RX_LINE_MAX - 1 then
    cons_push_bytes [b]
      (with_line c (upd (g_cdc_line c) (Z.to_nat len) b) (u16 (len + 1)))
  else
    with_prompt (cons_push_str err_too_long (with_line c (g_cdc_line c) 0)) 1.

Definition CDC_Receive_FS (buf : list Z) (c : console) : console :=
  fold_left (fun s b => rx_byte b s) buf c.

(** [CDC_ReadLine(out, out_sz)]: the return value, the C string left in
    [out] ([None] when [out] is not written) and the state. *)
Definition CDC_ReadLine (out_sz : Z) (c : console)
  : Z * option (list Z) * console :=
  if g_cdc_line_ready c =? 0 then (0, None, c)
  else if u16 out_sz =? 0 then (0, None, c)
  else (1,
        Some (firstn (Z.to_nat (u16 out_sz - 1)) (c_bytes (g_cdc_last_line c))),
        with_last c (g_cdc_last_line c) 0).

(** [CDC_ConsolePrintSafe(s)]; [None] is the NULL pointer. *)
Definition CDC_ConsolePrintSafe (s : option (list Z)) (c : console) : console :=
  match s with
  | None => c
  | Some s =>
      let snap_len :=
        if CDC_RX_LINE_MAX <=? g_cdc_line_len c then CDC_RX_LINE_MAX - 1
        else g_cdc_line_len c in
      let snap := firstn (Z.to_nat snap_len) (g_cdc_line c) in
      let c := cons_push_str clear_line c in
      let c := cons_push_str crlf c in
      let c := cons_push_str s c in
      let t := c_bytes s in
      let last := last t 0 in
      let c :=
        if (Z.of_nat (List.length t) =? 0)
           || (negb (last =? 10) && negb (last =? 13))
        then cons_push_str crlf c else c in
      if 0 <? snap_len then cons_push_bytes snap c else c
  end.

(** ** Views of the state *)

(** [n] bytes of the ring from index [r] on. *)
Fixpoint ring_read (tx : list Z) (r : Z) (n : nat) : list Z :=
  match n with
  | O => []
  | S m => nth (Z.to_nat r) tx 0 :: ring_read tx (ring_next r) m
  end.

Definition queued_len (c : console) : Z :=
  (g_cons_w c - g_cons_r c) mod CDC_CONS_TX_SZ.

(** The bytes waiting in the ring, oldest first. *)
Definition queued (c : console) : list Z :=
  ring_read (g_cons_tx c) (g_cons_r c) (Z.to_nat (queued_len c)).

(** The line typed so far. *)
Definition typed (c : console) : list Z :=
  firstn (Z.to_nat (g_cdc_line_len c)) (g_cdc_line c).

(** The arrays have their declared sizes and the indices are inside. *)
Definition console_ok (c : console) : Prop :=
  List.length (g_cdc_line c) = 128%nat /\
  List.length (g_cdc_last_line c) = 128%nat /\
  List.length (g_cons_tx c) = 512%nat /\
  0 <= g_cons_w c < 512 /\ 0 <= g_cons_r c < 512 /\
  0 <= g_cdc_line_len c <= 127.

(** A byte the line editor stores: not a control character, not DEL. *)
Definition printable (b : Z) : bool :=
  (0x20 <=? b) && (b <? 256) && negb (b =? 0x7F).

(** What the main loop's idle check reads of the console. *)
Definition view (c : console) : Main.cdc_state :=
  {| Main.g_cons_r := g_cons_r c; Main.g_cons_w := g_cons_w c;
     Main.g_prompt_pending := g_prompt_pending c |}.

(** Everything a push into the ring leaves alone. *)
Definition same_but_ring (a b : console) : Prop :=
  g_cons_r a = g_cons_r b /\
  g_cdc_line a = g_cdc_line b /\ g_cdc_line_len a = g_cdc_line_len b /\
  g_cdc_last_line a = g_cdc_last_line b /\
  g_cdc_line_ready a = g_cdc_line_ready b /\
  g_prompt_pending a = g_prompt_pending b.

(** The calls that reach the console: USB events and the main loop. *)
Inductive console_op :=
| OInit
| OReceive (buf : list Z)
| OTxService (res : USBD_StatusTypeDef)
| OReadLine (out_sz : Z)
| OPrintSafe (s : option (list Z)).

Definition console_step (op : console_op) (c : console) : console :=
  match op with
  | OInit => CDC_Init_FS c
  | OReceive buf => CDC_Receive_FS buf c
  | OTxService res => fst (CDC_ConsoleTxService res c)
  | OReadLine out_sz => snd (CDC_ReadLine out_sz c)
  | OPrintSafe s => CDC_ConsolePrintSafe s c
  end.

Definition console_run (ops : list console_op) (c : console) : console :=
  fold_left (fun s op => console_step op s) ops c.


End Console.


(** * Proofs *)

(** ** Integers *)

Lemma u32_small x : 0 <= x < 2^32 -> u32 x = x.
Proof. intros H. apply Z.mod_small. exact H. Qed.

Lemma u16_small x : 0 <= x < 2^16 -> u16 x = x.
Proof. intros H. apply Z.mod_small. exact H. Qed.

Lemma u8_small x : 0 <= x < 2^8 -> u8 x = x.
Proof. intros H. apply Z.mod_small. exact H. Qed.

Section RenderEngine.
Import Tft.

Lemma streamed_app a b : streamed (a ++ b) = streamed a ++ streamed b.
Proof.
  induction a as [|e a IH]; simpl; [reflexivity|].
  destruct e; rewrite IH; try reflexivity. now rewrite app_assoc.
Qed.

Lemma fill_txbuf_app hi lo a b :
  fill_txbuf hi lo (a + b) = fill_txbuf hi lo a ++ fill_txbuf hi lo b.
Proof. induction a as [|a IH]; simpl; [reflexivity|]. now rewrite IH. Qed.

Lemma fill_start color st :
  fst (TFT_FillColor_Async color st) = fill_st st color 0.
Proof. reflexivity. Qed.


Lemma fill_task base color j ok :
  0 <= j < 80 ->
  TFT_Task ok (fill_st base color j) =
  if ok
  then (fill_st base color (j + 1),
        [BusStream (fill_txbuf (u8 (Z.shiftr (u16 color) 8))
                               (u8 (Z.land (u16 color) 0xFF)) 256)])
  else (fill_st base color j, []).
Proof.
  intros Hj. unfold TFT_Task, fill_st.
  change (TFT_CHUNK_BYTES / 2) with 256. change TFT_PIXELS with 20480.
  cbn [g_op g_fill_sent_pixels g_fill_color g_blit_ptr g_blit_len g_blit_sent g_linebuf cs_low].
  change ((if Z.land TFT_CHUNK_BYTES 1 =? 0 then TFT_CHUNK_BYTES
           else TFT_CHUNK_BYTES - 1) / 2) with 256.
  rewrite (u32_small (20480 - 256 * j)) by lia.
  assert (H1 : (256 * j <? 20480) = true) by (apply Z.ltb_lt; lia).
  assert (H2 : (20480 - 256 * j =? 0) = false) by (apply Z.eqb_neq; lia).
  assert (H3 : (if 256 <? 20480 - 256 * j then 256 else 20480 - 256 * j) = 256).
  { destruct (Z.ltb_spec 256 (20480 - 256 * j)); lia. }
  rewrite H1, H2, H3. destruct ok; cbn [negb]; [|reflexivity].
  rewrite u32_small by lia.
  replace (256 * j + 256) with (256 * (j + 1)) by lia.
  change (Z.to_nat 256) with 256%nat.
  destruct (Z.leb_spec 20480 (256 * (j + 1)));
    destruct (Z.ltb_spec (256 * (j + 1)) 20480); try lia; reflexivity.
Qed.


Lemma successes_nonneg oks : 0 <= successes oks.
Proof. induction oks as [|[] r IH]; cbn [successes]; lia. Qed.









Lemma upd_length {A} (l : list A) : forall i v,
  List.length (upd l i v) = List.length l.
Proof.
  induction l as [|x l IH]; intros [|i] v; simpl; try reflexivity.
  now rewrite IH.
Qed.

Lemma linebuf_set_length buf x y c :
  List.length (linebuf_set buf x y c) = List.length buf.
Proof.
  unfold linebuf_set.
  destruct ((TFT_W <=? x) || (LINE_H <=? y)); [reflexivity|apply upd_length].
Qed.

Lemma draw_rows_length n : forall buf x y bits fg bg row,
  List.length (draw_rows buf x y bits fg bg row n) = List.length buf.
Proof.
  induction n as [|n IH]; intros; cbn [draw_rows]; [reflexivity|].
  now rewrite IH, linebuf_set_length.
Qed.

Lemma draw_cols_length n : forall buf g x y fg bg col,
  List.length (draw_cols buf g x y fg bg col n) = List.length buf.
Proof.
  induction n as [|n IH]; intros; cbn [draw_cols]; [reflexivity|].
  now rewrite IH, draw_rows_length.
Qed.

Lemma linebuf_draw_char_length buf x y ch fg bg :
  List.length (linebuf_draw_char buf x y ch fg bg) = List.length buf.
Proof.
  unfold linebuf_draw_char. now rewrite draw_rows_length, draw_cols_length.
Qed.

Lemma draw_text_length n : forall buf tmp x fg bg,
  List.length (draw_text buf tmp x fg bg n) = List.length buf.
Proof.
  induction n as [|n IH]; intros buf tmp x fg bg;
    [now destruct tmp|].
  destruct tmp as [|ch r]; [reflexivity|]. cbn [draw_text].
  destruct (TFT_W <=? u16 (x + CELL_W)).
  - apply linebuf_draw_char_length.
  - now rewrite IH, linebuf_draw_char_length.
Qed.

(** An accepted [TFT_DrawTextLine_Async] leaves a 2560-byte blit of the
    freshly drawn 160x8 line buffer, nothing sent yet. *)
Lemma draw_start y text fg bg st :
  TFT_IsBusy st = false -> u16 y < TFT_H ->
  exists buf,
    List.length buf = 1280%nat /\
    fst (TFT_DrawTextLine_Async y text fg bg st) = blit_st st buf 2560 0.
Proof.
  intros Hidle Hy. unfold TFT_DrawTextLine_Async.
  destruct (Z.leb_spec TFT_H (u16 y)) as [|_]; [lia|].
  unfold TFT_IsBusy in Hidle. destruct (g_op st); try discriminate.
  eexists. split; [|reflexivity].
  rewrite draw_text_length. unfold linebuf_clear. now rewrite repeat_length.
Qed.






(** C2 as stated fails for the fill entry point: a fill requested while a
    text-line blit is one chunk into its transfer is not rejected, it
    replaces the running operation. *)
Lemma C2_fill_replaces_active_blit :
  let st :=
    fst (pump [true]
           (fst (TFT_DrawTextLine_Async 0 (Some "A"%string) 0xFFFF 0
                                        tft_init))) in
  TFT_IsBusy st = true /\
  g_op st = TFT_OP_BLIT /\
  g_op (fst (TFT_FillColor_Async 0xF800 st)) = TFT_OP_FILL /\
  fst (TFT_FillColor_Async 0xF800 st) <> st.
Proof.
  cbv zeta. repeat split; try (vm_compute; reflexivity).
  intros H. apply (f_equal g_op) in H. vm_compute in H. discriminate H.
Qed.

(** C2, amended.  [TFT_DrawTextLine_Async] begins a blit only when no
    operation is active: called while one is active it changes nothing and
    puts nothing on the bus; called on an idle engine with [y] on the
    screen it begins a blit with nothing sent.  [TFT_FillColor_Async]
    begins a fill from zero pixels in every state, replacing whatever was
    running, and leaves the blit bookkeeping and the line buffer alone.
    Neither function returns a result. *)
Theorem C2_start_calls_and_busy_engine :
  (forall (y : Z) (text : option string) (fg bg : Z) (st : tft_state),
     TFT_IsBusy st = true ->
     TFT_DrawTextLine_Async y text fg bg st = (st, []))
  /\
  (forall (y : Z) (text : option string) (fg bg : Z) (st : tft_state),
     TFT_IsBusy st = false -> u16 y < TFT_H ->
     let st' := fst (TFT_DrawTextLine_Async y text fg bg st) in
     g_op st' = TFT_OP_BLIT /\ g_blit_sent st' = 0 /\
     g_blit_ptr st' = SRC_LINEBUF /\ TFT_IsBusy st' = true)
  /\
  (forall (color : Z) (st : tft_state),
     let st' := fst (TFT_FillColor_Async color st) in
     g_op st' = TFT_OP_FILL /\ g_fill_color st' = u16 color /\
     g_fill_sent_pixels st' = 0 /\ TFT_IsBusy st' = true /\
     g_blit_ptr st' = g_blit_ptr st /\ g_blit_len st' = g_blit_len st /\
     g_blit_sent st' = g_blit_sent st /\ g_linebuf st' = g_linebuf st).
Proof.
  split; [|split].
  - intros y text fg bg st Hbusy. unfold TFT_DrawTextLine_Async.
    unfold TFT_IsBusy in Hbusy.
    destruct (TFT_H <=? u16 y); [reflexivity|].
    destruct (g_op st); [discriminate Hbusy | reflexivity | reflexivity].
  - intros y text fg bg st Hidle Hy st'.
    destruct (draw_start y text fg bg st Hidle Hy) as (buf & _ & Hst).
    subst st'. rewrite Hst. repeat split.
  - intros color st st'. subst st'. repeat split.
Qed.

(** The busy engine one chunk into a text line rejects a second line; the
    idle engine accepts one. *)
Lemma C2_start_calls_witness :
  let busy :=
    fst (pump [true]
           (fst (TFT_DrawTextLine_Async 0 (Some "A"%string) 0xFFFF 0
                                        tft_init))) in
  TFT_IsBusy busy = true /\
  TFT_DrawTextLine_Async 8 (Some "B"%string) 0xFFFF 0 busy = (busy, []) /\
  TFT_IsBusy tft_init = false /\ u16 8 < TFT_H /\
  g_op (fst (TFT_DrawTextLine_Async 8 (Some "B"%string) 0xFFFF 0 tft_init))
    = TFT_OP_BLIT.
Proof.
  cbv zeta. split; [vm_compute; reflexivity|]. split.
  - apply (proj1 C2_start_calls_and_busy_engine). vm_compute; reflexivity.
  - split; [reflexivity|]. split; [reflexivity|].
    exact (proj1 (proj1 (proj2 C2_start_calls_and_busy_engine)
                    8 (Some "B"%string) 0xFFFF 0 tft_init eq_refl eq_refl)).
Defined.

End RenderEngine.

(** ** Strings and arrays *)

Lemma str_take_idem n : forall s, str_take n (str_take n s) = str_take n s.
Proof.
  induction n as [|n IH]; intros s; [reflexivity|].
  destruct s as [|c r]; [reflexivity|]. cbn [str_take]. now rewrite IH.
Qed.

Lemma c_str_take s : forall n, c_str (str_take n (c_str s)) = str_take n (c_str s).
Proof.
  induction s as [|c r IH]; intros n.
  - now destruct n.
  - cbn [c_str]. destruct (Ascii.eqb c zero) eqn:Hc.
    + now destruct n.
    + destruct n as [|n]; [reflexivity|].
      cbn [str_take c_str]. rewrite Hc. now rewrite IH.
Qed.

Lemma strncpy_z_idem s n : strncpy_z (strncpy_z s n) n = strncpy_z s n.
Proof. unfold strncpy_z. now rewrite c_str_take, str_take_idem. Qed.

Lemma nth_upd_eq {A} (l : list A) : forall i v d,
  (i < List.length l)%nat -> nth i (upd l i v) d = v.
Proof.
  induction l as [|x l IH]; intros [|i] v d H; simpl in *; try lia.
  - reflexivity.
  - apply IH. lia.
Qed.

Lemma nth_upd_ne {A} (l : list A) : forall i j v d,
  i <> j -> nth j (upd l i v) d = nth j l d.
Proof.
  induction l as [|x l IH]; intros [|i] [|j] v d H; simpl; try reflexivity.
  - contradiction.
  - apply IH. congruence.
Qed.

Lemma upd_out {A} (l : list A) : forall i v,
  (List.length l <= i)%nat -> upd l i v = l.
Proof.
  induction l as [|x l IH]; intros [|i] v H; simpl in *; try reflexivity.
  - lia.
  - f_equal. apply IH. lia.
Qed.

Lemma upd_upd {A} (l : list A) : forall i v w, upd (upd l i v) i w = upd l i w.
Proof.
  induction l as [|x l IH]; intros [|i] v w; simpl; try reflexivity.
  now rewrite IH.
Qed.

Lemma Forall_upd {A} (P : A -> Prop) (l : list A) : forall i v,
  Forall P l -> P v -> Forall P (upd l i v).
Proof.
  induction l as [|x l IH]; intros [|i] v Hl Hv; simpl; try assumption.
  - inversion Hl; subst. now constructor.
  - inversion Hl; subst. constructor; [assumption|]. now apply IH.
Qed.

Lemma Forall_nth_default {A} (P : A -> Prop) (l : list A) d : forall i,
  Forall P l -> P d -> P (nth i l d).
Proof.
  induction l as [|x l IH]; intros [|i] Hl Hd; simpl; try assumption.
  - now inversion Hl.
  - inversion Hl; subst. now apply IH.
Qed.

Section LineManager.
Import Tft Ui.

Lemma zero_line_ok : line_ok zero_line.
Proof. split; [reflexivity|]. intros H. now contradiction H. Qed.

Lemma line_ok_at st idx : ui_inv st -> line_ok (line st idx).
Proof.
  intros H. unfold line.
  apply Forall_nth_default; [exact H|exact zero_line_ok].
Qed.

Lemma cleared_inv st : ui_inv (App_UI_ClearAll st).
Proof.
  unfold ui_inv, App_UI_ClearAll. cbn [s_ui].
  apply Forall_forall. intros L HL. apply repeat_spec in HL. subst L.
  exact zero_line_ok.
Qed.

Lemma clear_line_inv idx st : ui_inv st -> ui_inv (App_UI_ClearLine idx st).
Proof.
  intros H. unfold App_UI_ClearLine.
  destruct (UI_MAX_LINES <=? u8 idx); [exact H|].
  unfold ui_inv. cbn [s_ui]. apply Forall_upd; [exact H|exact zero_line_ok].
Qed.

Lemma set_line_inv idx f b t st : ui_inv st -> ui_inv (App_UI_SetLine idx f b t st).
Proof.
  intros H. unfold App_UI_SetLine.
  destruct (UI_MAX_LINES <=? u8 idx); [exact H|].
  unfold ui_inv. cbn [s_ui]. apply Forall_upd; [exact H|].
  destruct (line_ok_at st (u8 idx) H) as [Hwf Hd].
  destruct (strncmp_ne _ _ _); split; cbn [text last dirty];
    auto using strncpy_z_idem.
Qed.

Lemma tft_task_inv ok st : ui_inv st -> ui_inv (Ui.TFT_Task ok st).
Proof. intros H. exact H. Qed.

Lemma scan_inv fuel : forall st n k,
  ui_inv st -> ui_inv (fst (ui_scan st n k fuel)).
Proof.
  induction fuel as [|fuel IH]; intros st n k H; cbn [ui_scan].
  - exact H.
  - destruct (negb (used (line st (u8 ((s_ui_rr st + k) mod n)))));
      [now apply IH|].
    destruct (dirty _ || strcmp_ne _ _); [|now apply IH].
    cbn [fst]. unfold ui_inv. cbn [s_ui]. apply Forall_upd; [exact H|].
    destruct (line_ok_at st (u8 ((s_ui_rr st + k) mod n)) H) as [Hwf _].
    split; cbn [text last dirty]; [exact Hwf|].
    intros Hne. contradiction Hne. now rewrite Hwf.
Qed.

Lemma pump_inv st : ui_inv st -> ui_inv (fst (ui_pump_once st)).
Proof.
  intros H. unfold ui_pump_once.
  destruct (TFT_IsBusy (tft st)); [exact H|].
  destruct (ui_active_count st =? 0); [exact H|]. now apply scan_inv.
Qed.

Lemma step_inv op st : ui_inv st -> ui_inv (fst (ui_step op st)).
Proof.
  intros H. destruct op; cbn [ui_step fst].
  - now apply set_line_inv.
  - now apply pump_inv.
  - now apply clear_line_inv.
  - apply cleared_inv.
  - exact H.
Qed.

Lemma run_inv ops : forall st, ui_inv st -> ui_inv (fst (ui_run ops st)).
Proof.
  induction ops as [|op r IH]; intros st H; [exact H|].
  cbn [ui_run]. pose proof (step_inv op st H) as H1.
  destruct (ui_step op st) as [st1 r1]. cbn [fst] in H1.
  specialize (IH st1 H1). destruct (ui_run r st1) as [st2 r2]. exact IH.
Qed.

(** What a scan renders: at most one line, a used one whose dirty flag is
    set or whose texts differ, with its stored text. *)
Lemma scan_renders fuel : forall st n k,
  (List.length (snd (ui_scan st n k fuel)) <= 1)%nat /\
  forall r, In r (snd (ui_scan st n k fuel)) ->
    used (line st (r_idx r)) = true /\
    dirty (line st (r_idx r))
      || strcmp_ne (text (line st (r_idx r))) (last (line st (r_idx r))) = true /\
    r_text r = text (line st (r_idx r)) /\
    r_y r = u16 (r_idx r * UI_LINE_H).
Proof.
  induction fuel as [|fuel IH]; intros st n k; cbn [ui_scan].
  - split; [simpl; lia|]. intros r [].
  - destruct (used (line st (u8 ((s_ui_rr st + k) mod n)))) eqn:Hu;
      cbn [negb]; [|apply IH].
    destruct (dirty _ || strcmp_ne _ _) eqn:Hd; [|apply IH].
    cbn [snd]. split; [simpl; lia|].
    intros r [<-|[]]. cbn [r_idx r_text r_y]. now rewrite Hu, Hd.
Qed.

Lemma pump_renders st :
  (List.length (snd (ui_pump_once st)) <= 1)%nat /\
  forall r, In r (snd (ui_pump_once st)) ->
    used (line st (r_idx r)) = true /\
    dirty (line st (r_idx r))
      || strcmp_ne (text (line st (r_idx r))) (last (line st (r_idx r))) = true /\
    r_text r = text (line st (r_idx r)) /\
    r_y r = u16 (r_idx r * UI_LINE_H).
Proof.
  unfold ui_pump_once.
  destruct (TFT_IsBusy (tft st)); [split; [simpl; lia|intros r []]|].
  destruct (ui_active_count st =? 0); [split; [simpl; lia|intros r []]|].
  apply scan_renders.
Qed.

Lemma strcmp_ne_true a b : strcmp_ne a b = true -> a <> b.
Proof.
  unfold strcmp_ne. intros H <-. now rewrite String.eqb_refl in H.
Qed.


Lemma zero_line_clean : line_clean zero_line.
Proof. now split. Qed.

Lemma line_clean_at st idx : ui_clean st -> line_clean (line st idx).
Proof.
  intros H. unfold line.
  apply Forall_nth_default; [exact H|exact zero_line_clean].
Qed.

Lemma scan_clean fuel : forall st n k,
  ui_clean st ->
  ui_scan st n k fuel =
  ({| s_ui := s_ui st; s_ui_rr := 0; tft := tft st |}, []).
Proof.
  induction fuel as [|fuel IH]; intros st n k H; cbn [ui_scan]; [reflexivity|].
  destruct (line_clean_at st (u8 ((s_ui_rr st + k) mod n)) H) as [Hd Ht].
  rewrite Hd, Ht. unfold strcmp_ne. rewrite String.eqb_refl. cbn [negb orb].
  destruct (negb (used _)); now apply IH.
Qed.

Lemma pump_clean st :
  ui_clean st ->
  snd (ui_pump_once st) = [] /\ s_ui (fst (ui_pump_once st)) = s_ui st.
Proof.
  intros H. unfold ui_pump_once.
  destruct (TFT_IsBusy (tft st)); [now split|].
  destruct (ui_active_count st =? 0); [now split|].
  rewrite scan_clean by exact H. now split.
Qed.

(** Setting a line to the text it already holds changes neither flag nor
    text of any line. *)
Lemma set_line_same idx f b txt st :
  or_empty txt = text (line st (u8 idx)) ->
  forall i,
    dirty (line (App_UI_SetLine idx f b txt st) i) = dirty (line st i) /\
    text (line (App_UI_SetLine idx f b txt st) i) = text (line st i) /\
    last (line (App_UI_SetLine idx f b txt st) i) = last (line st i).
Proof.
  intros Hsame i. unfold App_UI_SetLine.
  destruct (UI_MAX_LINES <=? u8 idx); [now repeat split|].
  rewrite Hsame. unfold strncmp_ne. rewrite String.eqb_refl. cbn [negb].
  unfold line. cbn [s_ui].
  destruct (Nat.eq_dec (Z.to_nat (u8 idx)) (Z.to_nat i)) as [He|Hne].
  - destruct (Nat.lt_ge_cases (Z.to_nat (u8 idx)) (List.length (s_ui st)))
      as [Hin|Hout].
    + rewrite <- He, !nth_upd_eq by exact Hin. now repeat split.
    + rewrite upd_out by exact Hout. now repeat split.
  - rewrite !nth_upd_ne by exact Hne. now repeat split.
Qed.

Lemma set_line_same_clean idx f b txt st :
  or_empty txt = text (line st (u8 idx)) ->
  ui_clean st -> ui_clean (App_UI_SetLine idx f b txt st).
Proof.
  intros Hsame H. unfold App_UI_SetLine.
  destruct (UI_MAX_LINES <=? u8 idx); [exact H|].
  unfold ui_clean. cbn [s_ui]. apply Forall_upd; [exact H|].
  rewrite Hsame. unfold strncmp_ne. rewrite String.eqb_refl. cbn [negb].
  destruct (line_clean_at st (u8 idx) H) as [Hd Ht]. now split.
Qed.

Lemma run_clean ops st0 : forall st,
  ui_clean st ->
  (forall i, text (line st i) = text (line st0 i)) ->
  Forall (keeps_text st0) ops ->
  snd (ui_run ops st) = [].
Proof.
  induction ops as [|op r IH]; intros st Hc Ht Hops; [reflexivity|].
  inversion Hops as [|? ? Hop Hr]; subst. cbn [ui_run].
  assert (Hstep : snd (ui_step op st) = [] /\
                  ui_clean (fst (ui_step op st)) /\
                  forall i, text (line (fst (ui_step op st)) i)
                            = text (line st0 i)).
  { destruct op as [idx f b txt| |idx| |ok]; cbn [ui_step fst snd keeps_text] in *;
      try contradiction.
    - rewrite <- Ht in Hop. split; [reflexivity|].
      split; [now apply set_line_same_clean|].
      intros i. rewrite <- Ht. apply (set_line_same idx f b txt st Hop i).
    - destruct (pump_clean st Hc) as [Hr0 Hs]. split; [exact Hr0|].
      unfold ui_clean, line. rewrite Hs. split; [exact Hc|exact Ht].
    - split; [reflexivity|]. split; [exact Hc|exact Ht]. }
  destruct (ui_step op st) as [st1 r1]. cbn [fst snd] in Hstep.
  destruct Hstep as (-> & Hc1 & Ht1).
  specialize (IH st1 Hc1 Ht1 Hr).
  destruct (ui_run r st1) as [st2 r2]. cbn [snd] in *. now rewrite IH.
Qed.

Lemma set_line_idem idx f b txt st :
  App_UI_SetLine idx f b txt (App_UI_SetLine idx f b txt st) =
  App_UI_SetLine idx f b txt st.
Proof.
  unfold App_UI_SetLine at 2 3.
  destruct (UI_MAX_LINES <=? u8 idx) eqn:Hr.
  - unfold App_UI_SetLine. now rewrite Hr.
  - set (L := line st (u8 idx)).
    set (t := or_empty txt).
    set (L' := {| used := true;
                  dirty := if strncmp_ne (text L) t (Z.to_nat UI_TEXT_MAX)
                           then true else dirty L;
                  fg := u16 f; bg := u16 b;
                  text := if strncmp_ne (text L) t (Z.to_nat UI_TEXT_MAX)
                          then strncpy_z t (Z.to_nat (UI_TEXT_MAX - 1))
                          else text L;
                  last := last L |}).
    unfold App_UI_SetLine. rewrite Hr. cbn [s_ui s_ui_rr tft].
    fold t. f_equal. unfold line. cbn [s_ui].
    destruct (Nat.lt_ge_cases (Z.to_nat (u8 idx)) (List.length (s_ui st)))
      as [Hin|Hout].
    + rewrite nth_upd_eq by exact Hin. rewrite upd_upd. f_equal.
      subst L'. cbn [text dirty last].
      destruct (strncmp_ne (text L) t (Z.to_nat UI_TEXT_MAX)) eqn:Hch.
      * now destruct (strncmp_ne (strncpy_z t _) t _).
      * now rewrite Hch.
    + rewrite (upd_out (s_ui st)) by exact Hout.
      rewrite upd_out by exact Hout. reflexivity.
Qed.


(** C3 as stated fails in the direction "dirty implies the texts differ":
    a line is drawn, then set to another text and back before the next
    pump.  Its dirty flag is set although desired and last-rendered text
    agree, and the pump submits it again. *)
Lemma C3_dirty_although_text_equals_last :
  let ops :=
    [OpSetLine 0 0xFFE0 0 (Some "I2C: 21 C"%string); OpPump]
    ++ repeat (OpTftTask true) 5
    ++ [OpSetLine 0 0xFFE0 0 (Some "I2C: 22 C"%string);
        OpSetLine 0 0xFFE0 0 (Some "I2C: 21 C"%string)] in
  let st := fst (ui_run ops (ui_cleared tft_init)) in
  dirty (line st 0) = true /\
  text (line st 0) = last (line st 0) /\
  TFT_IsBusy (tft st) = false /\
  map r_idx (snd (ui_pump_once st)) = [0].
Proof. vm_compute. repeat split. Qed.

(** C3, amended.  After every sequence of line-manager operations from
    the cleared state, an entry whose desired text differs from its
    last-rendered text has its dirty flag set, and every line
    [ui_pump_once] submits is a used line whose dirty flag is set, drawn
    with its desired text.  (The dirty flag may also be set while the two
    texts agree.) *)
Theorem C3_dirty_covers_every_text_difference :
  forall (t : tft_state) (ops : list ui_op),
    let st := fst (ui_run ops (ui_cleared t)) in
    (forall idx : Z,
       text (line st idx) <> last (line st idx) -> dirty (line st idx) = true)
    /\
    (forall r : render, In r (snd (ui_pump_once st)) ->
       used (line st (r_idx r)) = true /\
       dirty (line st (r_idx r)) = true /\
       r_text r = text (line st (r_idx r))).
Proof.
  intros t ops st.
  assert (Hinv : ui_inv st).
  { apply run_inv. apply cleared_inv. }
  split.
  - intros idx. apply (line_ok_at st idx Hinv).
  - intros r Hr.
    destruct (proj2 (pump_renders st) r Hr) as (Hu & Hd & Ht & _).
    repeat split; try assumption.
    destruct (dirty (line st (r_idx r))) eqn:E; [reflexivity|].
    cbn [orb] in Hd. apply strcmp_ne_true in Hd.
    rewrite <- E. now apply (line_ok_at st (r_idx r) Hinv).
Qed.

(** A freshly set line: its texts differ, so it is dirty, and the pump
    submits exactly that line. *)
Lemma C3_dirty_covers_witness :
  let st :=
    fst (ui_run [OpSetLine 2 0xF81F 0 (Some "CAN 0x120:"%string)]
                (ui_cleared tft_init)) in
  text (line st 2) <> last (line st 2) /\
  dirty (line st 2) = true /\
  map r_idx (snd (ui_pump_once st)) = [2].
Proof.
  cbv zeta.
  assert (Hne : text (line (fst (ui_run
                   [OpSetLine 2 0xF81F 0 (Some "CAN 0x120:"%string)]
                   (ui_cleared tft_init))) 2)
                <> last (line (fst (ui_run
                   [OpSetLine 2 0xF81F 0 (Some "CAN 0x120:"%string)]
                   (ui_cleared tft_init))) 2)).
  { vm_compute. discriminate. }
  split; [exact Hne|]. split.
  - exact (proj1 (C3_dirty_covers_every_text_difference tft_init
             [OpSetLine 2 0xF81F 0 (Some "CAN 0x120:"%string)]) 2 Hne).
  - vm_compute. reflexivity.
Defined.

Lemma u8_nonneg x : 0 <= u8 x.
Proof. unfold u8. apply Z.mod_pos_bound. lia. Qed.

Lemma clean_not_pending L :
  line_clean L -> dirty L || strcmp_ne (text L) (last L) = false.
Proof.
  intros [Hd Ht]. rewrite Hd, Ht. unfold strcmp_ne.
  now rewrite String.eqb_refl.
Qed.

(** A scan leaves a clean line alone and does not render it. *)
Lemma scan_skips_clean_line idx fuel : forall st n k,
  line_clean (line st idx) ->
  line (fst (ui_scan st n k fuel)) idx = line st idx /\
  forall r, In r (snd (ui_scan st n k fuel)) ->
            Z.to_nat (r_idx r) <> Z.to_nat idx.
Proof.
  induction fuel as [|fuel IH]; intros st n k Hc; cbn [ui_scan].
  - split; [reflexivity|intros r []].
  - set (c := u8 ((s_ui_rr st + k) mod n)).
    destruct (negb (used (line st c))); [now apply IH|].
    destruct (dirty (line st c) || strcmp_ne _ _) eqn:Hp; [|now apply IH].
    assert (Hne : Z.to_nat c <> Z.to_nat idx).
    { intros He. unfold line in Hp, Hc. rewrite He in Hp.
      now rewrite (clean_not_pending _ Hc) in Hp. }
    cbn [fst snd]. split.
    + unfold line. cbn [s_ui]. now rewrite nth_upd_ne.
    + intros r [<-|[]]. exact Hne.
Qed.

Lemma pump_skips_clean_line idx st :
  line_clean (line st idx) ->
  line (fst (ui_pump_once st)) idx = line st idx /\
  forall r, In r (snd (ui_pump_once st)) ->
            Z.to_nat (r_idx r) <> Z.to_nat idx.
Proof.
  intros Hc. unfold ui_pump_once.
  destruct (TFT_IsBusy (tft st)); [split; [reflexivity|intros r []]|].
  destruct (ui_active_count st =? 0); [split; [reflexivity|intros r []]|].
  now apply scan_skips_clean_line.
Qed.

Lemma set_other_line i f b txt st idx :
  0 <= idx -> u8 i <> idx ->
  line (App_UI_SetLine i f b txt st) idx = line st idx.
Proof.
  intros Hidx Hne. unfold App_UI_SetLine.
  destruct (UI_MAX_LINES <=? u8 i); [reflexivity|].
  unfold line. cbn [s_ui]. apply nth_upd_ne.
  pose proof (u8_nonneg i). lia.
Qed.

Lemma clear_other_line i st idx :
  0 <= idx -> u8 i <> idx ->
  line (App_UI_ClearLine i st) idx = line st idx.
Proof.
  intros Hidx Hne. unfold App_UI_ClearLine.
  destruct (UI_MAX_LINES <=? u8 i); [reflexivity|].
  unfold line. cbn [s_ui]. apply nth_upd_ne.
  pose proof (u8_nonneg i). lia.
Qed.

Lemma run_skips_clean_line idx st0 ops : forall st,
  0 <= idx ->
  line_clean (line st idx) ->
  text (line st idx) = text (line st0 idx) ->
  Forall (keeps_line st0 idx) ops ->
  forall r, In r (snd (ui_run ops st)) -> Z.to_nat (r_idx r) <> Z.to_nat idx.
Proof.
  induction ops as [|op rest IH]; intros st Hidx Hc Ht Hops r Hin;
    [destruct Hin|].
  inversion Hops as [|? ? Hop Hrest]; subst. cbn [ui_run] in Hin.
  assert (Hstep :
    (line_clean (line (fst (ui_step op st)) idx) /\
     text (line (fst (ui_step op st)) idx) = text (line st0 idx)) /\
    forall r', In r' (snd (ui_step op st)) ->
               Z.to_nat (r_idx r') <> Z.to_nat idx).
  { destruct op as [i f b txt| |i| |ok]; cbn [ui_step fst snd keeps_line] in *.
    - split; [|intros r' []].
      destruct (Z.eq_dec (u8 i) idx) as [He|Hne].
      + destruct Hop as [Hop|Hop]; [contradiction|].
        rewrite <- Ht, <- He in Hop.
        destruct (set_line_same i f b txt st Hop idx) as (Hd & Htx & Hl).
        destruct Hc as [Hc1 Hc2].
        split; [split|]; congruence.
      + rewrite set_other_line by assumption. now split.
    - destruct (pump_skips_clean_line idx st Hc) as [Hl Hr].
      rewrite Hl. split; [split; assumption|exact Hr].
    - rewrite clear_other_line by assumption.
      split; [split; assumption|intros r' []].
    - contradiction.
    - split; [now split|intros r' []]. }
  destruct (ui_step op st) as [st1 r1]. cbn [fst snd] in Hstep.
  destruct Hstep as [[Hc1 Ht1] Hr1].
  specialize (IH st1 Hidx Hc1 Ht1 Hrest).
  destruct (ui_run rest st1) as [st2 r2]. cbn [snd] in *.
  apply in_app_or in Hin as [Hin|Hin]; [now apply Hr1|now apply IH].
Qed.

(** C7.  Whatever the state (so after any sequence of [App_UI_SetLine]
    calls), one [ui_pump_once] submits at most one line.  A call of
    [App_UI_SetLine] with the text the entry already holds changes no
    dirty flag, desired text or last-rendered text; calling it twice with
    the same arguments is the same as calling it once.  Once every line
    has been rendered, any run of such same-text calls, pumps and engine
    ticks (30 times [App_UI_SetLine(0, attrs, "X")] among them) causes no
    render at all; and once one line has been rendered, no run of
    same-text calls on it, pumps, ticks and operations on other lines
    renders that line again. *)
Theorem C7_one_line_per_pump_and_same_text_is_idle :
  (forall st : ui_state, (List.length (snd (ui_pump_once st)) <= 1)%nat)
  /\
  (forall (idx f b : Z) (txt : option string) (st : ui_state),
     or_empty txt = text (line st (u8 idx)) ->
     forall i : Z,
       dirty (line (App_UI_SetLine idx f b txt st) i) = dirty (line st i) /\
       text (line (App_UI_SetLine idx f b txt st) i) = text (line st i) /\
       last (line (App_UI_SetLine idx f b txt st) i) = last (line st i))
  /\
  (forall (idx f b : Z) (txt : option string) (st : ui_state),
     App_UI_SetLine idx f b txt (App_UI_SetLine idx f b txt st) =
     App_UI_SetLine idx f b txt st)
  /\
  (forall (st : ui_state) (ops : list ui_op),
     ui_clean st -> Forall (keeps_text st) ops ->
     snd (ui_run ops st) = [])
  /\
  (forall (st : ui_state) (idx : Z) (ops : list ui_op),
     0 <= idx -> line_clean (line st idx) ->
     Forall (keeps_line st idx) ops ->
     forall r : render, In r (snd (ui_run ops st)) ->
       Z.to_nat (r_idx r) <> Z.to_nat idx).
Proof.
  split; [|split; [|split; [|split]]].
  - intros st. apply pump_renders.
  - intros idx f b txt st H i. now apply set_line_same.
  - intros. apply set_line_idem.
  - intros st ops Hc Hops. now apply (run_clean ops st st).
  - intros st idx ops Hidx Hc Hops. now apply (run_skips_clean_line idx st ops st).
Qed.

(** The scenario run: line 0 is set to "X" and drawn, the engine finishes
    the blit, then 30 identical calls and a pump follow. *)
Lemma C7_thirty_identical_calls_witness :
  let first :=
    [OpSetLine 0 0xFFE0 0 (Some "X"%string); OpPump]
    ++ repeat (OpTftTask true) 5 in
  let st := fst (ui_run first (ui_cleared tft_init)) in
  let again :=
    repeat (OpSetLine 0 0xFFE0 0 (Some "X"%string)) 30 ++ [OpPump] in
  map r_idx (snd (ui_run first (ui_cleared tft_init))) = [0] /\
  TFT_IsBusy (tft st) = false /\
  snd (ui_run again st) = [].
Proof.
  cbv zeta. split; [vm_compute; reflexivity|].
  split; [vm_compute; reflexivity|].
  apply (proj1 (proj2 (proj2 (proj2
           C7_one_line_per_pump_and_same_text_is_idle)))).
  - vm_compute. repeat constructor.
  - vm_compute. repeat constructor.
Defined.

End LineManager.

(** ** Sensor poll service *)

Section SensorPoll.
Import I2c.

Lemma recover_pulses_le sda n : forall i, (recover_pulses sda i n <= n)%nat.
Proof.
  induction n as [|n IH]; intros i; cbn [recover_pulses]; [lia|].
  destruct (sda i); [lia|]. specialize (IH (S i)). lia.
Qed.

(** C4.  In a poll that fires: when the first read succeeds the state is
    published ok with that value, the error symbol is "NONE" and no
    recovery runs; when the first read fails, exactly one bus recovery
    (of at most 9 clock pulses) runs, and then either the retry succeeds
    and the state is published ok with the retried value and error symbol
    "NONE", or the retry fails and the state is published as error, the
    symbol being [I2C_ErrStr] of the error code of the second failure and
    the last good value being kept. *)
Theorem C4_read_recover_retry_publish :
  forall (E : hal_i2c_errors) (now : Z) (first second : read_outcome)
         (sda : nat -> bool) (st : i2c_state),
    poll_due now st = true ->
    let st' := App_I2C_Service E now first second sda st in
    (ret first = HAL_OK ->
       g_i2c_ok st' = 1 /\
       snd (I2C_ReadTempFromESP32 first) = Some (g_i2c_temp st') /\
       g_i2c_last_err st' = "NONE"%string /\
       recoveries st' = recoveries st)
    /\
    (ret first <> HAL_OK ->
       (exists pulses : nat,
          recoveries st' = recoveries st ++ [pulses] /\ (pulses <= 9)%nat) /\
       (ret second = HAL_OK ->
          g_i2c_ok st' = 1 /\
          snd (I2C_ReadTempFromESP32 second) = Some (g_i2c_temp st') /\
          g_i2c_last_err st' = "NONE"%string) /\
       (ret second <> HAL_OK ->
          g_i2c_ok st' = 0 /\
          g_i2c_last_err st' = I2C_ErrStr E (error_code second) /\
          g_i2c_temp st' = g_i2c_temp st)).
Proof.
  intros E now first second sda st Hdue st'. subst st'.
  unfold App_I2C_Service. rewrite Hdue. cbn [negb].
  unfold I2C_ReadTemp_Fixed, I2C_ReadTempFromESP32.
  split.
  - intros H1. rewrite H1. cbn. repeat split.
  - intros H1.
    assert (Hf : is_ok (ret first) = false)
      by (destruct (ret first) eqn:Ef; cbn; congruence).
    rewrite Hf.
    split; [|split].
    + exists (recover_pulses sda 0 9). split; [|apply recover_pulses_le].
      destruct (ret first) eqn:Ef; try congruence;
        destruct (ret second); reflexivity.
    + intros H2. rewrite H2.
      destruct (ret first) eqn:Ef; try congruence; cbn; repeat split.
    + intros H2.
      assert (Hs : is_ok (ret second) = false)
        by (destruct (ret second) eqn:Es; cbn; congruence).
      rewrite Hs.
      destruct (ret first) eqn:Ef; try congruence;
        destruct (ret second) eqn:Es; try congruence; cbn; repeat split.
Qed.

(** Two failed reads with different causes: a NACK, then a timeout.  The
    published state is error "TIMEOUT" and one recovery (three pulses
    until the data line is released) has run. *)
Lemma C4_two_failures_witness :
  let E := stm32f7_errors in
  let first := {| ret := HAL_ERROR; buf0 := 0; buf1 := 0; error_code := 0x04 |} in
  let second := {| ret := HAL_TIMEOUT; buf0 := 0; buf1 := 0; error_code := 0x20 |} in
  let sda := fun i => (3 <=? i)%nat in
  let st' := App_I2C_Service E 500 first second sda i2c_init in
  poll_due 500 i2c_init = true /\
  g_i2c_ok st' = 0 /\
  g_i2c_last_err st' = "TIMEOUT"%string /\
  recoveries st' = [3%nat].
Proof.
  cbv zeta. split; [reflexivity|].
  pose proof (C4_read_recover_retry_publish stm32f7_errors 500
    {| ret := HAL_ERROR; buf0 := 0; buf1 := 0; error_code := 0x04 |}
    {| ret := HAL_TIMEOUT; buf0 := 0; buf1 := 0; error_code := 0x20 |}
    (fun i => (3 <=? i)%nat) i2c_init eq_refl) as H.
  cbv zeta in H. destruct H as [_ H].
  destruct (H ltac:(discriminate)) as (_ & _ & H3).
  destruct (H3 ltac:(discriminate)) as (Hok & Herr & _).
  split; [exact Hok|]. split; [exact Herr|]. reflexivity.
Defined.

End SensorPoll.

(** ** Telemetry client *)

Section TelemetryClient.
Import Codec Net.

(** Rejected at the door: the state is returned as it came. *)
Lemma send_rejected t w o st :
  g_tcp_txlen st <> 0 \/ APP_NET_TcpIsConnected st = false ->
  APP_NET_SendTCP t w o st = (false, st, []).
Proof.
  intros H. unfold APP_NET_SendTCP. destruct t as [t|]; [|reflexivity].
  destruct (APP_NET_TcpIsConnected st); cbn [negb]; [|reflexivity].
  destruct H as [H|H]; [|discriminate H].
  destruct (Z.eqb_spec (g_tcp_txlen st) 0); [contradiction|reflexivity].
Qed.

Lemma not_up_not_connected st :
  g_tcp_state st <> TCP_UP -> APP_NET_TcpIsConnected st = false.
Proof.
  unfold APP_NET_TcpIsConnected. destruct (g_tcp_state st); try reflexivity.
  intros H. now contradiction H.
Qed.

Lemma clamp_count_range size n m :
  1 < size -> clamp_count size n = Some m -> 0 < m <= size - 1.
Proof.
  unfold clamp_count. intros Hs.
  destruct (Z.leb_spec n 0); [discriminate|].
  destruct (Z.leb_spec size n); intros [= <-]; lia.
Qed.

(** What an accepted send leaves behind. *)
Lemma send_accepted t w o st :
  fst (fst (APP_NET_SendTCP t w o st)) = true ->
  let st' := snd (fst (APP_NET_SendTCP t w o st)) in
  APP_NET_TcpIsConnected st = true /\
  g_tcp_txlen st = 0 /\
  0 < g_tcp_txlen st' <= 255 /\
  g_tcp_state st' = g_tcp_state st /\ g_tcp st' = g_tcp st.
Proof.
  unfold APP_NET_SendTCP. destruct t as [t|]; [|discriminate].
  destruct (APP_NET_TcpIsConnected st); cbn [negb]; [|discriminate].
  destruct (Z.eqb_spec (g_tcp_txlen st) 0) as [Hz|]; cbn [negb]; [|discriminate].
  destruct (snprintf_telemetry 256 t) as [n buf].
  destruct (clamp_count 256 n) as [m|] eqn:Hm; [|discriminate].
  apply clamp_count_range in Hm; [|lia].
  destruct w; cbn [negb]; [|discriminate].
  destruct o; cbn [negb]; [|discriminate].
  intros _. cbn [fst snd with_tx g_tcp_txlen g_tcp_state g_tcp].
  unfold u16. rewrite Z.mod_small by lia. repeat split; try lia; assumption.
Qed.

(** A send that returns false leaves the guard as it found it. *)
Lemma send_failed_guard t w o st :
  fst (fst (APP_NET_SendTCP t w o st)) = false ->
  g_tcp_txlen (snd (fst (APP_NET_SendTCP t w o st))) = g_tcp_txlen st.
Proof.
  unfold APP_NET_SendTCP. destruct t as [t|]; [|reflexivity].
  destruct (APP_NET_TcpIsConnected st); cbn [negb]; [|reflexivity].
  destruct (Z.eqb_spec (g_tcp_txlen st) 0) as [Hz|]; cbn [negb]; [|reflexivity].
  destruct (snprintf_telemetry 256 t) as [n buf].
  destruct (clamp_count 256 n) as [m|]; [|reflexivity].
  destruct w; cbn [negb]; [|now rewrite Hz].
  destruct o; cbn [negb]; [discriminate|now rewrite Hz].
Qed.


(** C5 as stated fails: a second send with no sent callback in between is
    accepted (a) when the first call failed in [tcp_write], which clears
    the guard again, and (b) when the first call was accepted but the
    connection was reset and re-established before the second call. *)
Lemma C5_second_send_accepted_without_ack :
  let t := {| now_ms := 1000; i2c_temp_c := 21;
              can_0x101 := "none"; can_0x120 := "none" |} in
  let up :=
    fst (poll_run
           [(0, {| callbacks := []; new_pcb := Some 1%nat; connect_ok := true |});
            (10, {| callbacks := [CbConnected true]; new_pcb := None;
                    connect_ok := false |})]
           (APP_NET_Init (Some 0%nat))) in
  let a1 := APP_NET_SendTCP (Some t) false true up in
  let a2 := APP_NET_SendTCP (Some t) true true (snd (fst a1)) in
  let b1 := APP_NET_SendTCP (Some t) true true up in
  let again :=
    fst (poll_run
           [(2010, {| callbacks := [CbErr]; new_pcb := Some 2%nat;
                      connect_ok := true |});
            (2020, {| callbacks := [CbConnected true]; new_pcb := None;
                      connect_ok := false |})]
           (snd (fst b1))) in
  let b2 := APP_NET_SendTCP (Some t) true true again in
  (fst (fst a1) = false /\ fst (fst a2) = true) /\
  (fst (fst b1) = true /\ fst (fst b2) = true).
Proof. vm_compute. repeat split. Qed.

(** C5, amended.  [APP_NET_SendTCP] returns false, changes nothing and
    hands nothing to the stack whenever the pending-length guard is
    nonzero or the connection state is not Up.  After a call that returned
    true the guard holds the length of the submitted message, so the next
    call, with nothing happening in between, returns false and leaves the
    state, the pending message included, as it is. *)
Theorem C5_send_rejected_while_pending_or_not_up :
  (forall (t : option AppTelemetry) (w o : bool) (st : net_state),
     g_tcp_txlen st <> 0 \/ g_tcp_state st <> TCP_UP ->
     APP_NET_SendTCP t w o st = (false, st, []))
  /\
  (forall (t1 t2 : option AppTelemetry) (w1 o1 w2 o2 : bool) (st : net_state),
     fst (fst (APP_NET_SendTCP t1 w1 o1 st)) = true ->
     let st1 := snd (fst (APP_NET_SendTCP t1 w1 o1 st)) in
     g_tcp_txlen st1 <> 0 /\
     APP_NET_SendTCP t2 w2 o2 st1 = (false, st1, [])).
Proof.
  split.
  - intros t w o st [H|H]; apply send_rejected; [now left|right].
    now apply not_up_not_connected.
  - intros t1 t2 w1 o1 w2 o2 st Hacc st1.
    destruct (send_accepted t1 w1 o1 st Hacc) as (_ & _ & Hlen & _).
    fold st1 in Hlen. split; [lia|]. apply send_rejected. left. lia.
Qed.

(** A connection is brought up, one record is submitted, and a second
    send is tried at once. *)
Lemma C5_send_twice_witness :
  let t := {| now_ms := 1000; i2c_temp_c := 21;
              can_0x101 := "none"; can_0x120 := "none" |} in
  let up :=
    fst (poll_run
           [(0, {| callbacks := []; new_pcb := Some 1%nat; connect_ok := true |});
            (10, {| callbacks := [CbConnected true]; new_pcb := None;
                    connect_ok := false |})]
           (APP_NET_Init (Some 0%nat))) in
  let st1 := snd (fst (APP_NET_SendTCP (Some t) true true up)) in
  fst (fst (APP_NET_SendTCP (Some t) true true up)) = true /\
  APP_NET_SendTCP (Some t) true true st1 = (false, st1, []).
Proof.
  cbv zeta. split; [vm_compute; reflexivity|].
  apply (proj2 C5_send_rejected_while_pending_or_not_up).
  vm_compute. reflexivity.
Defined.

(** C10 as stated fails: a send rejected because a message is pending
    returns false with the guard still nonzero. *)
Lemma C10_false_with_guard_still_set :
  let t := {| now_ms := 1000; i2c_temp_c := 21;
              can_0x101 := "none"; can_0x120 := "none" |} in
  let up :=
    fst (poll_run
           [(0, {| callbacks := []; new_pcb := Some 1%nat; connect_ok := true |});
            (10, {| callbacks := [CbConnected true]; new_pcb := None;
                    connect_ok := false |})]
           (APP_NET_Init (Some 0%nat))) in
  let pending := snd (fst (APP_NET_SendTCP (Some t) true true up)) in
  let second := APP_NET_SendTCP (Some t) true true pending in
  fst (fst second) = false /\ g_tcp_txlen (snd (fst second)) = 53.
Proof. vm_compute. split; reflexivity. Qed.

Lemma deliver_guard e st : guard_inv st -> guard_inv (deliver e st).
Proof.
  unfold guard_inv. intros H.
  destruct e as [ok| | |p]; cbn [deliver]; try (intros Hn; now contradiction Hn).
  - unfold on_tcp_connected. destruct ok; cbn [negb];
      [|intros Hn; now contradiction Hn].
    cbn [with_tcp g_tcp_txlen]. intros Hn. specialize (H Hn).
    unfold APP_NET_TcpIsConnected in *. cbn [with_tcp g_tcp_state g_tcp].
    destruct (g_tcp_state st), (g_tcp st); try discriminate; reflexivity.
  - unfold on_tcp_recv. destruct p; [intros Hn; now contradiction Hn|exact H].
Qed.

Lemma callbacks_guard cbs : forall st,
  guard_inv st -> guard_inv (fold_left (fun s e => deliver e s) cbs st).
Proof.
  induction cbs as [|e r IH]; intros st H; [exact H|].
  cbn [fold_left]. apply IH. now apply deliver_guard.
Qed.

Lemma poll_guard now env st :
  guard_inv st -> guard_inv (fst (APP_NET_Poll now env st)).
Proof.
  intros H. unfold APP_NET_Poll.
  pose proof (callbacks_guard (callbacks env) st H) as Hc.
  set (stc := fold_left (fun s e => deliver e s) (callbacks env) st) in *.
  destruct (APP_NET_TcpIsConnected stc) eqn:Hconn; cbn [negb]; [exact Hc|].
  destruct (reconnect_due now stc); [|exact Hc].
  assert (Hz : g_tcp_txlen stc = 0).
  { destruct (Z.eq_dec (g_tcp_txlen stc) 0) as [|Hn]; [assumption|].
    specialize (Hc Hn). congruence. }
  unfold tcp_start_connect.
  destruct (g_tcp_state stc) eqn:Hs; cbn [fst];
    try (intros Hn; cbn [with_deadline g_tcp_txlen] in Hn; congruence).
  destruct (new_pcb env); [destruct (connect_ok env)|]; cbn [fst];
    intros Hn;
    cbn [with_deadline with_tcp tcp_force_abort g_tcp_txlen] in Hn;
    congruence.
Qed.

Lemma send_tcp_guard t w o st :
  guard_inv st -> guard_inv (snd (fst (APP_NET_SendTCP t w o st))).
Proof.
  intros H.
  destruct (fst (fst (APP_NET_SendTCP t w o st))) eqn:Hr.
  - destruct (send_accepted t w o st Hr) as (Hc & _ & _ & Hs & Hp).
    intros _. unfold APP_NET_TcpIsConnected in *. now rewrite Hs, Hp.
  - pose proof (send_failed_guard t w o st Hr) as Hg.
    intros Hn. rewrite Hg in Hn. specialize (H Hn).
    assert (E : APP_NET_SendTCP t w o st = (false, st, [])).
    { apply send_rejected. now left. }
    now rewrite E.
Qed.

Lemma send_udp_guard t nu pb so st :
  guard_inv st -> guard_inv (snd (fst (APP_NET_SendUDP t nu pb so st))).
Proof.
  intros H. unfold APP_NET_SendUDP. destruct t as [t|]; [|exact H].
  assert (Hcore : forall st', guard_inv st' ->
    guard_inv (snd (fst
      (let '(n, msg) := snprintf_telemetry 256 t in
       match clamp_count 256 n with
       | None => (false, st', [])
       | Some n =>
           if negb pb then (false, st', [])
           else (so, st', [UdpSend (str_take (Z.to_nat (u16 n)) msg)])
       end)))).
  { intros st' H'. unfold snprintf_telemetry.
    destruct (clamp_count 256 _); [destruct pb|]; exact H'. }
  destruct (g_udp st) as [p|] eqn:Hu.
  - rewrite Hu. now apply Hcore.
  - cbn [g_udp]. destruct nu as [p|]; [apply Hcore|]; exact H.
Qed.

Lemma net_run_guard ops : forall st, guard_inv st -> guard_inv (net_run ops st).
Proof.
  unfold net_run. induction ops as [|op r IH]; intros st H; [exact H|].
  cbn [fold_left]. apply IH.
  destruct op as [now env|t w o|t nu pb so|ok]; cbn [net_step].
  - now apply poll_guard.
  - now apply send_tcp_guard.
  - now apply send_udp_guard.
  - unfold APP_NET_SetRemote. destruct ok; cbn [negb snd]; [|exact H].
    intros Hn. now contradiction Hn.
Qed.

(** C10, amended.  A call of [APP_NET_SendTCP] that returns false leaves
    the pending-length guard as it found it: zero when the slot was free,
    also when [tcp_write] or [tcp_output] failed after the guard had been
    set, and the pending message's nonzero length when the call was
    rejected because of it.  The guard turns nonzero only in a call that
    returns true, on an Up connection with the slot free, and then holds a
    length between 1 and 255; the sent, error and close callbacks and the
    abort clear it; and in every state the client reaches from
    [APP_NET_Init] a nonzero guard goes with an established connection. *)
Theorem C10_failed_send_leaves_guard_as_found :
  (forall (t : option AppTelemetry) (w o : bool) (st : net_state),
     fst (fst (APP_NET_SendTCP t w o st)) = false ->
     g_tcp_txlen (snd (fst (APP_NET_SendTCP t w o st))) = g_tcp_txlen st)
  /\
  (forall (t : option AppTelemetry) (w o : bool) (st : net_state),
     fst (fst (APP_NET_SendTCP t w o st)) = true ->
     APP_NET_TcpIsConnected st = true /\ g_tcp_txlen st = 0 /\
     0 < g_tcp_txlen (snd (fst (APP_NET_SendTCP t w o st))) <= 255)
  /\
  (forall st : net_state,
     g_tcp_txlen (on_tcp_sent st) = 0 /\ g_tcp_txlen (on_tcp_err st) = 0 /\
     g_tcp_txlen (app_tcp_close st) = 0 /\ g_tcp_txlen (tcp_force_abort st) = 0)
  /\
  (forall (u : option pcb) (ops : list net_op),
     g_tcp_txlen (net_run ops (APP_NET_Init u)) <> 0 ->
     APP_NET_TcpIsConnected (net_run ops (APP_NET_Init u)) = true).
Proof.
  split; [|split; [|split]].
  - intros t w o st H. now apply send_failed_guard.
  - intros t w o st H.
    destruct (send_accepted t w o st H) as (Hc & Hz & Hlen & _).
    now repeat split.
  - intros st. now repeat split.
  - intros u ops. apply net_run_guard. intros Hn. now contradiction Hn.
Qed.

(** On an Up connection with a free slot a send whose [tcp_output] fails
    returns false and the slot is free again. *)
Lemma C10_failed_output_witness :
  let t := {| now_ms := 1000; i2c_temp_c := 21;
              can_0x101 := "none"; can_0x120 := "none" |} in
  let up :=
    fst (poll_run
           [(0, {| callbacks := []; new_pcb := Some 1%nat; connect_ok := true |});
            (10, {| callbacks := [CbConnected true]; new_pcb := None;
                    connect_ok := false |})]
           (APP_NET_Init (Some 0%nat))) in
  fst (fst (APP_NET_SendTCP (Some t) true false up)) = false /\
  g_tcp_txlen (snd (fst (APP_NET_SendTCP (Some t) true false up))) = 0.
Proof.
  cbv zeta.
  assert (H : fst (fst (APP_NET_SendTCP
                (Some {| now_ms := 1000; i2c_temp_c := 21;
                         can_0x101 := "none"; can_0x120 := "none" |})
                true false
                (fst (poll_run
                   [(0, {| callbacks := []; new_pcb := Some 1%nat;
                           connect_ok := true |});
                    (10, {| callbacks := [CbConnected true]; new_pcb := None;
                            connect_ok := false |})]
                   (APP_NET_Init (Some 0%nat)))))) = false)
    by (vm_compute; reflexivity).
  split; [exact H|].
  rewrite (proj1 C10_failed_send_leaves_guard_as_found _ _ _ _ H).
  vm_compute. reflexivity.
Defined.


Lemma deliver_keeps_deadline e st :
  g_next_tcp_reconnect_ms (deliver e st) = g_next_tcp_reconnect_ms st.
Proof.
  destruct e as [ok| | |p]; cbn [deliver]; try reflexivity.
  - unfold on_tcp_connected. now destruct ok.
  - unfold on_tcp_recv. now destruct p.
Qed.

Lemma callbacks_keep_deadline cbs : forall st,
  g_next_tcp_reconnect_ms (fold_left (fun s e => deliver e s) cbs st) =
  g_next_tcp_reconnect_ms st.
Proof.
  induction cbs as [|e r IH]; intros st; [reflexivity|].
  cbn [fold_left]. now rewrite IH, deliver_keeps_deadline.
Qed.

Lemma start_connect_out now p ok st :
  snd (tcp_start_connect now p ok st) = [] \/
  snd (tcp_start_connect now p ok st) = [ConnectAttempt now].
Proof.
  unfold tcp_start_connect. destruct (g_tcp_state st); auto.
  destruct p; [destruct ok|]; auto.
Qed.

(** One poll either leaves the deadline alone and attempts nothing, or it
    found the reconnect due, moved the deadline 2000 ms past now and made
    at most one attempt, stamped now. *)
Lemma poll_cases now env st :
  (snd (APP_NET_Poll now env st) = [] /\
   g_next_tcp_reconnect_ms (fst (APP_NET_Poll now env st)) =
   g_next_tcp_reconnect_ms st)
  \/
  (reconnect_due now
     (with_deadline st (g_next_tcp_reconnect_ms st)) = true /\
   g_next_tcp_reconnect_ms (fst (APP_NET_Poll now env st)) =
   u32 (u32 now + 2000) /\
   (snd (APP_NET_Poll now env st) = [] \/
    snd (APP_NET_Poll now env st) = [ConnectAttempt (u32 now)])).
Proof.
  unfold APP_NET_Poll.
  set (stc := fold_left (fun s e => deliver e s) (callbacks env) st).
  assert (Hd : g_next_tcp_reconnect_ms stc = g_next_tcp_reconnect_ms st)
    by apply callbacks_keep_deadline.
  destruct (APP_NET_TcpIsConnected stc); cbn [negb]; [left; now split|].
  destruct (reconnect_due now stc) eqn:Hdue; [|left; now split].
  right. split.
  - unfold reconnect_due in *. cbn [with_deadline g_next_tcp_reconnect_ms].
    now rewrite <- Hd.
  - pose proof (start_connect_out (u32 now) (new_pcb env) (connect_ok env) stc)
      as Ho.
    destruct (tcp_start_connect _ _ _ stc) as [s1 o1]. cbn [fst snd] in *.
    split; [reflexivity|exact Ho].
Qed.

(** With a nonzero deadline at most 2000 ms ahead of a clock that does
    not wrap, "due" means the deadline has been reached. *)
Lemma due_means_reached now g st :
  0 <= now < 2^32 -> 0 < g <= now + 2000 -> g < 2^32 ->
  reconnect_due now (with_deadline st g) = true -> g <= now.
Proof.
  intros Hn Hg Hg2. unfold reconnect_due.
  cbn [with_deadline g_next_tcp_reconnect_ms].
  destruct (Z.eqb_spec g 0) as [|_]; [lia|]. cbn [orb].
  unfold s32, u32. rewrite (Z.mod_small now) by lia.
  destruct (Z_lt_le_dec now g) as [Hlt|]; [|lia].
  assert (E : (now - g) mod 2 ^ 32 = now - g + 2 ^ 32)
    by (symmetry; apply Z.mod_unique with (q := -1); lia).
  rewrite E.
  destruct (Z.ltb_spec (now - g + 2 ^ 32) (2 ^ 31)); [lia|].
  destruct (Z.ltb_spec (now - g + 2 ^ 32 - 2 ^ 32) 0); [discriminate|lia].
Qed.

Lemma poll_run_spaced polls : forall st lo,
  0 <= lo ->
  (g_next_tcp_reconnect_ms st = 0 \/
   0 < g_next_tcp_reconnect_ms st <= lo + 2000) ->
  times_from lo polls ->
  Forall (fun p => fst p < 2^32 - 2000) polls ->
  let ts := attempt_times (snd (poll_run polls st)) in
  gaps_ok 2000 ts /\
  match ts with
  | [] => True
  | a :: _ => g_next_tcp_reconnect_ms st <= a
  end.
Proof.
  induction polls as [|[t env] r IH]; intros st lo Hlo Hg Ht Hr ts; subst ts.
  - cbn. split; exact I.
  - cbn [times_from] in Ht. destruct Ht as [Hlt Ht].
    inversion Hr as [|? ? Hb Hr']; subst. cbn [fst] in Hb.
    cbn [poll_run].
    pose proof (poll_cases t env st) as Hc.
    destruct (APP_NET_Poll t env st) as [st1 o1]. cbn [fst snd] in Hc.
    assert (Hu : u32 (u32 t + 2000) = t + 2000).
    { unfold u32. rewrite (Z.mod_small t) by lia. apply Z.mod_small. lia. }
    assert (Hut : u32 t = t) by (apply Z.mod_small; lia).
    destruct Hc as [[Ho Hd]|(Hdue & Hd & Ho)].
    + subst o1.
      assert (Hg1 : g_next_tcp_reconnect_ms st1 = 0 \/
                    0 < g_next_tcp_reconnect_ms st1 <= t + 2000)
        by (rewrite Hd; lia).
      specialize (IH st1 t ltac:(lia) Hg1 Ht Hr'). cbv zeta in IH.
      destruct (poll_run r st1) as [st2 o2]. cbn [snd app] in *.
      now rewrite <- Hd.
    + rewrite Hu in Hd.
      assert (Hg1 : g_next_tcp_reconnect_ms st1 = 0 \/
                    0 < g_next_tcp_reconnect_ms st1 <= t + 2000)
        by (rewrite Hd; lia).
      specialize (IH st1 t ltac:(lia) Hg1 Ht Hr'). cbv zeta in IH.
      assert (Hreach : g_next_tcp_reconnect_ms st <= t).
      { destruct Hg as [Hz|Hg]; [lia|].
        apply (due_means_reached t _ st); try lia. exact Hdue. }
      destruct (poll_run r st1) as [st2 o2]. cbn [snd] in *.
      destruct IH as [IH1 IH2]. rewrite Hd in IH2.
      destruct Ho as [->| ->]; cbn [app attempt_times].
      * split; [exact IH1|].
        destruct (attempt_times o2) as [|a ?]; [exact I|]. lia.
      * rewrite Hut. split; [|exact Hreach].
        destruct (attempt_times o2) as [|a l] eqn:Ea; [exact I|].
        cbn [gaps_ok]. split; [lia|exact IH1].
Qed.

(** As long as the millisecond clock has not come within 2000 ms of its
    wrap-around, connection attempts made by [APP_NET_Poll] are at least
    2000 ms apart. *)
Lemma attempts_spaced_before_wrap u polls :
  times_from 0 polls ->
  Forall (fun p => fst p < 2^32 - 2000) polls ->
  gaps_ok 2000 (attempt_times (snd (poll_run polls (APP_NET_Init u)))).
Proof.
  intros Ht Hr.
  apply (poll_run_spaced polls (APP_NET_Init u) 0); try assumption; [lia|].
  left. reflexivity.
Qed.

(** C6: the code at the failing input.  The connection made at boot is
    reset on day 24 and re-established; it is reset again at clock value
    2^32 - 2000.  The poll at that instant reconnects and stores the
    deadline (now + 2000) mod 2^32 = 0, which the next poll, 10 ms later
    and after the peer refused the connection, reads as "no deadline":
    two attempts 10 ms apart. *)
Lemma C6_attempts_10_ms_apart_at_wrap :
  let up := {| callbacks := [CbConnected true]; new_pcb := None;
               connect_ok := false |} in
  let reset := {| callbacks := [CbErr]; new_pcb := Some 1%nat;
                  connect_ok := true |} in
  let polls :=
    [(0, {| callbacks := []; new_pcb := Some 1%nat; connect_ok := true |});
     (10, up);
     (2147480000, reset); (2147480010, up);
     (4294965296, reset); (4294965306, reset)] in
  let r := poll_run polls (APP_NET_Init (Some 0%nat)) in
  times_from 0 polls /\
  attempt_times (snd r) = [0; 2147480000; 4294965296; 4294965306] /\
  g_next_tcp_reconnect_ms
    (fst (poll_run (firstn 5 polls) (APP_NET_Init (Some 0%nat)))) = 0 /\
  ~ gaps_ok 2000 (attempt_times (snd r)).
Proof.
  cbv zeta. split; [cbn; lia|]. split; [vm_compute; reflexivity|].
  split; [vm_compute; reflexivity|].
  intros H. vm_compute in H. destruct H as (_ & _ & H & _). apply H. reflexivity.
Qed.

End TelemetryClient.

(** ** Telemetry record *)

Section TelemetryCodec.
Import Codec Net.
Local Open Scope string_scope.

Lemma append_assoc (a b c : string) : (a ++ b) ++ c = a ++ (b ++ c).
Proof. induction a as [|x a IH]; cbn; [reflexivity|]. now rewrite IH. Qed.

Lemma length_append (a b : string) :
  String.length (a ++ b) = (String.length a + String.length b)%nat.
Proof. induction a as [|x a IH]; cbn; [reflexivity|]. now rewrite IH. Qed.

Lemma str_take_app (a b : string) : forall n,
  (String.length a <= n)%nat ->
  str_take n (a ++ b) = a ++ str_take (n - String.length a) b.
Proof.
  induction a as [|x a IH]; intros n Hn; cbn [append String.length].
  - now rewrite Nat.sub_0_r.
  - destruct n as [|n]; [cbn in Hn; lia|].
    cbn [str_take]. cbn in Hn. rewrite IH by lia. reflexivity.
Qed.

Lemma str_take_all (s : string) : forall n,
  (String.length s <= n)%nat -> str_take n s = s.
Proof.
  induction s as [|x s IH]; intros [|n] Hn; cbn in *; try reflexivity; try lia.
  rewrite IH by lia. reflexivity.
Qed.

Lemma str_take_min (s : string) : forall n m,
  (m <= n)%nat -> str_take m (str_take n s) = str_take m s.
Proof.
  induction s as [|x s IH]; intros [|n] [|m] H; cbn; try reflexivity; try lia.
  rewrite IH by lia. reflexivity.
Qed.

Lemma digit_cases d : (0 <= d < 10)%Z ->
  is_digit (digit_char d) = true /\
  (Z.of_nat (nat_of_ascii (digit_char d)) - 48 = d)%Z /\
  Ascii.eqb (digit_char d) "-" = false.
Proof.
  intros H.
  assert (C : (d = 0 \/ d = 1 \/ d = 2 \/ d = 3 \/ d = 4 \/ d = 5 \/ d = 6 \/
               d = 7 \/ d = 8 \/ d = 9)%Z) by lia.
  repeat (destruct C as [->|C]; [now vm_compute|]). subst d. now vm_compute.
Qed.

Lemma all_digits_app a b :
  all_digits (a ++ b) = all_digits a && all_digits b.
Proof.
  induction a as [|x a IH]; cbn; [reflexivity|].
  now rewrite IH, andb_assoc.
Qed.

Lemma dec_digits_all fuel : forall n, (0 <= n)%Z ->
  all_digits (dec_digits fuel n) = true.
Proof.
  induction fuel as [|f IH]; intros n Hn; cbn [dec_digits]; [reflexivity|].
  destruct (Z.ltb_spec n 10).
  - cbn [all_digits]. now rewrite (proj1 (digit_cases n ltac:(lia))).
  - rewrite all_digits_app, IH by (apply Z.div_pos; lia). cbn [all_digits].
    rewrite (proj1 (digit_cases (n mod 10)
                      (Z.mod_pos_bound n 10 ltac:(lia)))).
    reflexivity.
Qed.

Lemma dec_digits_length fuel : forall n,
  (String.length (dec_digits fuel n) <= fuel)%nat.
Proof.
  induction fuel as [|f IH]; intros n; cbn [dec_digits]; [cbn; lia|].
  destruct (n <? 10)%Z; [cbn; lia|].
  rewrite length_append. specialize (IH (n / 10)%Z). cbn. lia.
Qed.

Lemma dec_digits_nonempty fuel n :
  dec_digits (S fuel) n <> EmptyString.
Proof.
  cbn [dec_digits]. destruct (n <? 10)%Z; [discriminate|].
  destruct (dec_digits fuel (n / 10)); discriminate.
Qed.

Lemma parse_dec_snoc s : forall acc c,
  parse_dec acc (s ++ String c EmptyString) =
  (parse_dec acc s * 10 + (Z.of_nat (nat_of_ascii c) - 48))%Z.
Proof.
  induction s as [|x s IH]; intros acc c; cbn; [reflexivity|]. apply IH.
Qed.

Lemma parse_dec_digits fuel : forall n,
  (0 <= n < 10 ^ Z.of_nat fuel)%Z -> parse_dec 0 (dec_digits fuel n) = n.
Proof.
  induction fuel as [|f IH]; intros n Hn.
  - cbn in Hn. cbn. lia.
  - cbn [dec_digits]. destruct (Z.ltb_spec n 10).
    + cbn [parse_dec]. rewrite Z.mul_0_l, Z.add_0_l.
      apply (digit_cases n). lia.
    + rewrite parse_dec_snoc, IH.
      * rewrite (proj1 (proj2 (digit_cases (n mod 10)
                                 (Z.mod_pos_bound n 10 ltac:(lia))))).
        pose proof (Z.div_mod n 10 ltac:(lia)). lia.
      * rewrite Nat2Z.inj_succ, Z.pow_succ_r in Hn by lia.
        split; [apply Z.div_pos; lia|].
        apply Z.div_lt_upper_bound; lia.
Qed.

Lemma span_digits_app d : forall c r,
  all_digits d = true -> is_digit c = false ->
  span_digits (d ++ String c r) = (d, String c r).
Proof.
  induction d as [|x d IH]; intros c r Hd Hc; cbn [append span_digits].
  - now rewrite Hc.
  - cbn in Hd. apply andb_prop in Hd as [Hx Hd].
    rewrite Hx, IH by assumption. reflexivity.
Qed.

(** Reading back what [%lu] and [%ld] print, with any text after it that
    does not start with a digit. *)
Lemma read_unsigned fuel n c r :
  (0 <= n < 10 ^ Z.of_nat (S fuel))%Z -> is_digit c = false ->
  read_number (dec_digits (S fuel) n ++ String c r) = Some (n, String c r).
Proof.
  intros Hn Hc. unfold read_number.
  pose proof (dec_digits_all (S fuel) n ltac:(lia)) as Hall.
  pose proof (parse_dec_digits (S fuel) n Hn) as Hp.
  pose proof (span_digits_app _ c r Hall Hc) as Hs.
  pose proof (dec_digits_nonempty fuel n) as Hne.
  destruct (dec_digits (S fuel) n) as [|x d] eqn:E; [contradiction|].
  cbn [append] in *. cbn in Hall. apply andb_prop in Hall as [Hx _].
  assert (Hm : Ascii.eqb x "-" = false).
  { destruct (Ascii.eqb_spec x "-"); [subst x; discriminate Hx|reflexivity]. }
  rewrite Hm, Hs, Hp. reflexivity.
Qed.

Lemma read_ld v c r :
  (- 2 ^ 31 <= v < 2 ^ 31)%Z -> is_digit c = false ->
  read_number (fmt_ld v ++ String c r) = Some (v, String c r).
Proof.
  intros Hv Hc. unfold fmt_ld.
  assert (Hs : s32 v = v).
  { unfold s32, u32. destruct (Z_lt_le_dec v 0).
    - assert (E : (v mod 2 ^ 32 = v + 2 ^ 32)%Z)
        by (symmetry; apply Z.mod_unique with (q := (-1)%Z); lia).
      rewrite E. destruct (Z.ltb_spec (v + 2 ^ 32) (2 ^ 31)); lia.
    - rewrite Z.mod_small by lia. destruct (Z.ltb_spec v (2 ^ 31)); lia. }
  rewrite Hs. destruct (Z.ltb_spec v 0).
  - cbn [append]. unfold read_number.
    change (Ascii.eqb "-" "-") with true. cbv iota.
    pose proof (dec_digits_all 10 (- v) ltac:(lia)) as Hall.
    pose proof (parse_dec_digits 10 (- v) ltac:(cbn; lia)) as Hp.
    pose proof (dec_digits_nonempty 9 (- v)) as Hne.
    rewrite (span_digits_app _ c r Hall Hc).
    destruct (dec_digits 10 (- v)); [contradiction|].
    rewrite Hp. f_equal. f_equal. lia.
  - apply read_unsigned; [cbn; lia|exact Hc].
Qed.

Lemma read_lu ts c r :
  (0 <= ts < 2 ^ 32)%Z -> is_digit c = false ->
  read_number (fmt_lu ts ++ String c r) = Some (ts, String c r).
Proof.
  intros Hts Hc. unfold fmt_lu, u32. rewrite Z.mod_small by lia.
  apply read_unsigned; [cbn; lia|exact Hc].
Qed.

Lemma decode_head ts v rest :
  (0 <= ts < 2 ^ 32)%Z -> (- 2 ^ 31 <= v < 2 ^ 31)%Z ->
  decode_record (record_head ts v ++ rest) = Some (ts, v).
Proof.
  intros Hts Hv. unfold record_head, decode_record.
  rewrite !append_assoc. cbn [append dq strip_prefix].
  rewrite !Ascii.eqb_refl.
  rewrite read_lu by (assumption || reflexivity).
  cbn [strip_prefix]. rewrite !Ascii.eqb_refl.
  rewrite read_ld by (assumption || reflexivity).
  reflexivity.
Qed.

Lemma record_head_length ts v : (String.length (record_head ts v) <= 35)%nat.
Proof.
  unfold record_head. rewrite !length_append.
  pose proof (dec_digits_length 10 (u32 ts)).
  assert (String.length (fmt_ld v) <= 11)%nat.
  { unfold fmt_ld. destruct (s32 v <? 0)%Z.
    - pose proof (dec_digits_length 10 (- s32 v)). cbn [String.length]. lia.
    - pose proof (dec_digits_length 10 (s32 v)). lia. }
  unfold fmt_lu. cbn [String.length dq]. lia.
Qed.

Lemma telemetry_text_split t :
  exists tail,
    telemetry_text t = record_head (now_ms t) (i2c_temp_c t) ++ tail.
Proof.
  eexists. unfold telemetry_text, record_head.
  rewrite !append_assoc. reflexivity.
Qed.


(** Both senders hand the stack the first 255 characters of the text. *)
Lemma payload_is_clamped_text full m :
  clamp_count 256 (Z.of_nat (String.length full)) = Some m ->
  str_take (Z.to_nat (u16 m)) (str_take (Z.to_nat (256 - 1)) full) =
  str_take 255 full.
Proof.
  unfold clamp_count. change (Z.to_nat (256 - 1)) with 255%nat.
  destruct (Z.leb_spec (Z.of_nat (String.length full)) 0); [discriminate|].
  destruct (Z.leb_spec 256 (Z.of_nat (String.length full))); intros [= <-].
  - change (Z.to_nat (u16 (256 - 1))) with 255%nat. apply str_take_min. lia.
  - unfold u16. rewrite Z.mod_small by lia. rewrite Nat2Z.id.
    rewrite str_take_min by lia.
    rewrite !str_take_all by lia. reflexivity.
Qed.

Lemma decode_clamped_text t :
  (0 <= now_ms t < 2 ^ 32)%Z -> (- 2 ^ 31 <= i2c_temp_c t < 2 ^ 31)%Z ->
  decode_record (str_take 255 (telemetry_text t)) =
  Some (now_ms t, i2c_temp_c t).
Proof.
  intros Hts Hv. destruct (telemetry_text_split t) as [tail ->].
  pose proof (record_head_length (now_ms t) (i2c_temp_c t)).
  rewrite str_take_app by lia. now apply decode_head.
Qed.

Lemma tcp_payload t w o st payload :
  In (TcpWrite payload) (snd (APP_NET_SendTCP (Some t) w o st)) ->
  payload = str_take 255 (telemetry_text t).
Proof.
  unfold APP_NET_SendTCP.
  destruct (APP_NET_TcpIsConnected st); cbn [negb]; [|cbn [snd In]; intros []].
  destruct (g_tcp_txlen st =? 0)%Z; cbn [negb]; [|cbn [snd In]; intros []].
  unfold snprintf_telemetry.
  destruct (clamp_count 256 _) as [m|] eqn:Hm; [|cbn [snd In]; intros []].
  cbn [with_tx g_tcp_txlen g_tcp_txbuf].
  rewrite (payload_is_clamped_text _ m Hm).
  destruct w; cbn [negb snd In]; [destruct o; cbn [negb snd In]|];
    intros [[= <-]|[]]; reflexivity.
Qed.

Lemma udp_payload t nu pb so st payload :
  In (UdpSend payload) (snd (APP_NET_SendUDP (Some t) nu pb so st)) ->
  payload = str_take 255 (telemetry_text t).
Proof.
  unfold APP_NET_SendUDP.
  assert (Hcore : forall st' : net_state,
    In (UdpSend payload)
       (snd (let '(n, msg) := snprintf_telemetry 256 t in
             match clamp_count 256 n with
             | None => (false, st', [])
             | Some n =>
                 if negb pb then (false, st', [])
                 else (so, st', [UdpSend (str_take (Z.to_nat (u16 n)) msg)])
             end)) ->
    payload = str_take 255 (telemetry_text t)).
  { intros st'. unfold snprintf_telemetry.
    destruct (clamp_count 256 _) as [m|] eqn:Hm; [|intros []].
    rewrite (payload_is_clamped_text _ m Hm).
    destruct pb; cbn [negb snd In]; [|intros []].
    intros [[= <-]|[]]. reflexivity. }
  destruct (g_udp st) as [p|] eqn:Hu.
  - rewrite Hu. apply Hcore.
  - cbn [g_udp]. destruct nu as [p|]; [apply Hcore|intros []].
Qed.

Lemma c_str_length_le s : (String.length (c_str s) <= String.length s)%nat.
Proof.
  induction s as [|c r IH]; cbn; [lia|].
  destruct (Ascii.eqb c zero); cbn; lia.
Qed.

(** C8.  For a sample whose timestamp is a 32-bit unsigned and whose
    reading is a 32-bit signed value, with any two snapshot texts: the
    record text decodes to that timestamp and reading, and so does every
    payload [APP_NET_SendTCP] hands to [tcp_write] and every payload
    [APP_NET_SendUDP] hands to [udp_sendto]; both are the first 255
    characters of the same text, which is the whole newline-terminated
    line when the snapshots hold at most 63 characters each. *)
Theorem C8_decode_recovers_timestamp_and_reading :
  forall t : AppTelemetry,
    (0 <= now_ms t < 2 ^ 32)%Z ->
    (- 2 ^ 31 <= i2c_temp_c t < 2 ^ 31)%Z ->
    decode_record (telemetry_text t) = Some (now_ms t, i2c_temp_c t) /\
    (forall (w o : bool) (st : net_state) (payload : string),
       In (TcpWrite payload) (snd (APP_NET_SendTCP (Some t) w o st)) ->
       decode_record payload = Some (now_ms t, i2c_temp_c t)) /\
    (forall (nu : option pcb) (pb so : bool) (st : net_state)
            (payload : string),
       In (UdpSend payload) (snd (APP_NET_SendUDP (Some t) nu pb so st)) ->
       decode_record payload = Some (now_ms t, i2c_temp_c t)) /\
    ((String.length (can_0x101 t) <= 63)%nat ->
     (String.length (can_0x120 t) <= 63)%nat ->
     str_take 255 (telemetry_text t) = telemetry_text t /\
     exists body, telemetry_text t = body ++ nl).
Proof.
  intros t Hts Hv. split; [|split; [|split]].
  - destruct (telemetry_text_split t) as [tail ->]. now apply decode_head.
  - intros w o st payload Hin. rewrite (tcp_payload _ _ _ _ _ Hin).
    now apply decode_clamped_text.
  - intros nu pb so st payload Hin. rewrite (udp_payload _ _ _ _ _ _ Hin).
    now apply decode_clamped_text.
  - intros H1 H2. split.
    + apply str_take_all.
      destruct (telemetry_text_split t) as [tail E].
      pose proof (record_head_length (now_ms t) (i2c_temp_c t)) as Hh.
      pose proof (c_str_length_le (can_0x101 t)).
      pose proof (c_str_length_le (can_0x120 t)).
      pose proof (dec_digits_length 10 (u32 (now_ms t))).
      assert (String.length (fmt_ld (i2c_temp_c t)) <= 11)%nat.
      { unfold fmt_ld. destruct (s32 (i2c_temp_c t) <? 0)%Z.
        - pose proof (dec_digits_length 10 (- s32 (i2c_temp_c t))).
          cbn [String.length]. lia.
        - pose proof (dec_digits_length 10 (s32 (i2c_temp_c t))). lia. }
      unfold telemetry_text, fmt_lu. rewrite !length_append.
      cbn [String.length dq nl]. lia.
    + unfold telemetry_text.
      exists ("{" ++ dq ++ "ts" ++ dq ++ ":" ++ fmt_lu (now_ms t)
              ++ "," ++ dq ++ "i2c" ++ dq ++ ":" ++ fmt_ld (i2c_temp_c t)
              ++ "," ++ dq ++ "can101" ++ dq ++ ":" ++ dq
              ++ c_str (can_0x101 t) ++ dq
              ++ "," ++ dq ++ "can120" ++ dq ++ ":" ++ dq
              ++ c_str (can_0x120 t) ++ dq ++ "}").
      rewrite !append_assoc. reflexivity.
Qed.

(** A record with the largest timestamp and a negative reading, as put
    on the wire by an accepted TCP send. *)
Lemma C8_decode_witness :
  let t := {| now_ms := 4294967295; i2c_temp_c := -17;
              can_0x101 := "id=101 v=3"; can_0x120 := "none" |} in
  let up :=
    {| g_udp := Some 0%nat; g_tcp := Some 1%nat; g_tcp_state := TCP_UP;
       g_next_tcp_reconnect_ms := 2000; g_tcp_txbuf := EmptyString;
       g_tcp_txlen := 0 |} in
  (0 <= now_ms t < 2 ^ 32)%Z /\ (- 2 ^ 31 <= i2c_temp_c t < 2 ^ 31)%Z /\
  snd (APP_NET_SendTCP (Some t) true true up) =
    [TcpWrite (telemetry_text t)] /\
  decode_record (telemetry_text t) = Some (4294967295, -17)%Z.
Proof.
  cbv zeta. split; [cbn; lia|]. split; [cbn; lia|].
  split; [vm_compute; reflexivity|].
  apply (C8_decode_recovers_timestamp_and_reading
           {| now_ms := 4294967295; i2c_temp_c := -17;
              can_0x101 := "id=101 v=3"; can_0x120 := "none" |});
    cbn; lia.
Defined.

End TelemetryCodec.

(** ** Scheduler loop *)

Section Scheduler.
Import Main.

Variable R : Type.
Variables APP_NET_Service App_CAN_Service App_I2C_Service App_TFT_Service
          App_CLI_Service App_Tick : Z -> world R -> world R.
Variable App_USB_Service : world R -> world R.

Lemma console_empty_flag c :
  CDC_ConsoleTxIsEmpty c = 1 \/ CDC_ConsoleTxIsEmpty c = 0.
Proof.
  unfold CDC_ConsoleTxIsEmpty.
  destruct ((g_cons_r c =? g_cons_w c) && (g_prompt_pending c =? 0)); auto.
Qed.

(** C9.  One iteration of the main loop runs the eight service calls in
    program order on the state each predecessor left; the idle wait, when
    it happens, comes after all of them, and it happens exactly when, in
    the state the services left, the render engine is idle and the console
    transmit queue is empty (read and write index equal, no prompt
    pending). *)
Theorem C9_idle_wait_only_after_services_and_when_idle :
  forall (now : Z) (spi_ok : bool) (w : world R),
    let r := main_loop_iteration R APP_NET_Service App_CAN_Service
               App_I2C_Service App_TFT_Service App_CLI_Service App_Tick
               App_USB_Service now spi_ok w in
    let w' :=
      App_Tick now
        (App_CLI_Service now
           (App_TFT_Service now
              (TFT_Task spi_ok
                 (App_I2C_Service now
                    (App_CAN_Service now
                       (App_USB_Service (APP_NET_Service now w))))))) in
    let ran := [RunNetService; RunUsbService; RunCanService; RunI2cService;
                RunTftTask; RunTftService; RunCliService; RunAppTick] in
    fst r = w' /\
    (snd r = ran \/ snd r = ran ++ [Wfi]) /\
    (In Wfi (snd r) <->
       TFT_IsBusy w' = false /\
       g_cons_r (w_cdc w') = g_cons_w (w_cdc w') /\
       g_prompt_pending (w_cdc w') = 0).
Proof.
  intros now spi_ok w r w' ran. subst r.
  unfold main_loop_iteration, services, run. cbn [fst snd app].
  fold w'. fold ran.
  assert (Hc : negb (App_USBLog_IsEmpty w' =? 0) && negb (TFT_IsBusy w') = true
               <-> TFT_IsBusy w' = false /\
                   g_cons_r (w_cdc w') = g_cons_w (w_cdc w') /\
                   g_prompt_pending (w_cdc w') = 0).
  { unfold App_USBLog_IsEmpty, CDC_ConsoleTxIsEmpty.
    destruct (Z.eqb_spec (g_cons_r (w_cdc w')) (g_cons_w (w_cdc w')));
      destruct (Z.eqb_spec (g_prompt_pending (w_cdc w')) 0);
      destruct (TFT_IsBusy w'); cbn; intuition congruence. }
  destruct (negb (App_USBLog_IsEmpty w' =? 0) && negb (TFT_IsBusy w'));
    cbn [fst snd].
  - split; [reflexivity|]. split; [now right|]. split.
    + intros _. now apply Hc.
    + intros _. subst ran. cbn. auto 12.
  - split; [reflexivity|]. split; [now left|]. split.
    + intros Hin. exfalso. subst ran. cbn in Hin.
      repeat (destruct Hin as [Hin|Hin]; [discriminate Hin|]). exact Hin.
    + intros H. apply Hc in H. discriminate H.
Qed.

End Scheduler.

(** ** Render engine: single calls, clipping, blocking fill, demo *)

Section RenderEngineMore.
Import Tft.

Lemma fill_txbuf_length hi lo n :
  List.length (fill_txbuf hi lo n) = (2 * n)%nat.
Proof. induction n as [|n IH]; cbn [fill_txbuf List.length]; lia. Qed.

Lemma blit_txbuf_length p buf first n :
  List.length (blit_txbuf p buf first n) = (2 * n)%nat.
Proof.
  unfold blit_txbuf.
  assert (H : forall l : list nat,
    List.length
      (flat_map (fun i => let c := src_pixel p buf first i in
                          [u8 (Z.shiftr c 8); u8 (Z.land c 0xFF)]) l)
    = (2 * List.length l)%nat).
  { induction l as [|i l IH]; simpl in *; [reflexivity|lia]. }
  rewrite H, length_seq. reflexivity.
Qed.

Lemma u32_range x : 0 <= u32 x < 2^32.
Proof. unfold u32. apply Z.mod_pos_bound. lia. Qed.

(** X1.  Whatever the state and the SPI outcome, one [TFT_Task] call puts
    at most [TFT_CHUNK_BYTES] = 512 bytes on the bus, and always whole
    pixels (an even number of bytes). *)
Theorem task_streams_at_most_one_chunk :
  forall (ok : bool) (st : tft_state),
    let bytes := streamed (snd (TFT_Task ok st)) in
    (Z.of_nat (List.length bytes) <= TFT_CHUNK_BYTES) /\
    Nat.Even (List.length bytes).
Proof.
  intros ok st bytes. subst bytes. unfold TFT_Task.
  change TFT_CHUNK_BYTES with 512.
  change ((if Z.land 512 1 =? 0 then 512 else 512 - 1) / 2) with 256.
  change (512 / 2) with 256.
  destruct (g_op st).
  - cbn. split; [lia|exists 0%nat; reflexivity].
  - destruct (u32 (TFT_PIXELS - g_fill_sent_pixels st) =? 0);
      [cbn; split; [lia|exists 0%nat; reflexivity]|].
    destruct ok; cbn [negb snd streamed];
      [|cbn; split; [lia|exists 0%nat; reflexivity]].
    rewrite app_nil_r, fill_txbuf_length.
    pose proof (u32_range (TFT_PIXELS - g_fill_sent_pixels st)).
    split; [|eexists; reflexivity].
    destruct (Z.ltb_spec 256 (u32 (TFT_PIXELS - g_fill_sent_pixels st))); lia.
  - destruct (u32 (g_blit_len st - g_blit_sent st) =? 0);
      [cbn; split; [lia|exists 0%nat; reflexivity]|].
    destruct ok; cbn [negb snd streamed];
      [|cbn; split; [lia|exists 0%nat; reflexivity]].
    rewrite app_nil_r, blit_txbuf_length.
    pose proof (u32_range (g_blit_len st - g_blit_sent st)).
    split; [|eexists; reflexivity].
    assert (0 <= u32 (g_blit_len st - g_blit_sent st) / 2)
      by (apply Z.div_pos; lia).
    destruct (Z.ltb_spec 256 (u32 (g_blit_len st - g_blit_sent st) / 2)); lia.
Qed.

Lemma task_failed_is_skip st :
  op_well_formed st -> TFT_Task false st = (st, []).
Proof.
  unfold op_well_formed, TFT_Task. destruct (g_op st); intros H.
  - reflexivity.
  - change TFT_PIXELS with 20480 in *.
    rewrite u32_small by lia.
    destruct (Z.eqb_spec (20480 - g_fill_sent_pixels st) 0); [lia|reflexivity].
  - rewrite u32_small by lia.
    destruct (Z.eqb_spec (g_blit_len st - g_blit_sent st) 0); [lia|reflexivity].
Qed.

(** X2.  While an operation has data left, a [TFT_Task] call whose bus
    write fails changes nothing and streams nothing, so after any number
    of failed calls in a row the engine is in the same state, as busy as
    before: the engine retries the same chunk for ever and never gives the
    operation up. *)
Theorem failed_writes_never_progress_nor_abort :
  forall (n : nat) (st : tft_state),
    op_well_formed st ->
    pump (repeat false n) st = (st, []).
Proof.
  induction n as [|n IH]; intros st H; [reflexivity|].
  cbn [repeat pump]. rewrite task_failed_is_skip by exact H.
  rewrite IH by exact H. reflexivity.
Qed.

(** The fill of a freshly started engine is stuck for as long as the bus
    fails. *)
Lemma failed_writes_witness :
  let st := fst (TFT_FillColor_Async 0x001F tft_init) in
  op_well_formed st /\
  TFT_IsBusy (fst (pump (repeat false 1000) st)) = true.
Proof.
  cbv zeta.
  assert (H : op_well_formed (fst (TFT_FillColor_Async 0x001F tft_init)))
    by (cbn; lia).
  split; [exact H|].
  rewrite (failed_writes_never_progress_nor_abort 1000 _ H). reflexivity.
Defined.

(** X3.  Accounting of one call.  In a fill with [sent <= 160*128]
    pixels out, the call leaves [sent <= sent' <= 160*128] and streams
    exactly [sent' - sent] pixels, each the two bytes of the fill colour;
    in a blit with [sent <= len] bytes out it leaves
    [sent <= sent' <= len] and streams exactly [sent' - sent] bytes.  The
    engine is idle afterwards exactly when the counter has reached the
    total, provided the write succeeded or nothing was left. *)
Theorem task_counts_what_it_streams :
  forall (ok : bool) (st : tft_state),
    let st' := fst (TFT_Task ok st) in
    let bytes := streamed (snd (TFT_Task ok st)) in
    (g_op st = TFT_OP_FILL ->
     0 <= g_fill_sent_pixels st <= TFT_PIXELS ->
     g_fill_sent_pixels st <= g_fill_sent_pixels st' <= TFT_PIXELS /\
     bytes = fill_txbuf (u8 (Z.shiftr (g_fill_color st) 8))
                        (u8 (Z.land (g_fill_color st) 0xFF))
                        (Z.to_nat (g_fill_sent_pixels st'
                                   - g_fill_sent_pixels st)) /\
     (ok = true \/ g_fill_sent_pixels st = TFT_PIXELS ->
      (TFT_IsBusy st' = false <-> g_fill_sent_pixels st' = TFT_PIXELS)))
    /\
    (g_op st = TFT_OP_BLIT ->
     0 <= g_blit_sent st <= g_blit_len st -> g_blit_len st < 2^32 ->
     g_blit_sent st <= g_blit_sent st' <= g_blit_len st /\
     Z.of_nat (List.length bytes) = g_blit_sent st' - g_blit_sent st /\
     (ok = true \/ g_blit_sent st = g_blit_len st ->
      (TFT_IsBusy st' = false <-> g_blit_sent st' = g_blit_len st))).
Proof.
  intros ok st st' bytes. subst st' bytes. unfold TFT_Task.
  change TFT_PIXELS with 20480. change TFT_CHUNK_BYTES with 512.
  change ((if Z.land 512 1 =? 0 then 512 else 512 - 1) / 2) with 256.
  change (512 / 2) with 256.
  split.
  - intros Hop Hs. rewrite Hop. rewrite (u32_small (20480 - _)) by lia.
    destruct (Z.eqb_spec (20480 - g_fill_sent_pixels st) 0) as [Hz|Hz].
    + cbn [fst snd set_op g_fill_sent_pixels streamed TFT_IsBusy g_op].
      rewrite Z.sub_diag. repeat split; try lia.
    + destruct ok; cbn [negb fst snd streamed g_fill_sent_pixels].
      * set (tp := if 256 <? 20480 - g_fill_sent_pixels st then 256
                   else 20480 - g_fill_sent_pixels st).
        assert (Htp : 0 < tp <= 256 /\ tp <= 20480 - g_fill_sent_pixels st).
        { subst tp.
          destruct (Z.ltb_spec 256 (20480 - g_fill_sent_pixels st)); lia. }
        rewrite u32_small by lia. rewrite app_nil_r.
        split; [lia|]. split; [f_equal; lia|].
        intros _. unfold TFT_IsBusy. cbn [g_op].
        destruct (Z.leb_spec 20480 (g_fill_sent_pixels st + tp));
          split; intros; try reflexivity; try lia; discriminate.
      * rewrite Z.sub_diag. split; [lia|]. split; [reflexivity|].
        intros [Hok|Hs']; [discriminate|lia].
  - intros Hop Hs Hl. rewrite Hop.
    rewrite (u32_small (g_blit_len st - _)) by lia.
    destruct (Z.eqb_spec (g_blit_len st - g_blit_sent st) 0) as [Hz|Hz].
    + cbn [fst snd set_op g_blit_sent streamed TFT_IsBusy g_op List.length].
      repeat split; try lia.
    + destruct ok; cbn [negb fst snd streamed g_blit_sent].
      * set (tp := if 256 <? (g_blit_len st - g_blit_sent st) / 2 then 256
                   else (g_blit_len st - g_blit_sent st) / 2).
        assert (Htp : 0 <= tp <= 256 /\
                      2 * tp <= g_blit_len st - g_blit_sent st).
        { subst tp.
          pose proof (Z.div_mod (g_blit_len st - g_blit_sent st) 2 ltac:(lia)).
          pose proof (Z.mod_pos_bound (g_blit_len st - g_blit_sent st) 2
                        ltac:(lia)).
          destruct (Z.ltb_spec 256 ((g_blit_len st - g_blit_sent st) / 2));
            lia. }
        rewrite (u32_small (tp * 2)) by lia. rewrite u32_small by lia.
        rewrite app_nil_r, blit_txbuf_length.
        split; [lia|]. split; [lia|].
        intros _. unfold TFT_IsBusy. cbn [g_op].
        destruct (Z.leb_spec (g_blit_len st) (g_blit_sent st + tp * 2));
          split; intros; try reflexivity; try lia; discriminate.
      * cbn [List.length]. split; [lia|]. split; [lia|].
        intros [Hok|Hs']; [discriminate|lia].
Qed.


Lemma str_take_length n : forall s,
  String.length (str_take n s) = Nat.min n (String.length s).
Proof.
  induction n as [|n IH]; intros s; [reflexivity|].
  destruct s as [|c r]; [reflexivity|]. cbn [str_take String.length].
  now rewrite IH.
Qed.

(** X4.  Clipping of a text line: a text of at most 26 characters is
    drawn as it is; a longer one is drawn as its first 23 characters
    followed by three dots; so what is drawn never has more than
    [MAX_CHARS] = 26 characters. *)
Theorem clip_text_spec :
  forall text : string,
    (strlen text <= MAX_CHARS -> clip_text text = c_str text) /\
    (MAX_CHARS < strlen text ->
       clip_text text = (str_take 23 (c_str text) ++ "...")%string /\
       String.length (clip_text text) = 26%nat) /\
    Z.of_nat (String.length (clip_text text)) <= MAX_CHARS.
Proof.
  intros text. unfold clip_text, strncpy_z, strlen.
  change MAX_CHARS with 26. change (Z.to_nat 26) with 26%nat.
  change (Z.to_nat (26 - 3)) with 23%nat. change (3 <=? 26) with true.
  rewrite andb_true_r.
  destruct (Z.ltb_spec 26 (Z.of_nat (String.length (c_str text)))) as [Hl|Hs].
  - rewrite str_take_min by lia.
    assert (Hlen : String.length (str_take 23 (c_str text) ++ "...") = 26%nat).
    { rewrite length_append, str_take_length. cbn [String.length]. lia. }
    split; [lia|]. split; [now split|]. rewrite Hlen. lia.
  - rewrite str_take_all by lia. split; [reflexivity|]. split; [lia|]. lia.
Qed.

Lemma clip_text_witness :
  let long := "CAN 0x120: lux=42949672 full=65535 ir=65535"%string in
  MAX_CHARS < strlen long /\
  clip_text long = "CAN 0x120: lux=42949672..."%string.
Proof.
  cbv zeta. split; [reflexivity|].
  rewrite (proj1 (proj1 (proj2 (clip_text_spec
             "CAN 0x120: lux=42949672 full=65535 ir=65535")) eq_refl)).
  reflexivity.
Defined.

Lemma linebuf_set_two_tone fg bg buf x y c :
  two_tone fg bg buf -> c = fg \/ c = bg ->
  two_tone fg bg (linebuf_set buf x y c).
Proof.
  intros H Hc. unfold linebuf_set.
  destruct ((TFT_W <=? x) || (LINE_H <=? y)); [exact H|].
  now apply Forall_upd.
Qed.

Lemma linebuf_set_below bg buf x y c :
  0 <= x -> 0 <= y < 7 -> below_glyphs bg buf ->
  below_glyphs bg (linebuf_set buf x y c).
Proof.
  intros Hx Hy H. unfold linebuf_set.
  destruct (Z.leb_spec TFT_W x); cbn [orb]; [exact H|].
  destruct (LINE_H <=? y); [exact H|].
  intros i Hi Hlen. rewrite upd_length in Hlen.
  rewrite nth_upd_ne; [now apply H|].
  change TFT_W with 160 in *. lia.
Qed.

Lemma draw_rows_props fg bg n : forall buf x y bits c1 c0 row,
  (c1 = fg \/ c1 = bg) -> (c0 = fg \/ c0 = bg) ->
  0 <= x -> y = 0 -> 0 <= row -> row + Z.of_nat n <= 7 ->
  two_tone fg bg buf /\ below_glyphs bg buf ->
  two_tone fg bg (draw_rows buf x y bits c1 c0 row n) /\
  below_glyphs bg (draw_rows buf x y bits c1 c0 row n).
Proof.
  induction n as [|n IH]; intros buf x y bits c1 c0 row H1 H0 Hx Hy Hr Hn [Ht Hb];
    cbn [draw_rows]; [now split|].
  subst y. rewrite Z.add_0_l.
  assert (Hu : u16 row = row) by (apply u16_small; lia).
  rewrite Hu. apply IH; try assumption; try lia. split.
  - apply linebuf_set_two_tone; [exact Ht|].
    destruct (Z.land bits (Z.shiftl 1 row) =? 0); assumption.
  - apply linebuf_set_below; [exact Hx|lia|exact Hb].
Qed.

Lemma u16_nonneg x : 0 <= u16 x.
Proof. unfold u16. apply Z.mod_pos_bound. lia. Qed.

Lemma draw_cols_props fg bg n : forall buf g x col,
  two_tone fg bg buf /\ below_glyphs bg buf ->
  two_tone fg bg (draw_cols buf g x 0 fg bg col n) /\
  below_glyphs bg (draw_cols buf g x 0 fg bg col n).
Proof.
  induction n as [|n IH]; intros buf g x col H; cbn [draw_cols]; [exact H|].
  apply IH. apply draw_rows_props; auto using u16_nonneg; cbn; lia.
Qed.

Lemma draw_char_props fg bg buf x ch :
  two_tone fg bg buf /\ below_glyphs bg buf ->
  two_tone fg bg (linebuf_draw_char buf x 0 ch fg bg) /\
  below_glyphs bg (linebuf_draw_char buf x 0 ch fg bg).
Proof.
  intros H. unfold linebuf_draw_char.
  apply draw_rows_props; auto using u16_nonneg; try (cbn; lia).
  now apply draw_cols_props.
Qed.

Lemma draw_text_props fg bg n : forall buf tmp x,
  two_tone fg bg buf /\ below_glyphs bg buf ->
  two_tone fg bg (draw_text buf tmp x fg bg n) /\
  below_glyphs bg (draw_text buf tmp x fg bg n).
Proof.
  induction n as [|n IH]; intros buf tmp x H; [now destruct tmp|].
  destruct tmp as [|ch r]; [exact H|]. cbn [draw_text].
  destruct (TFT_W <=? u16 (x + CELL_W)).
  - now apply draw_char_props.
  - apply IH. now apply draw_char_props.
Qed.

(** X5.  The line buffer an accepted [TFT_DrawTextLine_Async] leaves
    holds 160 x 8 pixels, each either the foreground or the background
    colour of the call; its last pixel row is background throughout
    (glyphs are 7 rows high); and for an empty or missing text the whole
    buffer is background, so drawing the empty text blanks the line. *)
Theorem drawn_line_is_two_tone :
  forall (y : Z) (text : option string) (fg bg : Z) (st : tft_state),
    TFT_IsBusy st = false -> u16 y < TFT_H ->
    let buf := g_linebuf (fst (TFT_DrawTextLine_Async y text fg bg st)) in
    List.length buf = 1280%nat /\
    Forall (fun c => c = u16 fg \/ c = u16 bg) buf /\
    (forall i : nat, (1120 <= i < 1280)%nat -> nth i buf 0 = u16 bg) /\
    (c_str (or_empty text) = EmptyString -> buf = repeat (u16 bg) 1280).
Proof.
  intros y text fg bg st Hidle Hy buf. subst buf.
  unfold TFT_DrawTextLine_Async.
  destruct (Z.leb_spec TFT_H (u16 y)) as [|_]; [lia|].
  unfold TFT_IsBusy in Hidle. destruct (g_op st); try discriminate.
  cbn [fst g_linebuf].
  assert (Hc : two_tone (u16 fg) (u16 bg) (linebuf_clear (u16 bg)) /\
               below_glyphs (u16 bg) (linebuf_clear (u16 bg))).
  { unfold linebuf_clear. split.
    - apply Forall_forall. intros c Hin. apply repeat_spec in Hin. now right.
    - intros i _ Hi. rewrite repeat_length in Hi. now apply nth_repeat_lt. }
  destruct (draw_text_props (u16 fg) (u16 bg) (Z.to_nat MAX_CHARS)
              (linebuf_clear (u16 bg)) (clip_text (or_empty text)) 0 Hc)
    as [Ht Hb].
  assert (Hlen : List.length
            (draw_text (linebuf_clear (u16 bg)) (clip_text (or_empty text)) 0
               (u16 fg) (u16 bg) (Z.to_nat MAX_CHARS)) = 1280%nat).
  { rewrite draw_text_length. unfold linebuf_clear. now rewrite repeat_length. }
  split; [exact Hlen|]. split; [exact Ht|]. split.
  - intros i Hi. apply Hb; lia.
  - intros He.
    assert (Hclip : clip_text (or_empty text) = EmptyString).
    { rewrite (proj1 (clip_text_spec (or_empty text))).
      - exact He.
      - unfold strlen. rewrite He. cbn. lia. }
    rewrite Hclip. reflexivity.
Qed.

Lemma drawn_line_witness :
  TFT_IsBusy tft_init = false /\ u16 16 < TFT_H /\
  g_linebuf (fst (TFT_DrawTextLine_Async 16 None 0xFFFF 0x0010 tft_init))
  = repeat 0x0010 1280.
Proof.
  split; [reflexivity|]. split; [reflexivity|].
  exact (proj2 (proj2 (proj2
    (drawn_line_is_two_tone 16 None 0xFFFF 0x0010 tft_init eq_refl eq_refl)))
    eq_refl).
Defined.


Lemma streamed_window x0 y0 x1 y1 : streamed (TFT_SetAddrWindow x0 y0 x1 y1) = [].
Proof. reflexivity. Qed.

Lemma fill_st_busy base color j :
  TFT_IsBusy (fill_st base color j) = (j <? 80).
Proof.
  unfold TFT_IsBusy, fill_st. cbn [g_op].
  change (TFT_CHUNK_BYTES / 2) with 256. change TFT_PIXELS with 20480.
  destruct (Z.ltb_spec (256 * j) 20480); destruct (Z.ltb_spec j 80);
    try reflexivity; lia.
Qed.

Lemma busy_loop_fill base color oks : forall j, 0 <= j <= 80 ->
  (j + successes oks < 80 -> busy_loop oks (fill_st base color j) = None) /\
  (80 <= j + successes oks ->
   exists ev,
     busy_loop oks (fill_st base color j) = Some (fill_st base color 80, ev) /\
     streamed ev =
       fill_txbuf (u8 (Z.shiftr (u16 color) 8)) (u8 (Z.land (u16 color) 0xFF))
                  (Z.to_nat (256 * (80 - j)))).
Proof.
  induction oks as [|ok r IH]; intros j Hj.
  - cbn [busy_loop successes]. rewrite fill_st_busy.
    destruct (Z.ltb_spec j 80).
    + split; [reflexivity|lia].
    + split; [lia|]. intros _. replace j with 80 by lia.
      exists []. now split.
  - pose proof (successes_nonneg r) as Hr.
    cbn [busy_loop successes]. rewrite fill_st_busy.
    destruct (Z.ltb_spec j 80) as [Hlt|Hge].
    + rewrite fill_task by lia. destruct ok.
      * destruct (IH (j + 1) ltac:(lia)) as [IHn IHs].
        split.
        -- intros H. rewrite IHn by lia. reflexivity.
        -- intros H. destruct (IHs ltac:(lia)) as (ev & -> & Hev).
           eexists. split; [reflexivity|].
           rewrite streamed_app. cbn [streamed]. rewrite app_nil_r, Hev.
           rewrite <- fill_txbuf_app. f_equal. lia.
      * destruct (IH j Hj) as [IHn IHs].
        split.
        -- intros H. rewrite IHn by lia. reflexivity.
        -- intros H. destruct (IHs ltac:(lia)) as (ev & -> & Hev).
           eexists. split; [reflexivity|]. exact Hev.
    + split; [intros H; destruct ok; lia|]. intros _.
      replace j with 80 by lia. exists []. now split.
Qed.

(** X8.  The blocking [TFT_FillColor] returns exactly when its loop has
    seen the 80th successful bus write: with fewer successes among the
    outcomes it is still looping; with 80 or more it has returned, the
    engine idle, having streamed exactly 160*128 pixels of the colour;
    outcomes after the 80th success are never consumed. *)
Theorem blocking_fill_returns_at_80th_success :
  forall (color : Z) (oks : list bool) (st : tft_state),
    (successes oks < 80 -> TFT_FillColor color oks st = None) /\
    (80 <= successes oks ->
     exists st' ev,
       TFT_FillColor color oks st = Some (st', ev) /\
       TFT_IsBusy st' = false /\
       g_fill_sent_pixels st' = TFT_PIXELS /\
       streamed ev =
         fill_txbuf (u8 (Z.shiftr (u16 color) 8))
                    (u8 (Z.land (u16 color) 0xFF)) (Z.to_nat TFT_PIXELS)).
Proof.
  intros color oks st. unfold TFT_FillColor.
  pose proof (fill_start color st) as Hs.
  destruct (TFT_FillColor_Async color st) as [st0 ev0] eqn:E.
  cbn [fst] in Hs. subst st0.
  assert (Hev0 : streamed ev0 = []).
  { change ev0 with (snd (fill_st st color 0, ev0)). rewrite <- E.
    reflexivity. }
  destruct (busy_loop_fill st color oks 0 ltac:(lia)) as [Hn Hsome].
  rewrite Z.add_0_l in Hn, Hsome. split.
  - intros H. now rewrite Hn.
  - intros H. destruct (Hsome H) as (ev & -> & Hev).
    exists (fill_st st color 80), (ev0 ++ ev).
    split; [reflexivity|]. split; [now rewrite fill_st_busy|].
    split; [reflexivity|].
    rewrite streamed_app, Hev0, Hev. reflexivity.
Qed.

Lemma blocking_fill_witness :
  successes (repeat false 3 ++ repeat true 79) < 80 /\
  TFT_FillColor 0x07E0 (repeat false 3 ++ repeat true 79) tft_init = None.
Proof.
  assert (H : successes (repeat false 3 ++ repeat true 79) < 80)
    by (vm_compute; reflexivity).
  split; [exact H|].
  exact (proj1 (blocking_fill_returns_at_80th_success 0x07E0 _ tft_init) H).
Defined.

Lemma task_keeps_fill_color ok st :
  g_fill_color (fst (TFT_Task ok st)) = g_fill_color st /\
  (g_op (fst (TFT_Task ok st)) = TFT_OP_FILL -> g_op st = TFT_OP_FILL).
Proof.
  unfold TFT_Task. destruct (g_op st) eqn:Hop.
  - cbn. rewrite Hop. split; [reflexivity|discriminate].
  - split; [|reflexivity].
    destruct (u32 (TFT_PIXELS - g_fill_sent_pixels st) =? 0); [reflexivity|].
    now destruct ok.
  - destruct (u32 (g_blit_len st - g_blit_sent st) =? 0);
      [cbn; split; [reflexivity|discriminate]|].
    destruct ok; cbn [negb fst g_fill_color g_op].
    + split; [reflexivity|].
      destruct (g_blit_len st <=? _); discriminate.
    + rewrite Hop. split; [reflexivity|discriminate].
Qed.

Lemma phase_next_range p : 0 <= u8 ((p + 1) mod 3) < 3.
Proof.
  pose proof (Z.mod_pos_bound (p + 1) 3 ltac:(lia)).
  rewrite u8_small; lia.
Qed.

(** X7.  The colour-cycle demo, over any run of its task, stop and start
    calls after a first start: the phase stays in 0..2, the hold time is
    never zero (a requested 0 becomes 700 ms), and whenever the engine is
    filling, it fills with the colour of the current phase (red, green,
    blue). *)
Theorem rgb_cycle_invariant :
  forall (hold now : Z) (st0 : cycle_state) (ops : list cycle_op),
    let st := fold_left (fun s op => cycle_step op s) ops
                        (TFT_RGB_Cycle_Start hold now st0) in
    0 <= phase (g_cycle st) < 3 /\
    0 < hold_ms (g_cycle st) /\
    (g_op (eng st) = TFT_OP_FILL ->
     g_fill_color (eng st) = phase_color (phase (g_cycle st))).
Proof.
  intros hold now st0 ops.
  assert (Hinit : forall h n s,
    let st := TFT_RGB_Cycle_Start h n s in
    0 <= phase (g_cycle st) < 3 /\ 0 < hold_ms (g_cycle st) /\
    (g_op (eng st) = TFT_OP_FILL ->
     g_fill_color (eng st) = phase_color (phase (g_cycle st)))).
  { intros h n s. cbn. split; [lia|]. split; [|reflexivity].
    pose proof (u32_range h).
    destruct (Z.eqb_spec (u32 h) 0); lia. }
  generalize (Hinit hold now st0). cbv zeta.
  generalize (TFT_RGB_Cycle_Start hold now st0). clear st0.
  induction ops as [|op r IH]; intros st H; [exact H|].
  cbn [fold_left]. apply IH. clear IH.
  destruct H as (Hp & Hh & Hc).
  destruct op as [ok t| |h t]; cbn [cycle_step].
  - unfold TFT_RGB_Cycle_Task.
    destruct (task_keeps_fill_color ok (eng st)) as [Hcol Hop].
    assert (Hkeep :
      0 <= phase (g_cycle st) < 3 /\ 0 < hold_ms (g_cycle st) /\
      (g_op (fst (TFT_Task ok (eng st))) = TFT_OP_FILL ->
       g_fill_color (fst (TFT_Task ok (eng st)))
       = phase_color (phase (g_cycle st)))).
    { split; [exact Hp|]. split; [exact Hh|]. intros Hf. rewrite Hcol. auto. }
    destruct (running (g_cycle st) =? 0); [exact Hkeep|].
    destruct (TFT_IsBusy (fst (TFT_Task ok (eng st)))); [exact Hkeep|].
    destruct (u32 (u32 t - phase_start (g_cycle st)) <? hold_ms (g_cycle st));
      [exact Hkeep|].
    cbn [eng g_cycle phase hold_ms].
    pose proof (phase_next_range (phase (g_cycle st))) as Hn.
    split; [exact Hn|]. split; [exact Hh|]. intros _.
    unfold phase_color.
    destruct (u8 ((phase (g_cycle st) + 1) mod 3) =? 0); [reflexivity|].
    destruct (u8 ((phase (g_cycle st) + 1) mod 3) =? 1); reflexivity.
  - cbn. auto.
  - apply Hinit.
Qed.

End RenderEngineMore.

(** ** Line manager: scan order, progress and bounds *)

Section LineManagerMore.
Import Tft Ui.

Lemma last_used_spec ui n : forall last_i i,
  0 <= i -> last_i < i ->
  let l := last_used ui last_i i n in
  (l = last_i \/ i <= l < i + Z.of_nat n) /\
  (forall j, i <= j < i + Z.of_nat n ->
             used (nth (Z.to_nat j) ui zero_line) = true -> j <= l) /\
  (l <> last_i -> used (nth (Z.to_nat l) ui zero_line) = true).
Proof.
  induction n as [|n IH]; intros last_i i Hi Hl; cbn [last_used].
  - cbv zeta. split; [now left|]. split; [intros j Hj; lia|].
    intros H. now contradiction H.
  - set (last' := if used (nth (Z.to_nat i) ui zero_line) then i else last_i).
    assert (Hl' : last' < i + 1 /\ (last' = last_i \/ last' = i) /\
                  (last' <> last_i ->
                   used (nth (Z.to_nat i) ui zero_line) = true) /\
                  (used (nth (Z.to_nat i) ui zero_line) = true -> last' = i)).
    { subst last'. destruct (used (nth (Z.to_nat i) ui zero_line));
        repeat split; try lia; auto; intros H; try discriminate;
        now contradiction H. }
    destruct Hl' as (H1 & H2 & H3 & H4).
    specialize (IH last' (i + 1) ltac:(lia) H1). cbv zeta in IH.
    destruct IH as (A & B & C). cbv zeta.
    rewrite Nat2Z.inj_succ. split; [lia|]. split.
    + intros j Hj Hu. destruct (Z.eq_dec j i) as [->|Hne].
      * specialize (H4 Hu). lia.
      * apply B; [lia|exact Hu].
    + intros Hne.
      destruct (Z.eq_dec (last_used ui last' (i + 1) n) last') as [E|E].
      * rewrite E in *. destruct H2 as [H2|H2]; [congruence|].
        rewrite H2. apply H3. congruence.
      * now apply C.
Qed.

(** X10.  [ui_active_count] is at most 16; every used line lies below
    it; when it is nonzero its last line is a used one; and a line
    manager without used lines is never pumped into a render. *)
Theorem active_count_covers_used_lines :
  forall st : ui_state,
    let n := ui_active_count st in
    0 <= n <= UI_MAX_LINES /\
    (forall i, 0 <= i < UI_MAX_LINES -> used (line st i) = true -> i < n) /\
    (0 < n -> used (line st (n - 1)) = true) /\
    (n = 0 -> snd (ui_pump_once st) = []).
Proof.
  intros st n. subst n. unfold ui_active_count, line.
  change UI_MAX_LINES with 16. change (Z.to_nat 16) with 16%nat.
  destruct (last_used_spec (s_ui st) 16 (-1) 0 ltac:(lia) ltac:(lia))
    as (A & B & C).
  set (l := last_used (s_ui st) (-1) 0 16) in *.
  change (Z.of_nat 16) with 16 in *.
  assert (Hn : (if l <? 0 then 0 else u8 (l + 1)) = l + 1).
  { destruct (Z.ltb_spec l 0); [lia|]. apply u8_small. lia. }
  rewrite Hn. split; [lia|]. split.
  - intros i Hi Hu. specialize (B i ltac:(lia) Hu). lia.
  - split.
    + intros Hpos. replace (l + 1 - 1) with l by lia. apply C. lia.
    + intros Hz. unfold ui_pump_once.
      destruct (TFT_IsBusy (tft st)); [reflexivity|].
      unfold ui_active_count. change (Z.to_nat UI_MAX_LINES) with 16%nat.
      fold l. rewrite Hn, Hz. reflexivity.
Qed.

Lemma scan_step st n k fuel :
  ui_scan st n k (S fuel) =
  if pending_line (line st (scan_index st n k))
  then after_render st n (scan_index st n k)
  else ui_scan st n (k + 1) fuel.
Proof.
  cbn [ui_scan]. unfold pending_line, scan_index, after_render.
  destruct (used (line st (u8 ((s_ui_rr st + k) mod n)))); cbn [negb andb];
    [|reflexivity].
  destruct (dirty _ || strcmp_ne _ _); reflexivity.
Qed.

Lemma scan_finds_first fuel : forall st n k,
  (exists j, k <= j < k + Z.of_nat fuel /\
             pending_line (line st (scan_index st n j)) = true) ->
  exists j, k <= j < k + Z.of_nat fuel /\
            pending_line (line st (scan_index st n j)) = true /\
            (forall i, k <= i < j ->
                       pending_line (line st (scan_index st n i)) = false) /\
            ui_scan st n k fuel = after_render st n (scan_index st n j).
Proof.
  induction fuel as [|fuel IH]; intros st n k (j & Hj & Hp).
  - cbn in Hj. lia.
  - rewrite scan_step.
    destruct (pending_line (line st (scan_index st n k))) eqn:Hk.
    + exists k. rewrite Nat2Z.inj_succ.
      split; [lia|]. split; [exact Hk|]. split; [intros i Hi; lia|reflexivity].
    + assert (Hne : j <> k) by (intros ->; congruence).
      destruct (IH st n (k + 1)) as (j' & Hj' & Hp' & Hfirst & Hscan).
      { exists j. rewrite Nat2Z.inj_succ in Hj. split; [lia|exact Hp]. }
      exists j'. rewrite Nat2Z.inj_succ.
      split; [lia|]. split; [exact Hp'|]. split; [|exact Hscan].
      intros i Hi. destruct (Z.eq_dec i k) as [->|]; [exact Hk|].
      apply Hfirst. lia.
Qed.

Lemma scan_index_range st n k : 0 < n <= 16 -> 0 <= scan_index st n k < n.
Proof.
  intros Hn. unfold scan_index.
  pose proof (Z.mod_pos_bound (s_ui_rr st + k) n ltac:(lia)).
  rewrite u8_small; lia.
Qed.

(** X9.  Progress and order of the pump.  With the render engine idle
    and some used line of the 16-entry cache pending, [ui_pump_once]
    submits exactly one line: the first pending line in cyclic order from
    the cursor.  Afterwards that line's dirty flag is clear, the cursor
    stands on the line after it, and the engine is busy with the blit. *)
Theorem pump_renders_first_pending_from_cursor :
  forall (st : ui_state) (idx : Z),
    List.length (s_ui st) = 16%nat ->
    TFT_IsBusy (tft st) = false ->
    0 <= idx < UI_MAX_LINES ->
    pending_line (line st idx) = true ->
    let n := ui_active_count st in
    exists j : Z,
      0 <= j < n /\
      0 <= scan_index st n j < n /\
      pending_line (line st (scan_index st n j)) = true /\
      (forall i, 0 <= i < j ->
                 pending_line (line st (scan_index st n i)) = false) /\
      map r_idx (snd (ui_pump_once st)) = [scan_index st n j] /\
      map r_text (snd (ui_pump_once st))
        = [text (line st (scan_index st n j))] /\
      s_ui_rr (fst (ui_pump_once st)) = (scan_index st n j + 1) mod n /\
      TFT_IsBusy (tft (fst (ui_pump_once st))) = true /\
      dirty (line (fst (ui_pump_once st)) (scan_index st n j)) = false.
Proof.
  intros st idx Hlen Hidle Hidx Hpend n.
  destruct (active_count_covers_used_lines st) as (Hn & Hcov & _ & _).
  fold n in Hn, Hcov. change UI_MAX_LINES with 16 in *.
  assert (Hu : used (line st idx) = true).
  { unfold pending_line in Hpend. now apply andb_prop in Hpend. }
  specialize (Hcov idx Hidx Hu).
  assert (Hn' : 0 < n <= 16) by lia.
  destruct (scan_finds_first (Z.to_nat n) st n 0) as (j & Hj & Hp & Hfirst & Hscan).
  { exists ((idx - s_ui_rr st) mod n).
    pose proof (Z.mod_pos_bound (idx - s_ui_rr st) n ltac:(lia)).
    split; [lia|]. unfold scan_index.
    rewrite Zplus_mod_idemp_r.
    replace (s_ui_rr st + (idx - s_ui_rr st)) with idx by lia.
    rewrite Z.mod_small by lia. rewrite u8_small by lia. exact Hpend. }
  pose proof (scan_index_range st n j Hn') as Hr.
  remember (scan_index st n j) as r eqn:Er.
  exists j. rewrite <- Er. split; [lia|]. split; [exact Hr|]. split; [exact Hp|].
  split; [exact Hfirst|].
  assert (Hpump : ui_pump_once st = after_render st n r).
  { unfold ui_pump_once. rewrite Hidle. fold n.
    destruct (Z.eqb_spec n 0); [lia|]. exact Hscan. }
  rewrite Hpump. unfold after_render. cbn [fst snd map r_idx r_text s_ui_rr tft].
  split; [reflexivity|]. split; [reflexivity|]. split.
  - pose proof (Z.mod_pos_bound (r + 1) n ltac:(lia)) as Hm.
    apply u8_small. lia.
  - split.
    + destruct (draw_start (u16 (r * UI_LINE_H)) (Some (text (line st r)))
                  (fg (line st r)) (bg (line st r)) (tft st) Hidle)
        as (buf & _ & ->).
      * change UI_LINE_H with 8. change TFT_H with 128.
        rewrite (u16_small (r * 8)) by lia. rewrite u16_small by lia. lia.
      * reflexivity.
    + unfold line at 1. cbn [s_ui]. rewrite nth_upd_eq by lia. reflexivity.
Qed.

(** Lines 0 and 2 are set, the cursor is at 0: the pump takes line 0. *)
Lemma pump_progress_witness :
  let st :=
    App_UI_SetLine 2 0xFFFF 0 (Some "CAN"%string)
      (App_UI_SetLine 0 0xFFFF 0 (Some "I2C"%string) (ui_cleared tft_init)) in
  List.length (s_ui st) = 16%nat /\ TFT_IsBusy (tft st) = false /\
  pending_line (line st 2) = true /\
  map r_idx (snd (ui_pump_once st)) = [0] /\
  exists j, s_ui_rr (fst (ui_pump_once st))
            = (scan_index st (ui_active_count st) j + 1) mod ui_active_count st.
Proof.
  cbv zeta.
  split; [reflexivity|]. split; [reflexivity|]. split; [reflexivity|].
  split; [vm_compute; reflexivity|].
  destruct (pump_renders_first_pending_from_cursor
              (App_UI_SetLine 2 0xFFFF 0 (Some "CAN"%string)
                 (App_UI_SetLine 0 0xFFFF 0 (Some "I2C"%string)
                    (ui_cleared tft_init)))
              2 eq_refl eq_refl ltac:(unfold UI_MAX_LINES; lia) eq_refl)
    as (j & _ & _ & _ & _ & _ & _ & Hc & _).
  exists j. exact Hc.
Defined.


Lemma zero_line_fits : line_fits zero_line.
Proof. split; cbn; lia. Qed.

Lemma line_fits_at st idx : Forall line_fits (s_ui st) -> line_fits (line st idx).
Proof.
  intros H. unfold line.
  apply Forall_nth_default; [exact H|exact zero_line_fits].
Qed.

Lemma strncpy_z_fits s : (String.length (strncpy_z s 127) <= 127)%nat.
Proof. unfold strncpy_z. rewrite str_take_length. lia. Qed.

Lemma set_line_bounded idx f b t st :
  ui_bounded st -> ui_bounded (App_UI_SetLine idx f b t st).
Proof.
  intros (Hlen & Hfit & Hrr). unfold App_UI_SetLine.
  destruct (UI_MAX_LINES <=? u8 idx); [now repeat split|].
  unfold ui_bounded. cbn [s_ui s_ui_rr]. rewrite upd_length.
  split; [exact Hlen|]. split; [|exact Hrr].
  apply Forall_upd; [exact Hfit|].
  destruct (line_fits_at st (u8 idx) Hfit) as [Ht Hl].
  split; cbn [text last]; [|exact Hl].
  destruct (strncmp_ne _ _ _); [apply strncpy_z_fits|exact Ht].
Qed.

Lemma clear_line_bounded idx st :
  ui_bounded st -> ui_bounded (App_UI_ClearLine idx st).
Proof.
  intros (Hlen & Hfit & Hrr). unfold App_UI_ClearLine.
  destruct (UI_MAX_LINES <=? u8 idx); [now repeat split|].
  unfold ui_bounded. cbn [s_ui s_ui_rr]. rewrite upd_length.
  split; [exact Hlen|]. split; [|exact Hrr].
  apply Forall_upd; [exact Hfit|exact zero_line_fits].
Qed.

Lemma clear_all_bounded st : ui_bounded (App_UI_ClearAll st).
Proof.
  unfold ui_bounded, App_UI_ClearAll. cbn [s_ui s_ui_rr].
  split; [apply repeat_length|]. split; [|unfold UI_MAX_LINES; lia].
  apply Forall_forall. intros L HL. apply repeat_spec in HL. subst L.
  exact zero_line_fits.
Qed.

Lemma scan_bounded fuel : forall st n k,
  0 < n <= 16 -> ui_bounded st -> ui_bounded (fst (ui_scan st n k fuel)).
Proof.
  induction fuel as [|fuel IH]; intros st n k Hn (Hlen & Hfit & Hrr).
  - cbn [ui_scan fst]. unfold ui_bounded. cbn [s_ui s_ui_rr].
    split; [exact Hlen|]. split; [exact Hfit|unfold UI_MAX_LINES; lia].
  - rewrite scan_step. destruct (pending_line _);
      [|apply IH; [exact Hn|now repeat split]].
    unfold after_render, ui_bounded. cbn [fst s_ui s_ui_rr].
    rewrite upd_length. split; [exact Hlen|]. split.
    + apply Forall_upd; [exact Hfit|].
      destruct (line_fits_at st (scan_index st n k) Hfit) as [Ht Hl].
      split; cbn [text last]; [exact Ht|apply strncpy_z_fits].
    + pose proof (Z.mod_pos_bound (scan_index st n k + 1) n ltac:(lia)) as Hm.
      unfold UI_MAX_LINES.
      generalize dependent ((scan_index st n k + 1) mod n). intros m Hm.
      rewrite u8_small; lia.
Qed.

Lemma pump_bounded st : ui_bounded st -> ui_bounded (fst (ui_pump_once st)).
Proof.
  intros H. unfold ui_pump_once.
  destruct (TFT_IsBusy (tft st)); [exact H|].
  destruct (Z.eqb_spec (ui_active_count st) 0); [exact H|].
  apply scan_bounded; [|exact H].
  pose proof (proj1 (active_count_covers_used_lines st)).
  unfold UI_MAX_LINES in *. lia.
Qed.

Lemma run_bounded ops : forall st,
  ui_bounded st -> ui_bounded (fst (ui_run ops st)).
Proof.
  induction ops as [|op r IH]; intros st H; [exact H|].
  cbn [ui_run].
  assert (H1 : ui_bounded (fst (ui_step op st))).
  { destruct op; cbn [ui_step fst].
    - now apply set_line_bounded.
    - now apply pump_bounded.
    - now apply clear_line_bounded.
    - apply clear_all_bounded.
    - exact H. }
  destruct (ui_step op st) as [st1 r1]. cbn [fst] in H1.
  specialize (IH st1 H1). destruct (ui_run r st1) as [st2 r2]. exact IH.
Qed.

(** X11.  The line manager stays inside its fixed-size storage: after
    any sequence of operations from the cleared state the cache has its 16
    entries, the desired and the last-rendered text of every entry have at
    most 127 characters (they fit the 128-byte fields with their
    terminator), and the round-robin cursor is below 16. *)
Theorem line_cache_stays_in_bounds :
  forall (t : tft_state) (ops : list ui_op),
    let st := fst (ui_run ops (ui_cleared t)) in
    List.length (s_ui st) = 16%nat /\
    (forall idx : Z,
       (String.length (text (line st idx)) <= 127)%nat /\
       (String.length (last (line st idx)) <= 127)%nat) /\
    0 <= s_ui_rr st < UI_MAX_LINES.
Proof.
  intros t ops st.
  assert (H : ui_bounded st) by (apply run_bounded, clear_all_bounded).
  destruct H as (Hlen & Hfit & Hrr).
  split; [exact Hlen|]. split; [|exact Hrr].
  intros idx. apply (line_fits_at st idx Hfit).
Qed.

(** X12.  A text of 128 or more characters defeats the change
    detection: [App_UI_SetLine] compares the stored (truncated) text with
    the first 128 characters of the argument, so in every state reached
    from the cleared one such a call marks the line dirty and pending,
    storing the first 127 characters, also when exactly that text is
    already stored and drawn. *)
Theorem long_text_is_always_marked_dirty :
  forall (t : tft_state) (ops : list ui_op) (idx f b : Z) (s : string),
    u8 idx < UI_MAX_LINES ->
    128 <= strlen s ->
    let st := fst (ui_run ops (ui_cleared t)) in
    let st' := App_UI_SetLine idx f b (Some s) st in
    dirty (line st' (u8 idx)) = true /\
    text (line st' (u8 idx)) = str_take 127 (c_str s) /\
    pending_line (line st' (u8 idx)) = true.
Proof.
  intros t ops idx f b s Hidx Hlong st st'.
  assert (H : ui_bounded st) by (apply run_bounded, clear_all_bounded).
  destruct H as (Hlen & Hfit & Hrr).
  pose proof (u8_nonneg idx) as Hnn. unfold UI_MAX_LINES in Hidx.
  subst st'. unfold App_UI_SetLine. change UI_MAX_LINES with 16.
  destruct (Z.leb_spec 16 (u8 idx)); [lia|].
  assert (Hne : strncmp_ne (text (line st (u8 idx))) (or_empty (Some s))
                           (Z.to_nat UI_TEXT_MAX) = true).
  { unfold strncmp_ne. apply negb_true_iff. apply String.eqb_neq.
    intros E. apply (f_equal String.length) in E.
    rewrite !str_take_length in E. cbn [or_empty] in E.
    destruct (line_fits_at st (u8 idx) Hfit) as [Ht _].
    pose proof (c_str_length_le (text (line st (u8 idx)))).
    unfold strlen in Hlong. change (Z.to_nat UI_TEXT_MAX) with 128%nat in E.
    lia. }
  unfold line in *. cbn [s_ui]. rewrite !nth_upd_eq by lia.
  rewrite Hne. cbn [dirty text]. split; [reflexivity|].
  split; [reflexivity|]. unfold pending_line. cbn [used dirty]. reflexivity.
Qed.

Lemma long_text_witness :
  let s := ("0123456789012345678901234567890123456789012345678901234567890123"
         ++ "0123456789012345678901234567890123456789012345678901234567890123")%string in
  let twice :=
    [OpSetLine 1 0xFFFF 0 (Some s); OpPump; OpTftTask true; OpTftTask true;
     OpTftTask true; OpTftTask true; OpTftTask true] in
  u8 1 < UI_MAX_LINES /\ 128 <= strlen s /\
  dirty (line (fst (ui_run twice (ui_cleared tft_init))) 1) = false /\
  dirty (line (App_UI_SetLine 1 0xFFFF 0 (Some s)
                 (fst (ui_run twice (ui_cleared tft_init)))) (u8 1)) = true.
Proof.
  cbv zeta. split; [reflexivity|]. split; [vm_compute; discriminate|].
  split; [vm_compute; reflexivity|].
  apply (long_text_is_always_marked_dirty tft_init); [reflexivity|].
  vm_compute. discriminate.
Defined.

End LineManagerMore.

(** ** Sensor poll service: decoding, cadence and published state *)

Section SensorPollMore.
Import I2c.

Lemma lor_shiftl_add a b n :
  0 <= n -> 0 <= a < 2^n -> 0 <= b -> Z.lor a (Z.shiftl b n) = a + b * 2^n.
Proof.
  intros Hn Ha Hb. rewrite Z.shiftl_mul_pow2 by exact Hn.
  assert (Hland : Z.land a (b * 2^n) = 0).
  { apply Z.bits_inj'. intros i Hi. rewrite Z.land_spec, Z.bits_0.
    destruct (Z.ltb_spec i n) as [Hlt|Hge].
    - rewrite Z.mul_pow2_bits_low by lia. apply andb_false_r.
    - destruct (Z.eq_dec a 0) as [->|Hne]; [now rewrite Z.bits_0|].
      rewrite Z.bits_above_log2; [reflexivity|lia|].
      assert (Z.log2 a < n) by (apply Z.log2_lt_pow2; lia). lia. }
  rewrite <- Z.lxor_lor by exact Hland.
  symmetry. apply Z.add_nocarry_lxor. exact Hland.
Qed.

Lemma s32_unique x k :
  - 2^31 <= k < 2^31 -> (x - k) mod 2^32 = 0 -> s32 x = k.
Proof.
  intros Hk Hm. unfold s32, u32. cbv zeta.
  change (2^32) with 4294967296 in *. change (2^31) with 2147483648 in *.
  destruct (Z.ltb_spec (x mod 4294967296) 2147483648);
    Z.div_mod_to_equations; lia.
Qed.

Lemma s16_range x : - 32768 <= s16 x <= 32767.
Proof.
  unfold s16, u16. cbv zeta.
  change (2^16) with 65536. change (2^15) with 32768.
  pose proof (Z.mod_pos_bound x 65536 ltac:(lia)).
  destruct (Z.ltb_spec (x mod 65536) 32768); lia.
Qed.

Lemma read_value_range o v :
  I2C_ReadTempFromESP32 o = (HAL_OK, Some v) -> - 32768 <= v <= 32767.
Proof.
  unfold I2C_ReadTempFromESP32.
  destruct (is_ok (ret o)); [|destruct (ret o); discriminate].
  intros H. injection H as <-. apply s16_range.
Qed.

(** X13.  [I2C_ReadTempFromESP32] decodes the two bytes as a 16-bit
    little-endian two's-complement number: a successful read always yields
    a value of the [int16_t] range, and the reply that encodes [v] is read
    back as [v], negative values included. *)
Theorem temperature_decode_round_trip :
  (forall o v, I2C_ReadTempFromESP32 o = (HAL_OK, Some v) ->
               - 32768 <= v <= 32767) /\
  (forall v, - 32768 <= v <= 32767 ->
             I2C_ReadTempFromESP32 (temp_reply v) = (HAL_OK, Some v)).
Proof.
  split; [exact read_value_range|].
  intros v Hv. unfold I2C_ReadTempFromESP32, temp_reply.
  cbn [ret buf0 buf1 is_ok]. do 2 f_equal.
  assert (H0 : 0 <= u8 v < 2^8) by (apply Z.mod_pos_bound; lia).
  assert (H1 : 0 <= u8 (Z.shiftr (u16 v) 8) < 2^8)
    by (apply Z.mod_pos_bound; lia).
  rewrite (u8_small (u8 v)) by exact H0.
  rewrite (u8_small (u8 (Z.shiftr (u16 v) 8))) by exact H1.
  rewrite Z.shiftl_mul_pow2 by lia.
  rewrite (u16_small (u8 (Z.shiftr (u16 v) 8) * 2^8))
    by (change (2^16) with 65536; change (2^8) with 256 in *; lia).
  rewrite <- Z.shiftl_mul_pow2 by lia.
  rewrite lor_shiftl_add by lia.
  rewrite Z.shiftr_div_pow2 by lia.
  unfold s16, u8, u16. cbv zeta.
  change (2^16) with 65536. change (2^15) with 32768.
  change (2^8) with 256.
  match goal with |- (if ?c <? _ then _ else _) = _ =>
    destruct (Z.ltb_spec c 32768) end;
    Z.div_mod_to_equations; lia.
Qed.

Lemma temperature_decode_witness :
  - 32768 <= -5 <= 32767 /\
  I2C_ReadTempFromESP32 (temp_reply (-5)) = (HAL_OK, Some (-5)) /\
  buf0 (temp_reply (-5)) = 251 /\ buf1 (temp_reply (-5)) = 255.
Proof.
  split; [lia|]. split.
  - apply (proj2 temperature_decode_round_trip (-5)). lia.
  - split; reflexivity.
Defined.

(** X14.  The poll timer of [App_I2C_Service] is safe across the 32-bit
    wrap of the millisecond tick: a call that fires at tick [t0] arms the
    timer so that no call fires during the next 499 ms and every call from
    500 ms up to 2^31 + 499 ms later fires, whatever [t0] is; a call that
    does not fire changes nothing. *)
Theorem poll_cadence_survives_tick_wrap :
  forall (E : hal_i2c_errors) (t0 d : Z) (first second : read_outcome)
         (sda : nat -> bool) (st : i2c_state),
    poll_due t0 st = true ->
    let st1 := App_I2C_Service E t0 first second sda st in
    nextPollMs st1 = u32 (u32 t0 + 500) /\
    (0 <= d < 500 ->
       poll_due (t0 + d) st1 = false /\
       forall f s a, App_I2C_Service E (t0 + d) f s a st1 = st1) /\
    (500 <= d < 500 + 2^31 -> poll_due (t0 + d) st1 = true).
Proof.
  intros E t0 d first second sda st Hdue st1.
  assert (Hnext : nextPollMs st1 = u32 (u32 t0 + 500)).
  { subst st1. unfold App_I2C_Service. rewrite Hdue. cbn [negb].
    unfold I2C_ReadTemp_Fixed.
    destruct (I2C_ReadTempFromESP32 first) as [[] v1];
      try reflexivity;
      destruct (I2C_ReadTempFromESP32 second) as [[] v2]; reflexivity. }
  assert (Hs : - 2^31 <= d - 500 < 2^31 ->
               s32 (u32 (t0 + d) - nextPollMs st1) = d - 500).
  { intros Hd. apply s32_unique; [exact Hd|]. rewrite Hnext. unfold u32.
    change (2^32) with 4294967296. Z.div_mod_to_equations. lia. }
  split; [exact Hnext|]. split.
  - intros Hd.
    assert (Hp : poll_due (t0 + d) st1 = false).
    { unfold poll_due. rewrite Hs by (change (2^31) with 2147483648; lia).
      destruct (Z.ltb_spec (d - 500) 0); [reflexivity|lia]. }
    split; [exact Hp|]. intros f s a. unfold App_I2C_Service.
    now rewrite Hp.
  - intros Hd. unfold poll_due.
    rewrite Hs by (change (2^31) with 2147483648 in *; lia).
    destruct (Z.ltb_spec (d - 500) 0); [lia|reflexivity].
Qed.

Lemma poll_cadence_witness :
  let st := {| g_i2c_ok := 0; g_i2c_temp := 0; g_i2c_last_err := "NONE";
               nextPollMs := 4294967000; recoveries := [] |} in
  let st1 := App_I2C_Service stm32f7_errors 4294967000 (temp_reply 21)
               (temp_reply 21) (fun _ => true) st in
  nextPollMs st1 = 204 /\
  poll_due (4294967000 + 499) st1 = false /\
  poll_due (4294967000 + 500) st1 = true.
Proof.
  intros st st1.
  assert (Hdue : poll_due 4294967000 st = true) by (vm_compute; reflexivity).
  split; [vm_compute; reflexivity|]. split.
  - apply (poll_cadence_survives_tick_wrap stm32f7_errors 4294967000 499
             (temp_reply 21) (temp_reply 21) (fun _ => true) st Hdue).
    lia.
  - apply (poll_cadence_survives_tick_wrap stm32f7_errors 4294967000 500
             (temp_reply 21) (temp_reply 21) (fun _ => true) st Hdue).
    change (2^31) with 2147483648. lia.
Defined.

Lemma service_preserves_published E c st :
  published_ok st ->
  let st' := App_I2C_Service E (call_now c) (call_first c) (call_second c)
               (call_sda c) st in
  published_ok st' /\
  (List.length (recoveries st') <= S (List.length (recoveries st)))%nat.
Proof.
  intros (Hok & Hnone & Ht & Hrec). cbv zeta.
  unfold App_I2C_Service.
  destruct (poll_due (call_now c) st); cbn [negb];
    [|split; [now repeat split|lia]].
  unfold I2C_ReadTemp_Fixed.
  assert (Hrec' : Forall (fun p => (p <= 9)%nat)
            (recoveries st ++ [recover_pulses (call_sda c) 0 9])).
  { apply Forall_app. split; [exact Hrec|].
    constructor; [apply recover_pulses_le|constructor]. }
  assert (Hlen : (List.length
            (recoveries st ++ [recover_pulses (call_sda c) 0 9])
            <= S (List.length (recoveries st)))%nat).
  { rewrite length_app. cbn [List.length]. lia. }
  destruct (I2C_ReadTempFromESP32 (call_first c)) as [r1 v1] eqn:E1.
  assert (Hv1 : r1 <> HAL_OK -> v1 = None).
  { unfold I2C_ReadTempFromESP32 in E1.
    destruct (is_ok (ret (call_first c))); injection E1 as <- <-;
      [intros H; now contradiction H|reflexivity]. }
  destruct r1.
  - destruct v1 as [t|];
      [apply read_value_range in E1|];
      unfold published_ok; cbn; (split; [|lia]); repeat split;
      try (now right); try lia; try exact Hrec.
  - rewrite (Hv1 ltac:(discriminate)).
    destruct (I2C_ReadTempFromESP32 (call_second c)) as [r2 v2] eqn:E2.
    assert (Hv2 : r2 <> HAL_OK -> v2 = None).
    { unfold I2C_ReadTempFromESP32 in E2.
      destruct (is_ok (ret (call_second c))); injection E2 as <- <-;
        [intros H; now contradiction H|reflexivity]. }
    destruct r2;
      [destruct v2 as [t|]; [apply read_value_range in E2|]
      |try rewrite (Hv2 ltac:(discriminate))..];
      unfold published_ok; cbn -[recover_pulses];
      (split; [|exact Hlen]); repeat split;
      try (now right); try (now left); try lia; try exact Hrec';
      try discriminate.
  - rewrite (Hv1 ltac:(discriminate)).
    destruct (I2C_ReadTempFromESP32 (call_second c)) as [r2 v2] eqn:E2.
    assert (Hv2 : r2 <> HAL_OK -> v2 = None).
    { unfold I2C_ReadTempFromESP32 in E2.
      destruct (is_ok (ret (call_second c))); injection E2 as <- <-;
        [intros H; now contradiction H|reflexivity]. }
    destruct r2;
      [destruct v2 as [t|]; [apply read_value_range in E2|]
      |try rewrite (Hv2 ltac:(discriminate))..];
      unfold published_ok; cbn -[recover_pulses];
      (split; [|exact Hlen]); repeat split;
      try (now right); try (now left); try lia; try exact Hrec';
      try discriminate.
  - rewrite (Hv1 ltac:(discriminate)).
    destruct (I2C_ReadTempFromESP32 (call_second c)) as [r2 v2] eqn:E2.
    assert (Hv2 : r2 <> HAL_OK -> v2 = None).
    { unfold I2C_ReadTempFromESP32 in E2.
      destruct (is_ok (ret (call_second c))); injection E2 as <- <-;
        [intros H; now contradiction H|reflexivity]. }
    destruct r2;
      [destruct v2 as [t|]; [apply read_value_range in E2|]
      |try rewrite (Hv2 ltac:(discriminate))..];
      unfold published_ok; cbn -[recover_pulses];
      (split; [|exact Hlen]); repeat split;
      try (now right); try (now left); try lia; try exact Hrec';
      try discriminate.
Qed.

Lemma run_preserves_published E calls : forall st,
  published_ok st ->
  published_ok (i2c_run E calls st) /\
  (List.length (recoveries (i2c_run E calls st))
   <= List.length (recoveries st) + List.length calls)%nat.
Proof.
  induction calls as [|c calls IH]; intros st Hst.
  - split; [exact Hst|cbn; lia].
  - destruct (service_preserves_published E c st Hst) as [H1 H2].
    destruct (IH _ H1) as [H3 H4].
    unfold i2c_run in *. cbn [fold_left List.length].
    split; [exact H3|]. lia.
Qed.

(** X15.  Whatever the bus does and whenever the service is called, the
    published sensor state stays well formed after any number of
    [App_I2C_Service] calls from power-up: the ok flag is 0 or 1, ok is
    only ever published together with the error symbol "NONE", the
    temperature is an [int16_t] value, every bus recovery drove at most 9
    clock pulses, and there was at most one recovery per call. *)
Theorem published_state_stays_well_formed :
  forall (E : hal_i2c_errors) (calls : list service_call),
    let st := i2c_run E calls i2c_init in
    published_ok st /\
    (List.length (recoveries st) <= List.length calls)%nat.
Proof.
  intros E calls st.
  assert (H0 : published_ok i2c_init).
  { unfold published_ok, i2c_init. cbn [g_i2c_ok g_i2c_temp g_i2c_last_err recoveries].
    split; [now left|]. split; [reflexivity|]. split; [lia|constructor]. }
  destruct (run_preserves_published E calls i2c_init H0) as [H1 H2].
  split; [exact H1|]. exact H2.
Qed.

Lemma recover_pulses_spec sda n : forall i,
  let p := recover_pulses sda i n in
  (p <= n)%nat /\
  (forall k, (k < p)%nat -> sda (i + k)%nat = false) /\
  ((p < n)%nat -> sda (i + p)%nat = true).
Proof.
  induction n as [|n IH]; intros i; cbn [recover_pulses]; cbv zeta.
  - split; [lia|]. split; intros; lia.
  - destruct (sda i) eqn:Ei.
    + split; [lia|]. split; [intros k Hk; lia|].
      intros _. now rewrite Nat.add_0_r.
    + destruct (IH (S i)) as (H1 & H2 & H3). split; [lia|]. split.
      * intros [|k] Hk; [now rewrite Nat.add_0_r|].
        replace (i + S k)%nat with (S i + k)%nat by lia.
        apply H2. lia.
      * intros Hp.
        replace (i + S (recover_pulses sda (S i) n))%nat
          with (S i + recover_pulses sda (S i) n)%nat by lia.
        apply H3. lia.
Qed.

(** X16.  [I2C1_BusRecover] clocks the bus until the slave releases the
    data line and at most 9 times: the number of pulses it drives is the
    index of the first sample at which SDA reads high, or 9 when the line
    is still low at the first nine samples; nothing else of the sensor
    state changes. *)
Theorem recovery_pulses_until_sda_released :
  forall (sda : nat -> bool) (st : i2c_state),
    let st' := I2C1_BusRecover sda st in
    exists p,
      recoveries st' = recoveries st ++ [p] /\
      (p <= 9)%nat /\
      (forall k, (k < p)%nat -> sda k = false) /\
      ((p < 9)%nat -> sda p = true) /\
      g_i2c_ok st' = g_i2c_ok st /\ g_i2c_temp st' = g_i2c_temp st /\
      g_i2c_last_err st' = g_i2c_last_err st /\
      nextPollMs st' = nextPollMs st.
Proof.
  intros sda st st'. exists (recover_pulses sda 0 9).
  destruct (recover_pulses_spec sda 9 0) as (H1 & H2 & H3).
  split; [reflexivity|]. split; [exact H1|]. split; [exact H2|].
  split; [exact H3|]. now repeat split.
Qed.

End SensorPollMore.

(** ** CAN snapshot *)

Section CanSnapshot.
Import Codec Can.

Lemma byte_range p i : 0 <= byte p i < 256.
Proof. unfold byte, u8. apply Z.mod_pos_bound. lia. Qed.

Lemma u32_le_value p :
  u32_le p = byte p 0 + 2^8 * byte p 1 + 2^16 * byte p 2 + 2^24 * byte p 3.
Proof.
  pose proof (byte_range p 0). pose proof (byte_range p 1).
  pose proof (byte_range p 2). pose proof (byte_range p 3).
  unfold u32_le.
  rewrite !Z.shiftl_mul_pow2 by lia.
  rewrite (u32_small (byte p 1 * 2^8)) by lia.
  rewrite (u32_small (byte p 2 * 2^16)) by lia.
  rewrite (u32_small (byte p 3 * 2^24)) by lia.
  rewrite <- !Z.shiftl_mul_pow2 by lia.
  rewrite (lor_shiftl_add (byte p 0) (byte p 1) 8) by lia.
  rewrite (lor_shiftl_add _ (byte p 2) 16) by lia.
  rewrite (lor_shiftl_add _ (byte p 3) 24) by lia.
  rewrite u32_small by lia. lia.
Qed.

Lemma u16_le_value p : u16_le p = byte p 0 + 2^8 * byte p 1.
Proof.
  pose proof (byte_range p 0). pose proof (byte_range p 1).
  unfold u16_le.
  rewrite (u16_small (byte p 1)) by lia.
  rewrite (lor_shiftl_add (byte p 0) (byte p 1) 8) by lia.
  rewrite u16_small by lia. lia.
Qed.

Lemma u32_le_bytes v rest :
  0 <= v < 2^32 -> u32_le (le_bytes 4 v ++ rest) = v.
Proof.
  intros Hv. rewrite u32_le_value.
  unfold byte. cbn [le_bytes app nth]. unfold u8.
  change (2^8) with 256. change (2^16) with 65536.
  change (2^24) with 16777216. change (2^32) with 4294967296 in Hv.
  Z.div_mod_to_equations. lia.
Qed.

Lemma u16_le_bytes v rest :
  0 <= v < 2^16 -> u16_le (le_bytes 2 v ++ rest) = v.
Proof.
  intros Hv. rewrite u16_le_value.
  unfold byte. cbn [le_bytes app nth]. unfold u8.
  change (2^8) with 256. change (2^16) with 65536 in Hv.
  Z.div_mod_to_equations. lia.
Qed.

(** X17.  The little-endian helpers compute the positional value of the
    bytes, least significant first, for any buffer content; so a 32-bit
    or 16-bit value laid out low byte first is read back unchanged,
    whatever follows it in the buffer. *)
Theorem little_endian_words :
  (forall p : list Z,
     u32_le p = byte p 0 + 2^8 * byte p 1 + 2^16 * byte p 2
                + 2^24 * byte p 3 /\
     u16_le p = byte p 0 + 2^8 * byte p 1) /\
  (forall v rest, 0 <= v < 2^32 -> u32_le (le_bytes 4 v ++ rest) = v) /\
  (forall v rest, 0 <= v < 2^16 -> u16_le (le_bytes 2 v ++ rest) = v).
Proof.
  split; [intros p; split; [apply u32_le_value|apply u16_le_value]|].
  split; [exact u32_le_bytes|exact u16_le_bytes].
Qed.

Lemma little_endian_witness :
  0 <= 305419896 < 2^32 /\
  le_bytes 4 305419896 = [120; 86; 52; 18] /\
  u32_le (le_bytes 4 305419896 ++ [255]) = 305419896.
Proof.
  split; [change (2^32) with 4294967296; lia|]. split; [reflexivity|].
  apply (proj1 (proj2 little_endian_words) 305419896 [255]).
  change (2^32) with 4294967296. lia.
Defined.

(** *** Printed numbers *)

Lemma no_nul_c_str s : no_nul s = true -> c_str s = s.
Proof.
  induction s as [|c r IH]; [reflexivity|]. cbn [no_nul c_str].
  intros H. apply andb_prop in H as [Hc Hr].
  destruct (Ascii.eqb c zero); [discriminate|]. now rewrite IH.
Qed.

Lemma no_nul_app a b : no_nul (a ++ b) = no_nul a && no_nul b.
Proof.
  induction a as [|c r IH]; [reflexivity|]. cbn [append no_nul].
  now rewrite IH, andb_assoc.
Qed.

Lemma no_nul_take n : forall s, no_nul s = true -> no_nul (str_take n s) = true.
Proof.
  induction n as [|n IH]; intros [|c r]; try reflexivity.
  cbn [no_nul str_take]. intros H. apply andb_prop in H as [Hc Hr].
  now rewrite Hc, IH.
Qed.

Lemma digits_no_nul s : all_digits s = true -> no_nul s = true.
Proof.
  induction s as [|c r IH]; [reflexivity|]. cbn [all_digits no_nul].
  intros H. apply andb_prop in H as [Hc Hr]. rewrite IH by exact Hr.
  destruct (Ascii.eqb_spec c zero) as [->|]; [discriminate Hc|reflexivity].
Qed.

Lemma fmt_lu_no_nul v : no_nul (fmt_lu v) = true.
Proof.
  apply digits_no_nul. apply dec_digits_all.
  unfold u32. apply Z.mod_pos_bound. lia.
Qed.

Lemma dec_digits_short fuel : forall k n,
  0 <= n < 10 ^ Z.of_nat (S k) ->
  (String.length (dec_digits fuel n) <= S k)%nat.
Proof.
  induction fuel as [|fuel IH]; intros k n Hn; cbn [dec_digits];
    [cbn; lia|].
  destruct (Z.ltb_spec n 10); [cbn; lia|].
  rewrite length_append. cbn [String.length].
  destruct k as [|k]; [cbn in Hn; lia|].
  assert (0 <= n / 10 < 10 ^ Z.of_nat (S k)).
  { rewrite (Nat2Z.inj_succ (S k)), Z.pow_succ_r in Hn by lia.
    split; [apply Z.div_pos; lia|].
    apply Z.div_lt_upper_bound; lia. }
  specialize (IH k (n / 10) H0). lia.
Qed.

Lemma hb_text_plain seq :
  hb_text seq = ("HB seq=" ++ fmt_lu seq)%string.
Proof.
  unfold hb_text, snprintf_128, fmt_u. apply str_take_all.
  pose proof (dec_digits_length 10 (u32 seq)).
  unfold fmt_lu. cbn [append String.length]. lia.
Qed.

Lemma hb_text_length seq :
  0 <= seq < 256 -> (String.length (hb_text seq) <= 10)%nat.
Proof.
  intros H. rewrite hb_text_plain. unfold fmt_lu.
  rewrite u32_small by (change (2^32) with 4294967296; lia).
  pose proof (dec_digits_short 10 2 seq ltac:(cbn; lia)).
  cbn [append String.length]. lia.
Qed.

Lemma light_text_plain lux full ir :
  light_text lux full ir =
  ("LIGHT lux=" ++ fmt_lu (u32 (lux / 100))
   ++ " full=" ++ fmt_lu full ++ " ir=" ++ fmt_lu ir)%string.
Proof.
  unfold light_text, snprintf_128, fmt_u. apply str_take_all.
  pose proof (dec_digits_length 10 (u32 (u32 (lux / 100)))).
  pose proof (dec_digits_length 10 (u32 full)).
  pose proof (dec_digits_length 10 (u32 ir)).
  unfold fmt_lu. rewrite !length_append. cbn [String.length]. lia.
Qed.

Lemma light_text_length lux full ir :
  0 <= lux < 2^32 -> 0 <= full < 2^16 -> 0 <= ir < 2^16 ->
  (String.length (light_text lux full ir) <= 38)%nat.
Proof.
  intros Hl Hf Hi. rewrite light_text_plain. unfold fmt_lu.
  change (2^32) with 4294967296 in *. change (2^16) with 65536 in *.
  assert (0 <= lux / 100 < 42949673).
  { split; [apply Z.div_pos; lia|apply Z.div_lt_upper_bound; lia]. }
  rewrite !(u32_small (lux / 100)), (u32_small full), (u32_small ir)
    by (change (2^32) with 4294967296; lia).
  pose proof (dec_digits_short 10 7 (lux / 100) ltac:(cbn; lia)).
  pose proof (dec_digits_short 10 4 full ltac:(cbn; lia)).
  pose proof (dec_digits_short 10 4 ir ltac:(cbn; lia)).
  rewrite !length_append. cbn [String.length]. lia.
Qed.

Lemma hb_text_no_nul seq : no_nul (hb_text seq) = true.
Proof.
  rewrite hb_text_plain, no_nul_app, fmt_lu_no_nul. reflexivity.
Qed.

Lemma light_text_no_nul lux full ir : no_nul (light_text lux full ir) = true.
Proof.
  rewrite light_text_plain, !no_nul_app, !fmt_lu_no_nul. reflexivity.
Qed.

Lemma copy_hb seq : strncpy_z (hb_text seq) 127 = hb_text seq.
Proof.
  unfold strncpy_z. rewrite no_nul_c_str by apply hb_text_no_nul.
  unfold hb_text, snprintf_128. apply str_take_idem.
Qed.

Lemma copy_light lux full ir :
  strncpy_z (light_text lux full ir) 127 = light_text lux full ir.
Proof.
  unfold strncpy_z. rewrite no_nul_c_str by apply light_text_no_nul.
  unfold light_text, snprintf_128. apply str_take_idem.
Qed.

(** X18.  A light-sensor frame (standard data frame 0x120 with 8 bytes:
    lux*100 as 32 bits, then the two 16-bit channels, all low byte first)
    is decoded exactly: the getters return lux*100 divided by 100 and the
    two channel values, both texts hold the untruncated line, and the
    heartbeat side of the snapshot is left alone. *)
Theorem light_frame_is_decoded :
  forall (lux_x100 full ir now : Z) (st : can_state),
    0 <= lux_x100 < 2^32 -> 0 <= full < 2^16 -> 0 <= ir < 2^16 ->
    let st' := HAL_CAN_RxFifo0MsgPendingCallback
                 (light_frame lux_x100 full ir now) st in
    CAN1_120_GetLux st' = lux_x100 / 100 /\
    CAN1_120_GetFull st' = full /\ CAN1_120_GetIR st' = ir /\
    s_has120 st' = 1 /\ s_120_tick st' = u32 now /\
    CAN1_GetLastText st' =
      ("LIGHT lux=" ++ fmt_lu (lux_x100 / 100) ++ " full=" ++ fmt_lu full
       ++ " ir=" ++ fmt_lu ir)%string /\
    s_120_txt st' = CAN1_GetLastText st' /\
    s_has101 st' = s_has101 st /\ s_hb_seq st' = s_hb_seq st /\
    s_101_txt st' = s_101_txt st /\ s_101_tick st' = s_101_tick st.
Proof.
  intros lux full ir now st Hl Hf Hi st'.
  assert (E1 : u32_le (d (light_frame lux full ir now)) = lux).
  { unfold light_frame, data_frame. cbn [d]. now apply u32_le_bytes. }
  assert (E2 : u16_le (skipn 4 (d (light_frame lux full ir now))) = full).
  { unfold light_frame, data_frame. cbn [d le_bytes app skipn].
    change (u16_le (le_bytes 2 full ++ le_bytes 2 ir) = full).
    now apply u16_le_bytes. }
  assert (E3 : u16_le (skipn 6 (d (light_frame lux full ir now))) = ir).
  { unfold light_frame, data_frame. cbn [d le_bytes app skipn].
    change (u16_le (le_bytes 2 ir ++ []) = ir).
    now apply u16_le_bytes. }
  assert (Hq : 0 <= lux / 100 < 2^32).
  { change (2^32) with 4294967296 in *.
    split; [apply Z.div_pos; lia|apply Z.div_lt_upper_bound; lia]. }
  subst st'. unfold HAL_CAN_RxFifo0MsgPendingCallback.
  rewrite E1, E2, E3. unfold light_frame, data_frame.
  cbn [on_can1 get_ok ide_std rtr_data StdId DLC tick negb].
  change ((288 =? 257) && (1 <=? 8)) with false.
  change ((288 =? 288) && (8 =? 8)) with true. cbv iota.
  unfold CAN1_120_GetLux, CAN1_120_GetFull, CAN1_120_GetIR, CAN1_GetLastText.
  cbn [s_lux_x100 s_full s_ir s_has120 s_120_tick s_last_txt s_120_txt
       s_has101 s_hb_seq s_101_txt s_101_tick].
  rewrite copy_light, light_text_plain, (u32_small (lux / 100)) by exact Hq.
  now repeat split.
Qed.

Lemma light_frame_witness :
  let st' := HAL_CAN_RxFifo0MsgPendingCallback
               (light_frame 123456 700 65535 5000) can_init in
  d (light_frame 123456 700 65535 5000) = [64; 226; 1; 0; 188; 2; 255; 255] /\
  CAN1_120_GetLux st' = 1234 /\
  CAN1_GetLastText st' = "LIGHT lux=1234 full=700 ir=65535"%string.
Proof.
  cbv zeta. split; [reflexivity|].
  destruct (light_frame_is_decoded 123456 700 65535 5000 can_init
              ltac:(change (2^32) with 4294967296; lia)
              ltac:(change (2^16) with 65536; lia)
              ltac:(change (2^16) with 65536; lia))
    as (H1 & _ & _ & _ & _ & H2 & _).
  split; [exact H1|exact H2].
Defined.

Lemma u32_diff t dt : 0 <= dt < 2^32 -> u32 (u32 (t + dt) - u32 t) = dt.
Proof.
  intros H. unfold u32. change (2^32) with 4294967296 in *.
  Z.div_mod_to_equations. lia.
Qed.

(** X19.  Freshness of the snapshots is judged on the wrapped 32-bit tick
    difference: whatever the tick [t] of the last 0x101 (0x120) frame,
    the text getter hands out the stored text up to and including 2000 ms
    later and "none" from 2001 ms on (until the difference itself wraps
    after 2^32 ms), and [CAN1_120_IsValid] is 1 on exactly the same
    window. *)
Theorem snapshot_fresh_for_2000_ms :
  forall (st : can_state) (t dt : Z),
    0 <= dt < 2^32 ->
    (s_101_tick st = u32 t ->
       CAN1_GetText_0x101 (t + dt) st =
         if dt <=? 2000 then s_101_txt st else "none"%string) /\
    (s_120_tick st = u32 t ->
       CAN1_GetText_0x120 (t + dt) st =
         (if dt <=? 2000 then s_120_txt st else "none"%string) /\
       CAN1_120_IsValid (t + dt) st = if dt <=? 2000 then 1 else 0).
Proof.
  intros st t dt Hdt. split.
  - intros E. unfold CAN1_GetText_0x101. rewrite E, u32_diff by exact Hdt.
    destruct (Z.ltb_spec 2000 dt), (Z.leb_spec dt 2000); try reflexivity; lia.
  - intros E. unfold CAN1_GetText_0x120, CAN1_120_IsValid.
    rewrite E, u32_diff by exact Hdt.
    destruct (Z.ltb_spec 2000 dt), (Z.leb_spec dt 2000);
      try (split; reflexivity); lia.
Qed.

Lemma snapshot_fresh_witness :
  let st := HAL_CAN_RxFifo0MsgPendingCallback
              (light_frame 123456 700 65535 4294967000) can_init in
  CAN1_120_IsValid (4294967000 + 2000) st = 1 /\
  CAN1_120_IsValid (4294967000 + 2001) st = 0 /\
  CAN1_GetText_0x120 (4294967000 + 2001) st = "none"%string.
Proof.
  cbv zeta.
  set (st := HAL_CAN_RxFifo0MsgPendingCallback
               (light_frame 123456 700 65535 4294967000) can_init).
  assert (E : s_120_tick st = u32 4294967000) by reflexivity.
  split; [|split].
  - exact (proj2 (proj2 (snapshot_fresh_for_2000_ms st 4294967000 2000
             ltac:(change (2^32) with 4294967296; lia)) E)).
  - exact (proj2 (proj2 (snapshot_fresh_for_2000_ms st 4294967000 2001
             ltac:(change (2^32) with 4294967296; lia)) E)).
  - exact (proj1 (proj2 (snapshot_fresh_for_2000_ms st 4294967000 2001
             ltac:(change (2^32) with 4294967296; lia)) E)).
Defined.

(** X20.  Frames the callback does not decode: when the handle is not
    CAN1, the HAL hands nothing over, or the frame is an extended or a
    remote frame, the snapshot is left exactly as it was; a standard data
    frame with any other identifier, a 0x101 with no data byte or a 0x120
    whose length is not 8 only moves the time of the last frame. *)
Theorem undecoded_frames_leave_snapshot :
  forall (f : rx_frame) (st : can_state),
    let st' := HAL_CAN_RxFifo0MsgPendingCallback f st in
    (on_can1 f && get_ok f && ide_std f && rtr_data f = false -> st' = st) /\
    (on_can1 f && get_ok f && ide_std f && rtr_data f = true ->
     (StdId f <> 0x101 \/ DLC f < 1) ->
     (StdId f <> 0x120 \/ DLC f <> 8) ->
     same_snapshot st' st /\ s_last_tick st' = u32 (tick f)).
Proof.
  intros f st st'. subst st'. unfold HAL_CAN_RxFifo0MsgPendingCallback.
  split.
  - destruct (on_can1 f), (get_ok f), (ide_std f), (rtr_data f);
      cbn [andb negb]; intros H; try reflexivity; discriminate H.
  - intros Hg H1 H2.
    destruct (on_can1 f), (get_ok f), (ide_std f), (rtr_data f);
      try discriminate Hg. cbn [negb].
    assert (E1 : (StdId f =? 257) && (1 <=? DLC f) = false).
    { destruct (Z.eqb_spec (StdId f) 257), (Z.leb_spec 1 (DLC f));
        try reflexivity. lia. }
    assert (E2 : (StdId f =? 288) && (DLC f =? 8) = false).
    { destruct (Z.eqb_spec (StdId f) 288), (Z.eqb_spec (DLC f) 8);
        try reflexivity. lia. }
    rewrite E1, E2. unfold same_snapshot. cbn. now repeat split.
Qed.

Lemma undecoded_frames_witness :
  let f := data_frame 0x120 7 [1; 2; 3; 4; 5; 6; 7] 900 in
  let st := HAL_CAN_RxFifo0MsgPendingCallback
              (light_frame 123456 700 65535 100) can_init in
  same_snapshot (HAL_CAN_RxFifo0MsgPendingCallback f st) st /\
  s_last_tick (HAL_CAN_RxFifo0MsgPendingCallback f st) = 900.
Proof.
  intros f st.
  apply (proj2 (undecoded_frames_leave_snapshot f st)).
  - reflexivity.
  - left. cbn. lia.
  - right. cbn. lia.
Defined.

Lemma callback_keeps_inv f st :
  can_inv st -> can_inv (HAL_CAN_RxFifo0MsgPendingCallback f st).
Proof.
  intros Hinv. pose proof Hinv as (H1 & H2 & H3 & H4 & H5 & H6 & H7 & H8 & H9 & H10).
  unfold HAL_CAN_RxFifo0MsgPendingCallback.
  destruct (on_can1 f), (get_ok f), (ide_std f), (rtr_data f);
    cbn [negb]; try exact Hinv.
  destruct ((StdId f =? 257) && (1 <=? DLC f)).
  - pose proof (byte_range (d f) 0) as Hb.
    pose proof (hb_text_length _ Hb).
    unfold can_inv. cbn -[hb_text Z.pow strncpy_z]. rewrite copy_hb.
    repeat split; try assumption; try lia; try (now right);
      try (intros; discriminate).
  - destruct ((StdId f =? 288) && (DLC f =? 8)).
    + assert (Hl : 0 <= u32_le (d f) < 2^32)
        by (unfold u32_le, u32; apply Z.mod_pos_bound; lia).
      assert (Hf : 0 <= u16_le (skipn 4 (d f)) < 2^16)
        by (unfold u16_le, u16; apply Z.mod_pos_bound; lia).
      assert (Hi : 0 <= u16_le (skipn 6 (d f)) < 2^16)
        by (unfold u16_le, u16; apply Z.mod_pos_bound; lia).
      pose proof (light_text_length _ _ _ Hl Hf Hi).
      unfold can_inv. cbn -[light_text Z.pow u32_le u16_le skipn strncpy_z].
      rewrite copy_light.
      repeat split; try assumption; try lia.
    + unfold can_inv. cbn -[Z.pow].
      repeat split; try assumption; try lia.
Qed.

Lemma run_keeps_inv frames : forall st,
  can_inv st -> can_inv (can_run frames st).
Proof.
  induction frames as [|f frames IH]; intros st H; [exact H|].
  unfold can_run in *. cbn [fold_left]. apply IH.
  now apply callback_keeps_inv.
Qed.

Lemma can_init_inv : can_inv can_init.
Proof.
  unfold can_inv, can_init. cbn -[Z.pow].
  repeat split; try lia; try (now left); try discriminate.
  all: change (2^32) with 4294967296; change (2^16) with 65536; lia.
Qed.

Lemma hb_text_not_none seq : strcmp_ne (hb_text seq) "none" = true.
Proof.
  unfold strcmp_ne. rewrite no_nul_c_str by apply hb_text_no_nul.
  rewrite hb_text_plain. reflexivity.
Qed.

(** X21.  After any sequence of receive interrupts since power-up,
    [CAN1_101_IsValid] is 1 exactly when a heartbeat has been received
    and the last one is at most 2000 ms old.  [CAN1_120_IsValid] looks at
    the age alone: during the first 2000 ms after power-up it is 1
    although no 0x120 frame has been received, while [CAN1_101_IsValid]
    is 0 and [CAN1_GetText_0x120] reads "none". *)
Theorem validity_of_snapshots :
  (forall (frames : list rx_frame) (now : Z),
     let st := can_run frames can_init in
     (CAN1_101_IsValid now st = 1 <->
      s_has101 st = 1 /\ u32 (u32 now - s_101_tick st) <= 2000) /\
     (CAN1_101_IsValid now st = 0 \/ CAN1_101_IsValid now st = 1)) /\
  (forall now : Z,
     0 <= now <= 2000 ->
     CAN1_120_IsValid now can_init = 1 /\ s_has120 can_init = 0 /\
     CAN1_101_IsValid now can_init = 0 /\
     CAN1_GetText_0x120 now can_init = "none"%string).
Proof.
  split.
  - intros frames now st.
    pose proof (run_keeps_inv frames can_init can_init_inv) as Hinv.
    fold st in Hinv. destruct Hinv as (H1 & H2 & H3 & _).
    unfold CAN1_101_IsValid, CAN1_GetText_0x101.
    destruct (Z.ltb_spec 2000 (u32 (u32 now - s_101_tick st))) as [Ho|Hf].
    + change (strcmp_ne "none" "none") with false. cbv iota.
      split; [|now left]. split; [discriminate|lia].
    + destruct H1 as [E|E].
      * rewrite (H2 E). change (strcmp_ne "none" "none") with false.
        cbv iota. split; [|now left]. split; [discriminate|].
        intros [E' _]. congruence.
      * rewrite (H3 E), hb_text_not_none. split; [|now right].
        split; [intros _; split; [exact E|exact Hf]|reflexivity].
  - intros now Hn. unfold CAN1_120_IsValid, CAN1_101_IsValid,
      CAN1_GetText_0x101, CAN1_GetText_0x120, can_init.
    cbn [s_120_tick s_101_tick s_has120 s_101_txt s_120_txt].
    rewrite Z.sub_0_r.
    rewrite !(u32_small now) by (change (2^32) with 4294967296; lia).
    destruct (Z.leb_spec now 2000); [|lia].
    destruct (Z.ltb_spec 2000 now); [lia|].
    now repeat split.
Qed.

Lemma validity_witness :
  0 <= 1500 <= 2000 /\
  CAN1_120_IsValid 1500 can_init = 1 /\
  CAN1_101_IsValid 1500 can_init = 0 /\
  CAN1_101_IsValid 1500
    (can_run [data_frame 0x101 1 [7] 1000] can_init) = 1.
Proof.
  split; [lia|].
  destruct (proj2 validity_of_snapshots 1500 ltac:(lia))
    as (H1 & _ & H2 & _).
  split; [exact H1|]. split; [exact H2|].
  apply (proj1 (proj1 validity_of_snapshots
                  [data_frame 0x101 1 [7] 1000] 1500)).
  split; [reflexivity|vm_compute; discriminate].
Defined.

(** X22.  Whatever frames arrive, in any order, the snapshot stays well
    formed: the flags are 0 or 1, the decoded numbers fit their C types,
    the 0x101 text is "none" until the first heartbeat and the printed
    heartbeat afterwards, and the texts never exceed 38 characters (10 for
    the 0x101 text), far inside their 128-byte buffers. *)
Theorem can_snapshot_stays_well_formed :
  forall frames : list rx_frame, can_inv (can_run frames can_init).
Proof.
  intros frames. apply run_keeps_inv. exact can_init_inv.
Qed.

End CanSnapshot.
